(** * eip7702cleaner: EIP-7702 transaction construction, fee estimation,
      confirmation polling and code inspection

    A shallow embedding of [pkg/cmd/clear.go], [pkg/cmd/check.go] and of the
    later generation of the same package (EIP-1559 aware fee estimation,
    the [Set] command), with the properties of the design document stated
    and settled against it.

    Conventions.
    - [[]byte] is [list byte]; Go [string]s are [string]s (both are byte
      sequences, a [string] is used where the source has text).
    - [*big.Int] is [Z]; [uint64] and [uint8] are [N]; [int64] is [Z] with
      the wrap-around of the conversion written out.
    - A Go result [(v, err)] is a value of [result]: [Ok v], [Err msg], or
      [Panic] where the Go runtime would abort (slice out of range).
    - Library code the program calls ([rlp], [hex], [crypto.Keccak256],
      [math/big]) is modelled here from the library; [crypto.Sign] is an
      interface ([Signer]) with the contract its documentation states. *)

From Stdlib.Strings Require Import String Ascii Byte.
From Stdlib Require Import ZArith NArith Arith Lia Bool List.
Import ListNotations.

Local Open Scope N_scope.

(* ================================================================== *)
(** * Part I: definitions *)
(* ================================================================== *)

(** ** Results of fallible Go calls *)

Inductive result (A : Type) : Type :=
| Ok (a : A)
| Err (msg : string)
| Panic.
Arguments Ok {A} a.
Arguments Err {A} msg.
Arguments Panic {A}.

Definition bind {A B : Type} (r : result A) (k : A -> result B) : result B :=
  match r with
  | Ok a => k a
  | Err e => Err e
  | Panic => Panic
  end.

Notation "x <- r ;; k" := (bind r (fun x => k))
  (at level 61, r at next level, right associativity).

(** ** Bytes *)

(** Go's [byte(n)] conversion: the low eight bits. *)
Definition byte_of_N (n : N) : byte :=
  match Byte.of_N (n mod 256) with
  | Some b => b
  | None => x00
  end.

(** [big.Int.Bytes] and the integer writer of [rlp]: the minimal big-endian
    representation; zero is the empty sequence. *)
Fixpoint be_go (fuel : nat) (n : N) (acc : list byte) : list byte :=
  match fuel with
  | O => acc
  | S f => if n =? 0 then acc else be_go f (n / 256) (byte_of_N n :: acc)
  end.

Definition be_bytes (n : N) : list byte := be_go (N.to_nat (N.size n)) n [].

(** [big.Int.SetBytes]: the big-endian value of a byte sequence. *)
Definition be_value (bs : list byte) : N :=
  fold_left (fun a b => a * 256 + Byte.to_N b) bs 0.

(** ** encoding/hex *)

Module Hex.

Definition hextable : string := "0123456789abcdef".

Definition digit (n : N) : ascii :=
  match String.get (N.to_nat n) hextable with
  | Some c => c
  | None => "0"%char
  end.

(** [hex.EncodeToString]. *)
Fixpoint EncodeToString (bs : list byte) : string :=
  match bs with
  | [] => EmptyString
  | b :: rest =>
      String (digit (Byte.to_N b / 16))
        (String (digit (Byte.to_N b mod 16)) (EncodeToString rest))
  end.

(** [fromHexChar]. *)
Definition fromHexChar (c : ascii) : option N :=
  let n := N_of_ascii c in
  if (48 <=? n) && (n <=? 57) then Some (n - 48)
  else if (97 <=? n) && (n <=? 102) then Some (n - 97 + 10)
  else if (65 <=? n) && (n <=? 70) then Some (n - 65 + 10)
  else None.

(** [hex.DecodeString]: an odd length or a character that is not a
    hexadecimal digit is an error. *)
Fixpoint DecodeString (s : string) : result (list byte) :=
  match s with
  | EmptyString => Ok []
  | String _ EmptyString => Err "encoding/hex: odd length hex string"
  | String hi (String lo rest) =>
      match fromHexChar hi, fromHexChar lo with
      | Some h, Some l =>
          bs <- DecodeString rest ;; Ok (byte_of_N (h * 16 + l) :: bs)
      | _, _ => Err "encoding/hex: invalid byte"
      end
  end.

End Hex.

(** ** crypto.Keccak256

    The original Keccak with rate 136 bytes, capacity 512 bits, padding
    byte 0x01 and a 32-byte output. The state is 25 lanes of 64 bits, lane
    (x, y) at index x + 5 y. *)

Module Keccak.

Definition w64 : N := 2 ^ 64.

Definition rotl (w : N) (r : N) : N :=
  N.lor (N.shiftl w r mod w64) (N.shiftr w (64 - r)).

Definition lane (st : list N) (x y : nat) : N :=
  nth ((x mod 5) + 5 * (y mod 5))%nat st 0.

Definition column (st : list N) (x : nat) : N :=
  N.lxor (lane st x 0)
    (N.lxor (lane st x 1) (N.lxor (lane st x 2)
       (N.lxor (lane st x 3) (lane st x 4)))).

Definition theta (st : list N) : list N :=
  map (fun i =>
         let x := (i mod 5)%nat in
         let d := N.lxor (column st (x + 4)) (rotl (column st (x + 1)) 1) in
         N.lxor (nth i st 0) d)
      (seq 0 25).

Definition rotc : list N :=
  [ 0;  1; 62; 28; 27;
   36; 44;  6; 55; 20;
    3; 10; 43; 25; 39;
   41; 45; 15; 21;  8;
   18;  2; 61; 56; 14].

(** rho and pi together: the lane written at (X, Y) comes from
    (X + 3 Y, X), rotated by that lane's offset. *)
Definition rhopi (st : list N) : list N :=
  map (fun i =>
         let X := (i mod 5)%nat in
         let Y := (i / 5)%nat in
         let x := ((X + 3 * Y) mod 5)%nat in
         let y := X in
         rotl (lane st x y) (nth (x + 5 * y) rotc 0))
      (seq 0 25).

Definition chi (st : list N) : list N :=
  map (fun i =>
         let x := (i mod 5)%nat in
         let y := (i / 5)%nat in
         let nb := N.lxor (lane st (x + 1) y) (w64 - 1) in
         N.lxor (lane st x y) (N.land nb (lane st (x + 2) y)))
      (seq 0 25).

Definition rc : list N :=
  [ 0x0000000000000001; 0x0000000000008082; 0x800000000000808A;
    0x8000000080008000; 0x000000000000808B; 0x0000000080000001;
    0x8000000080008081; 0x8000000000008009; 0x000000000000008A;
    0x0000000000000088; 0x0000000080008009; 0x000000008000000A;
    0x000000008000808B; 0x800000000000008B; 0x8000000000008089;
    0x8000000000008003; 0x8000000000008002; 0x8000000000000080;
    0x000000000000800A; 0x800000008000000A; 0x8000000080008081;
    0x8000000000008080; 0x0000000080000001; 0x8000000080008008 ].

Definition iota (c : N) (st : list N) : list N :=
  match st with
  | [] => []
  | a :: rest => N.lxor a c :: rest
  end.

Definition round (st : list N) (c : N) : list N :=
  iota c (chi (rhopi (theta st))).

Definition permute (st : list N) : list N := fold_left round rc st.

Definition rate : nat := 136.

(** pad10*1 with the Keccak domain byte 0x01. *)
Definition pad (msg : list byte) : list byte :=
  let k := (rate - (length msg mod rate))%nat in
  match k with
  | 1%nat => msg ++ [x81]
  | _ => msg ++ x01 :: repeat x00 (k - 2) ++ [x80]
  end.

(** A little-endian lane from eight bytes. *)
Definition lane_of_bytes (bs : list byte) : N :=
  fold_right (fun b acc => Byte.to_N b + 256 * acc) 0 bs.

Fixpoint lanes_of_block (n : nat) (bs : list byte) : list N :=
  match n with
  | O => []
  | S k => lane_of_bytes (firstn 8 bs) :: lanes_of_block k (skipn 8 bs)
  end.

Fixpoint xor_into (st blk : list N) : list N :=
  match st, blk with
  | a :: st', b :: blk' => N.lxor a b :: xor_into st' blk'
  | _, _ => st
  end.

Fixpoint absorb (blocks : nat) (st : list N) (msg : list byte) : list N :=
  match blocks with
  | O => st
  | S k =>
      absorb k
        (permute (xor_into st (lanes_of_block 17 (firstn rate msg))))
        (skipn rate msg)
  end.

Definition squeeze (st : list N) : list byte :=
  map (fun i => byte_of_N (N.shiftr (nth (i / 8) st 0) (8 * N.of_nat (i mod 8))))
      (seq 0 32).

Definition Keccak256 (msg : list byte) : list byte :=
  let p := pad msg in
  squeeze (absorb (length p / rate) (repeat 0 25) p).

End Keccak.

(** ** rlp (github.com/ethereum/go-ethereum/rlp) *)

Module RLP.

Local Unset Elimination Schemes.

(** What an RLP byte string denotes: a string or a list of items. *)
Inductive item : Type :=
| Str (bs : list byte)
| List (l : list item).

(** The head of a string (base 0x80) or list (base 0xC0) of the given
    content size: one byte below 56, else the size in big-endian after a
    byte that counts the size bytes. *)
Definition header (base : N) (size : nat) : list byte :=
  if (size <? 56)%nat then [byte_of_N (base + N.of_nat size)]
  else
    let sb := be_bytes (N.of_nat size) in
    byte_of_N (base + 55 + N.of_nat (length sb)) :: sb.

Fixpoint encode (x : item) : list byte :=
  match x with
  | Str bs =>
      match bs with
      | [b] => if Byte.to_N b <? 128 then [b] else header 0x80 1 ++ bs
      | _ => header 0x80 (length bs) ++ bs
      end
  | List l =>
      let payload := concat (map encode l) in
      header 0xC0 (length payload) ++ payload
  end.

(** Splitting [n] bytes off the input. *)
Definition take (n : nat) (bs : list byte) : result (list byte * list byte) :=
  if (length bs <? n)%nat
  then Err "rlp: value size exceeds available input length"
  else Ok (firstn n bs, skipn n bs).

(** [readSize]: a size of [slen] bytes; sizes below 56 and sizes with a
    leading zero byte are rejected. *)
Definition readSize (slen : nat) (bs : list byte)
  : result (nat * list byte) :=
  if (length bs <? slen)%nat then Err "unexpected EOF"
  else
    let sb := firstn slen bs in
    let s := be_value sb in
    if (s <? 56) || (match sb with b :: _ => Byte.to_N b =? 0 | [] => true end)
    then Err "rlp: non-canonical size information"
    else Ok (N.to_nat s, skipn slen bs).

(** One value off the front of the input, with the rest of the input.
    [fuel] bounds the nesting and the number of list elements. *)
Fixpoint decode (fuel : nat) (bs : list byte) : result (item * list byte) :=
  match fuel with
  | O => Err "rlp: out of fuel"
  | S f =>
      match bs with
      | [] => Err "unexpected EOF"
      | b :: rest =>
          let t := Byte.to_N b in
          if t <? 0x80 then Ok (Str [b], rest)
          else if t <? 0xB8 then
            sr <- take (N.to_nat (t - 0x80)) rest ;;
            match fst sr with
            | [c] =>
                if Byte.to_N c <? 128
                then Err "rlp: non-canonical size information"
                else Ok (Str (fst sr), snd sr)
            | _ => Ok (Str (fst sr), snd sr)
            end
          else if t <? 0xC0 then
            nr <- readSize (N.to_nat (t - 0xB7)) rest ;;
            sr <- take (fst nr) (snd nr) ;;
            Ok (Str (fst sr), snd sr)
          else if t <? 0xF8 then
            pr <- take (N.to_nat (t - 0xC0)) rest ;;
            l <- decode_list f (fst pr) ;;
            Ok (List l, snd pr)
          else
            nr <- readSize (N.to_nat (t - 0xF7)) rest ;;
            pr <- take (fst nr) (snd nr) ;;
            l <- decode_list f (fst pr) ;;
            Ok (List l, snd pr)
      end
  end
with decode_list (fuel : nat) (bs : list byte) : result (list item) :=
  match fuel with
  | O => Err "rlp: out of fuel"
  | S f =>
      match bs with
      | [] => Ok []
      | _ =>
          xr <- decode f bs ;;
          l <- decode_list f (snd xr) ;;
          Ok (fst xr :: l)
      end
  end.

(** Values as Go hands them to the encoder inside a [[]interface{}]. *)
Inductive value : Type :=
| BigInt (z : Z)            (* *big.Int *)
| Uint (n : N)              (* uint64, uint8 *)
| Bytes (bs : list byte)    (* []byte, common.Address *)
| Slice (l : list value).   (* []interface{} *)

Fixpoint to_item (v : value) : result item :=
  match v with
  | BigInt z =>
      if (z <? 0)%Z then Err "rlp: cannot encode negative big.Int"
      else Ok (Str (be_bytes (Z.to_N z)))
  | Uint n => Ok (Str (be_bytes n))
  | Bytes bs => Ok (Str bs)
  | Slice l =>
      xs <- fold_right
              (fun v acc => x <- to_item v ;; xs <- acc ;; Ok (x :: xs))
              (Ok []) l ;;
      Ok (List xs)
  end.

(** The elements of a slice, in order; the first error wins. *)
Definition to_items (l : list value) : result (list item) :=
  fold_right (fun v acc => x <- to_item v ;; xs <- acc ;; Ok (x :: xs))
    (Ok []) l.

(** Decoding into [interface{}] yields [[]byte] and [[]interface{}]. *)
Fixpoint of_item (x : item) : value :=
  match x with
  | Str bs => Bytes bs
  | List l => Slice (map of_item l)
  end.

(** [rlp.EncodeToBytes]. *)
Definition EncodeToBytes (v : value) : result (list byte) :=
  x <- to_item v ;; Ok (encode x).

(** [rlp.DecodeBytes] into a [[]interface{}]: the input is one list and
    nothing else. *)
Definition DecodeBytes (bs : list byte) : result (list value) :=
  xr <- decode (2 * length bs) bs ;;
  match xr with
  | (List l, []) => Ok (map of_item l)
  | (List _, _ :: _) => Err "rlp: input contains more than one value"
  | (Str _, _) => Err "rlp: expected input list for []interface {}"
  end.

End RLP.

Definition bytes_of_string (s : string) : list byte := list_byte_of_string s.

Definition unhex (s : string) : list byte :=
  match Hex.DecodeString s with Ok b => b | _ => [] end.

(** ** math/big *)

Module Big.

(** The digit value of a character as [nat.scan] reads it; letters of
    either case count from ten. *)
Definition digitVal (c : ascii) : option N :=
  let n := N_of_ascii c in
  if (48 <=? n) && (n <=? 57) then Some (n - 48)
  else if (97 <=? n) && (n <=? 122) then Some (n - 97 + 10)
  else if (65 <=? n) && (n <=? 90) then Some (n - 65 + 10)
  else None.

(** The digit loop of [nat.scan]: digits of the base are accumulated
    until the first character that is not one; the value, the number of
    digits and the unread rest are returned. *)
Fixpoint scanDigits (base : N) (s : string) (acc : N) (count : nat)
  : N * nat * string :=
  match s with
  | EmptyString => (acc, count, s)
  | String c rest =>
      match digitVal c with
      | Some d =>
          if d <? base then scanDigits base rest (acc * base + d) (S count)
          else (acc, count, s)
      | None => (acc, count, s)
      end
  end.

(** [new(big.Int).SetString(s, base)] for an explicit base: the value the
    receiver holds after the call, and the success flag. The program
    discards the flag and uses the receiver. An optional sign comes
    first; with no digit at all the receiver is zero; characters after
    the digits make the call fail, with the digits read so far left in
    the receiver. *)
Definition SetString (s : string) (base : N) : Z * bool :=
  match s with
  | EmptyString => (0%Z, false)
  | String c rest =>
      let neg := (c =? "-")%char in
      let body := if (c =? "-")%char || (c =? "+")%char then rest else s in
      match scanDigits base body 0 0 with
      | (_, O, _) => (0%Z, false)
      | (a, S _, rest') =>
          (if neg then (- Z.of_N a)%Z else Z.of_N a,
           match rest' with EmptyString => true | _ => false end)
      end
  end.

(** Two's complement wrap-around to 64 bits, signed. *)
Definition wrap_int64 (z : Z) : Z :=
  ((z + 2 ^ 63) mod 2 ^ 64 - 2 ^ 63)%Z.

(** [Int.Int64]: the low 64 bits of the magnitude as an [int64], negated
    for a negative receiver. *)
Definition Int64 (z : Z) : Z :=
  let v := wrap_int64 (Z.abs z mod 2 ^ 64) in
  if (z <? 0)%Z then wrap_int64 (- v) else v.

(** The conversion [uint64(x)] of an [int64]. *)
Definition uint64_of_int64 (z : Z) : N := Z.to_N (z mod 2 ^ 64).

End Big.

(** ** Go strings and slices *)

(** [s[n:]]: out of range when [s] is shorter than [n]. *)
Definition string_from (n : nat) (s : string) : result string :=
  if (String.length s <? n)%nat then Panic
  else Ok (substring n (String.length s - n) s).

(** [strings.HasPrefix]. *)
Fixpoint HasPrefix (s p : string) {struct p} : bool :=
  match p with
  | EmptyString => true
  | String a p' =>
      match s with
      | EmptyString => false
      | String b s' => (a =? b)%char && HasPrefix s' p'
      end
  end.

(** [strings.TrimPrefix]. *)
Definition TrimPrefix (s p : string) : string :=
  if HasPrefix s p then substring (String.length p) (String.length s - String.length p) s
  else s.

(** [strings.ToLower] on the ASCII letters; every other byte is kept. The
    program only asks whether the lower-cased text starts with "ef0100",
    and no character outside ASCII lower-cases to one of e, f, 0, 1. *)
Definition lower_char (c : ascii) : ascii :=
  let n := N_of_ascii c in
  if (65 <=? n) && (n <=? 90) then ascii_of_N (n + 32) else c.

Fixpoint ToLower (s : string) : string :=
  match s with
  | EmptyString => EmptyString
  | String c rest => String (lower_char c) (ToLower rest)
  end.

(** [b[lo:hi]] and [b[i]] on a byte slice. *)
Definition slice (lo hi : nat) (bs : list byte) : result (list byte) :=
  if (length bs <? hi)%nat then Panic else Ok (firstn (hi - lo) (skipn lo bs)).

Definition index (i : nat) (bs : list byte) : result byte :=
  match nth_error bs i with
  | Some b => Ok b
  | None => Panic
  end.

(** ** crypto.Sign

    [Sign(digestHash, prv)] is the signature library's entry point. Its
    documented contract: the signature has the form R || S || V, 65 bytes,
    where V is 0 or 1. *)

Class Signer : Type := {
  PrivateKey : Type;
  Sign : list byte -> PrivateKey -> result (list byte)
}.

Definition SignContract (signer : Signer) : Prop :=
  forall h k sig,
    Sign h k = Ok sig ->
    length sig = 65%nat /\ Byte.to_N (nth 64 sig x00) <= 1.

(** ** Transaction construction (clear.go) *)

(** [common.Address] is [[20]byte]; the length is a hypothesis where a
    statement depends on it. *)
Definition Address : Type := list byte.

(** [common.Address{}]. *)
Definition zeroAddress : Address := repeat x00 20.

Definition SET_CODE_TX_TYPE : byte := x04.
Definition MAGIC : byte := x05.

Import RLP.

(** The error of [rlp.Encode] is dropped; on an error nothing was written
    to the buffer. *)
Definition authTupleMessage (chainId : Z) (addr : Address) (nonce : N)
  : list byte :=
  let buf :=
    match EncodeToBytes (Slice [BigInt chainId; Bytes addr; Uint nonce]) with
    | Ok b => b
    | _ => []
    end in
  let msg := [MAGIC] ++ buf in
  Keccak.Keccak256 msg.

Section Transactions.

Context {signer : Signer}.

Record SetAuthorizationRequest : Type := {
  UserEOAPrivateKey : PrivateKey;
  UserEOANonce : N;
  RelayerEOAPrivateKey : PrivateKey;
  RelayerNonce : N;
  TemplateAddress : Address;
  ChainId : Z;
  GasTip : Z;
  GasFeeCap : Z;
  GasLimit : N
}.

Definition build7702Tx (chainId : Z) (userPriv : PrivateKey)
  (relayerNonce userNonce : N) (gasTip gasFeeCap : Z) (gasLimit : N)
  (contractAddr : Address) (txData : list byte) : result string :=
  let authMsg := authTupleMessage chainId contractAddr userNonce in
  sig <- Sign authMsg userPriv ;;
  rb <- slice 0 32 sig ;;
  sb <- slice 32 64 sig ;;
  yb <- index 64 sig ;;
  let r := Z.of_N (be_value rb) in
  let s := Z.of_N (be_value sb) in
  let yParity := Byte.to_N yb in
  let rawTx :=
    Slice [BigInt chainId; Uint relayerNonce; BigInt gasTip; BigInt gasFeeCap;
           Uint gasLimit; Bytes contractAddr; BigInt 0; Bytes txData;
           Slice [];
           Slice [Slice [BigInt chainId; Bytes contractAddr; Uint userNonce;
                         Uint yParity; BigInt r; BigInt s]]] in
  rlpPayload <- EncodeToBytes rawTx ;;
  let finalTx := [SET_CODE_TX_TYPE] ++ rlpPayload in
  Ok (Hex.EncodeToString finalTx).

Definition signEIP7702Tx (rawHex : string) (relayerPriv : PrivateKey)
  : result string :=
  txBytes <- Hex.DecodeString rawHex ;;
  match txBytes with
  | [] => Err "not a EIP-7702 tx hex"
  | b0 :: payload =>
      if negb (Byte.eqb b0 x04) then Err "not a EIP-7702 tx hex"
      else
        txRaw <- DecodeBytes payload ;;
        let hash := Keccak.Keccak256 ([x04] ++ payload) in
        sig <- Sign hash relayerPriv ;;
        rb <- slice 0 32 sig ;;
        sb <- slice 32 64 sig ;;
        yb <- index 64 sig ;;
        let r := Z.of_N (be_value rb) in
        let s := Z.of_N (be_value sb) in
        let yParity := Byte.to_N yb in
        let txRaw := txRaw ++ [Uint yParity; BigInt r; BigInt s] in
        finalPayload <- EncodeToBytes (Slice txRaw) ;;
        let finalTx := [x04] ++ finalPayload in
        Ok (Hex.EncodeToString finalTx)
  end.

End Transactions.

(** [GenerateSet7702AuthTx] exists in two generations of the package. *)

(** The one of [pkg/cmd/clear.go]: the delegate is [common.Address{}]. *)
Module clear_go.
Section S.
Context {signer : Signer}.

Definition GenerateSet7702AuthTx (req : SetAuthorizationRequest)
  : result string :=
  unsignedTxHex <-
    build7702Tx req.(ChainId) req.(UserEOAPrivateKey) req.(RelayerNonce)
      req.(UserEOANonce) req.(GasTip) req.(GasFeeCap) req.(GasLimit)
      zeroAddress [] ;;
  signedHex <- signEIP7702Tx unsignedTxHex req.(RelayerEOAPrivateKey) ;;
  Ok signedHex.
End S.
End clear_go.

(** The later one: the delegate is the request's [TemplateAddress]. *)
Module part_001.
Section S.
Context {signer : Signer}.

Definition GenerateSet7702AuthTx (req : SetAuthorizationRequest)
  : result string :=
  unsignedTxHex <-
    build7702Tx req.(ChainId) req.(UserEOAPrivateKey) req.(RelayerNonce)
      req.(UserEOANonce) req.(GasTip) req.(GasFeeCap) req.(GasLimit)
      req.(TemplateAddress) [] ;;
  signedHex <- signEIP7702Tx unsignedTxHex req.(RelayerEOAPrivateKey) ;;
  Ok signedHex.
End S.
End part_001.

(** ** The JSON-RPC node

    What one HTTP exchange gives a caller: either the transport failed
    ([http.Post] or reading the body returned an error), or a body arrived
    and [json.Unmarshal] left [v] in the target struct and returned
    [uerr]. Fields absent from the body keep their zero value; a body
    that is not JSON leaves the whole struct zero and sets [uerr]. *)

Inductive reply (A : Type) : Type :=
| Transport (e : string)
| Body (v : A) (uerr : option string).
Arguments Transport {A} e.
Arguments Body {A} v uerr.

Record TransactionReceipt : Type := {
  TransactionHash : string;
  TransactionIndex : string;
  BlockHash : string;
  BlockNumber : string;
  Status : string;
  GasUsed : string;
  CumulativeGasUsed : string
}.

Record RPCResponse : Type := {
  JSONRPC : string;
  ID : Z;
  Result : string;
  Error : option string   (* [interface{}]: nil, or the error rendered *)
}.

(** The answers of the node behind [rpcURL], one field per method the
    program calls. Receipts change while a transaction is pending, so that
    method is indexed by the number of earlier polls. For
    [eth_getBlockByNumber] the string is [result.baseFeePerGas]; for
    [eth_sendRawTransaction] the pair is [(result, error.message)]. *)
Record Node : Type := {
  eth_chainId : reply string;
  eth_getTransactionCount : string -> reply string;
  eth_gasPrice : reply string;
  eth_maxPriorityFeePerGas : reply string;
  eth_getBlockByNumber : reply string;
  eth_sendRawTransaction : string -> reply (string * string);
  eth_getTransactionReceipt : nat -> string -> reply (option TransactionReceipt)
}.

(** [getChainID]: the call, the unmarshalling, then [result.Result[2:]]
    parsed in base 16; the success flag of [SetString] is dropped. *)
Definition getChainID (rpc : Node) : result Z :=
  match rpc.(eth_chainId) with
  | Transport e => Err e
  | Body _ (Some e) => Err e
  | Body res None =>
      digits <- string_from 2 res ;;
      let chainID := fst (Big.SetString digits 16) in
      Ok chainID
  end.

(** [getNonce]: the same, returned through [nonce.Int64()]. *)
Definition getNonce (rpc : Node) (address : string) : result Z :=
  match rpc.(eth_getTransactionCount) address with
  | Transport e => Err e
  | Body _ (Some e) => Err e
  | Body res None =>
      digits <- string_from 2 res ;;
      let nonce := fst (Big.SetString digits 16) in
      Ok (Big.Int64 nonce)
  end.

Definition getGasPrice (rpc : Node) : result Z :=
  match rpc.(eth_gasPrice) with
  | Transport e => Err e
  | Body _ (Some e) => Err e
  | Body res None =>
      digits <- string_from 2 res ;;
      let gasPrice := fst (Big.SetString digits 16) in
      Ok gasPrice
  end.

Definition getTransactionReceipt (rpc : Node) (poll : nat) (txHash : string)
  : result (option TransactionReceipt) :=
  match rpc.(eth_getTransactionReceipt) poll txHash with
  | Transport e => Err e
  | Body _ (Some e) => Err e
  | Body receipt None => Ok receipt
  end.

(** ** Fee estimation *)

Definition minPriorityFee : Z := 100000000.

Definition fallbackGasFees (rpc : Node) : result (Z * Z) :=
  match getGasPrice rpc with
  | Err e => Err ("failed to get gas price for fallback: " ++ e)
  | Panic => Panic
  | Ok gasPrice =>
      let gasPrice :=
        if (gasPrice <? minPriorityFee)%Z then minPriorityFee else gasPrice in
      Ok (gasPrice, gasPrice)
  end.

Definition getSuggestedGasFees (rpc : Node) : result (Z * Z) :=
  match rpc.(eth_maxPriorityFeePerGas) with
  | Transport _ => fallbackGasFees rpc
  | Body _ (Some _) => fallbackGasFees rpc
  | Body priorityFeeResult None =>
      if (priorityFeeResult =? "")%string then fallbackGasFees rpc
      else
        let maxPriorityFeePerGas :=
          fst (Big.SetString (TrimPrefix priorityFeeResult "0x") 16) in
        match rpc.(eth_getBlockByNumber) with
        | Transport e => Err ("failed to get latest block: " ++ e)
        | Body _ (Some _) => fallbackGasFees rpc
        | Body baseFee None =>
            if (baseFee =? "")%string then fallbackGasFees rpc
            else
              let baseFeePerGas :=
                fst (Big.SetString (TrimPrefix baseFee "0x") 16) in
              let gasFeeCap := (baseFeePerGas * 2 + maxPriorityFeePerGas)%Z in
              if (maxPriorityFeePerGas <? minPriorityFee)%Z
              then
                let maxPriorityFeePerGas := minPriorityFee in
                let gasFeeCap := (baseFeePerGas * 2 + maxPriorityFeePerGas)%Z in
                Ok (maxPriorityFeePerGas, gasFeeCap)
              else Ok (maxPriorityFeePerGas, gasFeeCap)
        end
  end.

(** ** Broadcast and confirmation *)

(** Only the error of [http.Post] is looked at; the errors of
    [io.ReadAll] and [json.Unmarshal] are dropped. For this function
    [Transport] is therefore a failure of [http.Post] alone: a body that
    could not be read to its end arrives as [Body], with what
    [json.Unmarshal] made of the bytes that were read. *)
Definition broadcastRawTx (rawTxHex : string) (rpc : Node) : result string :=
  match rpc.(eth_sendRawTransaction) ("0x" ++ rawTxHex) with
  | Transport e => Err e
  | Body (res, message) _ =>
      if negb (message =? "")%string then Err message else Ok res
  end.

(** What the confirmation loop can observe and change: the seconds slept,
    the polls sent, the lines printed. *)
Record world : Type := {
  slept : N;
  polls : nat;
  stdout : list string
}.

Definition sleep (seconds : N) (w : world) : world :=
  {| slept := w.(slept) + seconds; polls := w.(polls); stdout := w.(stdout) |}.

Definition print (line : string) (w : world) : world :=
  {| slept := w.(slept); polls := w.(polls); stdout := w.(stdout) ++ [line] |}.

Definition polled (w : world) : world :=
  {| slept := w.(slept); polls := S w.(polls); stdout := w.(stdout) |}.

(** How the loop [for i := 0; i < 60; i++] is left: by [break], by
    [return fmt.Errorf(...)], or because [i] reached the bound. The lines
    printed are recorded without their line breaks and colours. *)
Inductive loop_exit : Type :=
| Mined
| Reverted (err : string)
| Exhausted.

Fixpoint pollLoop (rpc : Node) (txHash : string) (remaining : nat) (w : world)
  : world * loop_exit :=
  match remaining with
  | O => (w, Exhausted)
  | S n =>
      let w := sleep 5 w in
      let receipt := getTransactionReceipt rpc w.(polls) txHash in
      let w := polled w in
      match receipt with
      | Ok (Some rc) =>
          if (rc.(Status) =? "0x1")%string
          then (print "Transaction successfully mined!" w, Mined)
          else if (rc.(Status) =? "0x0")%string
          then (w, Reverted ("transaction failed: " ++ txHash))
          else pollLoop rpc txHash n (print "." w)
      | _ => pollLoop rpc txHash n (print "." w)
      end
  end.

(** The end of [Clear], from "Waiting for transaction to be mined..." on.
    The value is the [error] that [Clear] returns, [None] for [nil]. *)
Definition Clear_wait (rpc : Node) (rpcURL victimAddress txHash : string)
  (w : world) : world * loop_exit * option string :=
  let w := print "Waiting for transaction to be mined..." w in
  match pollLoop rpc txHash 60 w with
  | (w, Reverted e) => (w, Reverted e, Some e)
  | (w, how) =>
      let w := print "To verify the EIP-7702 authorization has been cleared, run:" w in
      let w := print ("eip7702cleaner check " ++ victimAddress
                        ++ " --rpc-url " ++ rpcURL) w in
      (w, how, None)
  end.

(** ** Code inspection (check.go) *)

Definition isHexChar (c : ascii) : bool :=
  match Hex.fromHexChar c with Some _ => true | None => false end.

Fixpoint allHex (s : string) : bool :=
  match s with
  | EmptyString => true
  | String c rest => isHexChar c && allHex rest
  end.

(** [common.IsHexAddress]. *)
Definition IsHexAddress (s : string) : bool :=
  let s := if HasPrefix s "0x" || HasPrefix s "0X"
           then substring 2 (String.length s - 2) s else s in
  (String.length s =? 40)%nat && allHex s.

(** Which of the three messages [Check] prints: the green one, the red
    ones with the contract address, or the yellow one. *)
Inductive verdict : Type :=
| Safe
| Delegated (contractAddr : string)
| MightBeContract.

(** The classification at the end of [Check]. *)
Definition classify (res : string) : verdict :=
  if (res =? "")%string || (res =? "0x")%string then Safe
  else
    let codeWithoutPrefix :=
      if HasPrefix res "0x"
      then substring 2 (String.length res - 2) res else res in
    let codeHexLower := ToLower codeWithoutPrefix in
    if HasPrefix codeHexLower "ef0100"
    then Delegated ("0x" ++ substring 6 (String.length codeWithoutPrefix - 6)
                                  codeWithoutPrefix)
    else MightBeContract.

(** [Check], from the validation of the address to the verdict. Here
    [Transport] is a failure of [httpClient.Do]; the failures of
    [json.Marshal], [http.NewRequest] and [io.ReadAll], each reported with
    a message of its own, are left out. *)
Definition Check (address : string) (rpc : reply RPCResponse) : result verdict :=
  if (address =? "")%string then Err "address is required"
  else if negb (IsHexAddress address)
  then Err ("invalid Ethereum address format: " ++ address)
  else
    match rpc with
    | Transport e => Err ("HTTP request failed: " ++ e)
    | Body _ (Some e) => Err ("failed to unmarshal JSON-RPC response: " ++ e)
    | Body rpcResponse None =>
        match rpcResponse.(Error) with
        | Some e => Err ("JSON-RPC error: " ++ e)
        | None => Ok (classify rpcResponse.(Result))
        end
    end.

(** ** Reference encodings of the design document

    These follow the document's words, not the code: section 4.1 for the
    authorization digest, section 4.3 for the field order of the envelope.
    The theorems of Part II compare the code with them. *)

Module Reference.

(** A non-negative integer as an RLP item: minimal big-endian bytes. *)
Definition Int (n : N) : item := Str (be_bytes n).

(** Section 4.1: Keccak-256 of 0x05 followed by the RLP encoding of
    [chain_id, delegate_address, authorizer_nonce]. *)
Definition authorization_digest (chain_id : N) (delegate : list byte)
  (nonce : N) : list byte :=
  Keccak.Keccak256
    (x05 :: encode (List [Int chain_id; Str delegate; Int nonce])).

(** r, s and the recovery id of a 65-byte signature R || S || V. *)
Definition sig_r (sig : list byte) : N := be_value (firstn 32 sig).
Definition sig_s (sig : list byte) : N := be_value (firstn 32 (skipn 32 sig)).
Definition sig_v (sig : list byte) : N := Byte.to_N (nth 64 sig x00).

(** The signed authorization tuple
    [chain_id, delegate, nonce, recovery_id, r, s]. *)
Definition authorization (chain_id : N) (delegate : list byte) (nonce : N)
  (sig : list byte) : item :=
  List [Int chain_id; Str delegate; Int nonce;
        Int (sig_v sig); Int (sig_r sig); Int (sig_s sig)].

(** Section 4.3: the envelope without the outer signature: chain_id,
    relayer_nonce, priority_fee, fee_cap, gas_limit, destination,
    value (= 0), data (= empty), access_list (= empty list), and the
    authorization list with its single entry. *)
Definition envelope (chain_id relayer_nonce priority_fee fee_cap gas_limit : N)
  (delegate : list byte) (authorizer_nonce : N) (auth_sig : list byte)
  : list item :=
  [Int chain_id; Int relayer_nonce; Int priority_fee; Int fee_cap;
   Int gas_limit; Str delegate; Int 0; Str []; List [];
   List [authorization chain_id delegate authorizer_nonce auth_sig]].

(** The outer signature as the last three fields of the final payload:
    recovery id, r, s. *)
Definition outer_fields (sig : list byte) : list item :=
  [Int (sig_v sig); Int (sig_r sig); Int (sig_s sig)].

(** The integer a string of hexadecimal digits denotes, most significant
    digit first. *)
Fixpoint hex_value (s : string) : N :=
  match s with
  | EmptyString => 0
  | String c rest =>
      match Hex.fromHexChar c with
      | Some d => d * 16 ^ N.of_nat (String.length rest) + hex_value rest
      | None => hex_value rest
      end
  end.

End Reference.

(** The top-level fields of a transaction in transport form: the hex text
    is a type byte 0x04 followed by one RLP list. *)
Definition topLevelFields (txHex : string) : result (list value) :=
  txBytes <- Hex.DecodeString txHex ;;
  match txBytes with
  | b0 :: payload =>
      if Byte.eqb b0 x04 then DecodeBytes payload
      else Err "not a EIP-7702 tx hex"
  | [] => Err "not a EIP-7702 tx hex"
  end.

(** ** A stand-in signer for the closed examples

    Deterministic and of the right shape (R || S || V, 65 bytes, V in
    {0, 1}); it is not ECDSA: R is the digest, S the key padded to 32
    bytes, V the parity of the digest. Keys are byte strings. *)
Definition exampleSign (h : list byte) (k : list byte) : result (list byte) :=
  if (length h =? 32)%nat
  then
    let r := h in
    let s := firstn 32 (k ++ repeat x00 32) in
    let v := byte_of_N (Byte.to_N (nth 31 h x00) mod 2) in
    Ok (r ++ s ++ [v])
  else Err "hash is required to be exactly 32 bytes".

Definition exampleSigner : Signer :=
  {| PrivateKey := list byte; Sign := exampleSign |}.

(** ** The end-to-end scenario of the design document

    Authorizer nonce 5, relayer nonce 12, chain id 1, the zero address as
    delegate, gas limit 100000, priority fee 100000000, fee cap
    2100000000. The keys are left open. *)
Definition scenario {signer : Signer} (userKey relayerKey : PrivateKey)
  : SetAuthorizationRequest :=
  {| UserEOAPrivateKey := userKey;
     UserEOANonce := 5;
     RelayerEOAPrivateKey := relayerKey;
     RelayerNonce := 12;
     TemplateAddress := zeroAddress;
     ChainId := 1;
     GasTip := 100000000;
     GasFeeCap := 2100000000;
     GasLimit := 100000 |}.

(** The envelope of the scenario, given the authorizer's signature. *)
Definition scenarioEnvelope (sigA : list byte) : list item :=
  Reference.envelope 1 12 100000000 2100000000 100000 zeroAddress 5 sigA.

(** The same request with a delegate of the caller's choice, as the [Set]
    command builds it. *)
Definition withTemplate {signer : Signer} (req : SetAuthorizationRequest)
  (templateAddress : Address) : SetAuthorizationRequest :=
  {| UserEOAPrivateKey := req.(UserEOAPrivateKey);
     UserEOANonce := req.(UserEOANonce);
     RelayerEOAPrivateKey := req.(RelayerEOAPrivateKey);
     RelayerNonce := req.(RelayerNonce);
     TemplateAddress := templateAddress;
     ChainId := req.(ChainId);
     GasTip := req.(GasTip);
     GasFeeCap := req.(GasFeeCap);
     GasLimit := req.(GasLimit) |}.

Definition exampleUserKey : list byte := repeat x11 32.
Definition exampleRelayerKey : list byte := repeat x22 32.

Definition exampleRequest : SetAuthorizationRequest (signer := exampleSigner) :=
  scenario (signer := exampleSigner) exampleUserKey exampleRelayerKey.

(** The value of a successful call, for the closed examples. *)
Definition value_of {A : Type} (default : A) (r : result A) : A :=
  match r with Ok a => a | _ => default end.

Definition exampleTemplate : Address :=
  unhex "0102030405060708090a0b0c0d0e0f1011121314".

(** The two signatures of the scenario under the stand-in signer, for the
    zero delegate and for [exampleTemplate]. *)
Definition exampleAuthSig (delegate : Address) : list byte :=
  value_of [] (exampleSign (authTupleMessage 1 delegate 5) exampleUserKey).

Definition exampleEnvelope (delegate : Address) : list item :=
  Reference.envelope 1 12 100000000 2100000000 100000 delegate 5
    (exampleAuthSig delegate).

Definition exampleOuterSig (delegate : Address) : list byte :=
  value_of []
    (exampleSign (Keccak.Keccak256 (x04 :: encode (List (exampleEnvelope delegate))))
       exampleRelayerKey).

(** ** Vocabulary for the statements about the node *)

(** The status the confirmation loop gets to see in a reply: that of a
    receipt that is present in a reply without error. *)
Definition receiptStatus (r : reply (option TransactionReceipt))
  : option string :=
  match r with
  | Body (Some rc) None => Some rc.(Status)
  | _ => None
  end.

(** A reply ends the loop when it carries status "0x1" or "0x0". *)
Definition decisive (r : reply (option TransactionReceipt)) : bool :=
  match receiptStatus r with
  | Some s => (s =? "0x1")%string || (s =? "0x0")%string
  | None => false
  end.

(** What [getChainID], [getNonce] and [getGasPrice] have in common: the
    integer read from one reply. *)
Definition hexResult (r : reply string) : result Z :=
  match r with
  | Transport e => Err e
  | Body _ (Some e) => Err e
  | Body res None =>
      digits <- string_from 2 res ;;
      Ok (fst (Big.SetString digits 16))
  end.

(** The range of a 256-bit quantity. *)
Definition uint256 (n : N) : Prop := n < 256 ^ N.of_nat 32.

(** The world after [k] polls that did not end the loop. *)
Fixpoint afterPending (k : nat) (w : world) : world :=
  match k with
  | O => w
  | S k' => afterPending k' (print "." (polled (sleep 5 w)))
  end.

(** The integer a fee string denotes to [getSuggestedGasFees]. *)
Definition feeValue (s : string) : Z :=
  fst (Big.SetString (TrimPrefix s "0x") 16).

(** The code string without a leading "0x", as [Check] computes it. *)
Definition codeWithoutPrefix (res : string) : string :=
  if HasPrefix res "0x" then substring 2 (String.length res - 2) res else res.

Definition isSafe (res : string) : Prop := res = ""%string \/ res = "0x"%string.

(** ** Nodes for the closed examples *)

Section ExampleNodes.

Local Open Scope string_scope.

Definition exampleNode (chainId count gasPrice priority baseFee : reply string)
  (send : reply (string * string))
  (receipts : nat -> reply (option TransactionReceipt)) : Node :=
  {| eth_chainId := chainId;
     eth_getTransactionCount := fun _ => count;
     eth_gasPrice := gasPrice;
     eth_maxPriorityFeePerGas := priority;
     eth_getBlockByNumber := baseFee;
     eth_sendRawTransaction := fun _ => send;
     eth_getTransactionReceipt := fun i _ => receipts i |}.

Definition exampleHash : string :=
  "0x9d3a1b1d0c7c5b9e6f2a4d8c3e1f0a7b6c5d4e3f2a1b0c9d8e7f6a5b4c3d2e1f".

Definition exampleReceipt (status : string) : TransactionReceipt :=
  {| TransactionHash := exampleHash;
     TransactionIndex := "0x0";
     BlockHash := "0x00";
     BlockNumber := "0x10";
     Status := status;
     GasUsed := "0x5208";
     CumulativeGasUsed := "0x5208" |}.

(** No receipt during the first [n] polls, then a receipt with [status]. *)
Definition receiptAfter (n : nat) (status : string) (i : nat)
  : reply (option TransactionReceipt) :=
  if (i <? n)%nat then Body None None
  else Body (Some (exampleReceipt status)) None.

(** A node of a chain with base fee 1 gwei that suggests a tip of 1 wei;
    the transaction is mined at the third poll. *)
Definition mainnetLike : Node :=
  exampleNode (Body "0x1" None) (Body "0x5" None) (Body "0x5f5e0ff" None)
    (Body "0x1" None) (Body "0x3b9aca00" None)
    (Body (exampleHash, "") None) (receiptAfter 2 "0x1").

(** The same node without [eth_maxPriorityFeePerGas]. *)
Definition legacyNode : Node :=
  exampleNode (Body "0x1" None) (Body "0x5" None) (Body "0x5f5e0ff" None)
    (Body "" None) (Body "" None)
    (Body (exampleHash, "") None) (receiptAfter 2 "0x0").

(** A node whose chain id and transaction count exceed 64 bits. *)
Definition wideNode : Node :=
  exampleNode (Body "0x400000000000000003" None)
    (Body "0x10000000000000000" None) (Body "0x400000000000000003" None)
    (Body "0x1" None) (Body "0x3b9aca00" None)
    (Body (exampleHash, "") None) (fun _ => Body None None).

(** A node that answers every call with an error object and no result. *)
Definition errorOnlyNode : Node :=
  exampleNode (Body "" None) (Body "" None) (Body "" None)
    (Body "" None) (Body "" None)
    (Body ("", "nonce too low") None) (fun _ => Body None None).

(** A gateway in front of the node that answers with a page that is not
    JSON: every struct stays zero and unmarshalling reports an error. *)
Definition badGateway : Node :=
  exampleNode
    (Body "" (Some "invalid character '<' looking for beginning of value"))
    (Body "" (Some "invalid character '<' looking for beginning of value"))
    (Body "" (Some "invalid character '<' looking for beginning of value"))
    (Body "" (Some "invalid character '<' looking for beginning of value"))
    (Body "" (Some "invalid character '<' looking for beginning of value"))
    (Body ("", "") (Some "invalid character '<' looking for beginning of value"))
    (fun _ =>
       Body None (Some "invalid character '<' looking for beginning of value")).

Definition freshWorld : world := {| slept := 0; polls := 0; stdout := [] |}.

End ExampleNodes.

(** ** [common.HexToAddress] *)

(** [common.Hex2Bytes] drops the error of [hex.DecodeString] and keeps what
    it decoded: the pairs of digits before the first character that is no
    hexadecimal digit. *)
Fixpoint Hex2Bytes (str : string) : list byte :=
  match str with
  | String hi (String lo rest) =>
      match Hex.fromHexChar hi, Hex.fromHexChar lo with
      | Some h, Some l => byte_of_N (h * 16 + l) :: Hex2Bytes rest
      | _, _ => []
      end
  | _ => []
  end.

Definition has0xPrefix (str : string) : bool :=
  HasPrefix str "0x" || HasPrefix str "0X".

Definition FromHex (s : string) : list byte :=
  let s := if has0xPrefix s then substring 2 (String.length s - 2) s else s in
  let s := if Nat.odd (String.length s) then ("0" ++ s)%string else s in
  Hex2Bytes s.

(** [Address.SetBytes]: the last 20 bytes of a longer slice; a shorter one
    is right-aligned in the zero address. *)
Definition BytesToAddress (b : list byte) : Address :=
  let b := if (20 <? length b)%nat then skipn (length b - 20) b else b in
  repeat x00 (20 - length b) ++ b.

Definition HexToAddress (s : string) : Address := BytesToAddress (FromHex s).

(** ** The commands, from the chain id to the broadcast

    [Clear] and [Set] between the parsing of the keys and the wait for the
    receipt. The keys that [crypto.HexToECDSA] returned, the text of the
    addresses derived from them and the word that [fmt.Scanln] stored in
    [confirmation] are arguments. The lines printed on the way are not
    recorded; [strings.ToLower] is compared with "y" and "yes" only, and no
    character outside ASCII lower-cases to one of their letters. *)

(** [fmt.Errorf("context: %w", err)]. *)
Definition wrapError {A : Type} (context : string) (r : result A) : result A :=
  match r with
  | Err e => Err (context ++ e)
  | other => other
  end.

(** What a command did and said: the signed transaction it handed to
    [broadcastRawTx], if it came that far, and the transaction hash or the
    error it went on with. *)
Record sending : Type := {
  broadcast : option string;
  returned : result string
}.

Definition send (rpc : Node) (signedTx : result string) : sending :=
  match signedTx with
  | Ok signedTx =>
      {| broadcast := Some signedTx;
         returned := wrapError "failed to broadcast transaction: "
                       (broadcastRawTx signedTx rpc) |}
  | Err e => {| broadcast := None; returned := Err e |}
  | Panic => {| broadcast := None; returned := Panic |}
  end.

Section Commands.

Context {signer : Signer}.

(** [Clear] of the later generation, up to "Broadcasting transaction...". *)
Definition Clear_transaction (rpc : Node) (gasLimit : N)
  (victimPrivateKey relayerPrivateKey : PrivateKey)
  (victimAddress relayerAddress confirmation : string) : result string :=
  chainID <- wrapError "failed to get chain ID: " (getChainID rpc) ;;
  victimNonce <-
    wrapError "failed to get victim nonce: " (getNonce rpc victimAddress) ;;
  relayerNonce <-
    wrapError "failed to get relayer nonce: " (getNonce rpc relayerAddress) ;;
  fees <-
    wrapError "failed to get suggested gas fees: " (getSuggestedGasFees rpc) ;;
  let gasTip := fst fees in
  let gasFeeCap := snd fees in
  if negb (ToLower confirmation =? "y")%string
     && negb (ToLower confirmation =? "yes")%string
  then Err "operation cancelled by user"
  else
    let req :=
      {| UserEOAPrivateKey := victimPrivateKey;
         UserEOANonce := Big.uint64_of_int64 victimNonce;
         RelayerEOAPrivateKey := relayerPrivateKey;
         RelayerNonce := Big.uint64_of_int64 relayerNonce;
         TemplateAddress := zeroAddress;
         ChainId := chainID;
         GasTip := gasTip;
         GasFeeCap := gasFeeCap;
         GasLimit := gasLimit |} in
    wrapError "failed to generate transaction: "
      (part_001.GenerateSet7702AuthTx req).

Definition Clear_send (rpc : Node) (gasLimit : N)
  (victimPrivateKey relayerPrivateKey : PrivateKey)
  (victimAddress relayerAddress confirmation : string) : sending :=
  send rpc (Clear_transaction rpc gasLimit victimPrivateKey relayerPrivateKey
              victimAddress relayerAddress confirmation).

(** [Clear] of [pkg/cmd/clear.go]: the fees come from the gas price alone,
    a tenth of it as tip and twice it as cap. *)
Definition Clear_transaction_legacy (rpc : Node) (gasLimit : N)
  (victimPrivateKey relayerPrivateKey : PrivateKey)
  (victimAddress relayerAddress confirmation : string) : result string :=
  chainID <- wrapError "failed to get chain ID: " (getChainID rpc) ;;
  victimNonce <-
    wrapError "failed to get victim nonce: " (getNonce rpc victimAddress) ;;
  relayerNonce <-
    wrapError "failed to get relayer nonce: " (getNonce rpc relayerAddress) ;;
  gasPrice <- wrapError "failed to get gas price: " (getGasPrice rpc) ;;
  let gasTip := (gasPrice / 10)%Z in
  let gasFeeCap := (gasPrice * 2)%Z in
  if negb (ToLower confirmation =? "y")%string
     && negb (ToLower confirmation =? "yes")%string
  then Err "operation cancelled by user"
  else
    let req :=
      {| UserEOAPrivateKey := victimPrivateKey;
         UserEOANonce := Big.uint64_of_int64 victimNonce;
         RelayerEOAPrivateKey := relayerPrivateKey;
         RelayerNonce := Big.uint64_of_int64 relayerNonce;
         TemplateAddress := zeroAddress;
         ChainId := chainID;
         GasTip := gasTip;
         GasFeeCap := gasFeeCap;
         GasLimit := gasLimit |} in
    wrapError "failed to generate transaction: "
      (clear_go.GenerateSet7702AuthTx req).

Definition Clear_send_legacy (rpc : Node) (gasLimit : N)
  (victimPrivateKey relayerPrivateKey : PrivateKey)
  (victimAddress relayerAddress confirmation : string) : sending :=
  send rpc (Clear_transaction_legacy rpc gasLimit victimPrivateKey
              relayerPrivateKey victimAddress relayerAddress confirmation).

(** [Set]: the address is validated before anything else happens. *)
Definition Set_transaction (contractAddress : string) (rpc : Node)
  (gasLimit : N) (userPrivateKey relayerPrivateKey : PrivateKey)
  (userAddress relayerAddress confirmation : string) : result string :=
  if negb (IsHexAddress contractAddress)
  then Err ("invalid contract address format: " ++ contractAddress)
  else
    let templateAddress := HexToAddress contractAddress in
    chainID <- wrapError "failed to get chain ID: " (getChainID rpc) ;;
    userNonce <-
      wrapError "failed to get user nonce: " (getNonce rpc userAddress) ;;
    relayerNonce <-
      wrapError "failed to get relayer nonce: " (getNonce rpc relayerAddress) ;;
    fees <-
      wrapError "failed to get suggested gas fees: " (getSuggestedGasFees rpc) ;;
    let gasTip := fst fees in
    let gasFeeCap := snd fees in
    if negb (ToLower confirmation =? "y")%string
       && negb (ToLower confirmation =? "yes")%string
    then Err "operation cancelled by user"
    else
      let req :=
        {| UserEOAPrivateKey := userPrivateKey;
           UserEOANonce := Big.uint64_of_int64 userNonce;
           RelayerEOAPrivateKey := relayerPrivateKey;
           RelayerNonce := Big.uint64_of_int64 relayerNonce;
           TemplateAddress := templateAddress;
           ChainId := chainID;
           GasTip := gasTip;
           GasFeeCap := gasFeeCap;
           GasLimit := gasLimit |} in
      wrapError "failed to generate transaction: "
        (part_001.GenerateSet7702AuthTx req).

Definition Set_send (contractAddress : string) (rpc : Node) (gasLimit : N)
  (userPrivateKey relayerPrivateKey : PrivateKey)
  (userAddress relayerAddress confirmation : string) : sending :=
  send rpc (Set_transaction contractAddress rpc gasLimit userPrivateKey
              relayerPrivateKey userAddress relayerAddress confirmation).

End Commands.

(* ================================================================== *)
(** * Part II: properties *)
(* ================================================================== *)

(** ** Bytes and big-endian integers *)

Lemma to_N_byte_of_N (n : N) : n < 256 -> Byte.to_N (byte_of_N n) = n.
Proof.
  intros Hn. unfold byte_of_N. rewrite N.mod_small by exact Hn.
  destruct (Byte.of_N n) eqn:E.
  - apply Byte.to_of_N. exact E.
  - apply Byte.of_N_None_iff in E. lia.
Qed.

Lemma byte_of_N_to_N (b : byte) : byte_of_N (Byte.to_N b) = b.
Proof.
  unfold byte_of_N. pose proof (Byte.to_N_bounded b) as Hb.
  rewrite N.mod_small by lia. now rewrite Byte.of_to_N.
Qed.

Lemma to_N_lt_256 (b : byte) : Byte.to_N b < 256.
Proof. pose proof (Byte.to_N_bounded b). lia. Qed.

Lemma to_N_byte_of_N_mod (n : N) : Byte.to_N (byte_of_N n) = n mod 256.
Proof.
  unfold byte_of_N.
  assert (Hlt : n mod 256 < 256) by (apply N.mod_lt; lia).
  destruct (Byte.of_N (n mod 256)) eqn:E.
  - apply Byte.to_of_N. exact E.
  - apply Byte.of_N_None_iff in E. lia.
Qed.

Lemma be_go_value (fuel : nat) : forall n acc,
  n < 2 ^ N.of_nat fuel ->
  fold_left (fun a b => a * 256 + Byte.to_N b) (be_go fuel n acc) 0
  = fold_left (fun a b => a * 256 + Byte.to_N b) acc n.
Proof.
  induction fuel as [|f IH]; intros n acc Hn.
  - simpl in *. assert (n = 0) by lia. now subst.
  - simpl. destruct (N.eqb_spec n 0) as [->|Hnz]; [reflexivity|].
    rewrite IH.
    + simpl. rewrite to_N_byte_of_N_mod. f_equal.
      pose proof (N.div_mod n 256). lia.
    + rewrite Nat2N.inj_succ, N.pow_succ_r' in Hn.
      apply N.Div0.div_lt_upper_bound.
      assert (2 ^ N.of_nat f > 0) by (apply N.lt_gt, N.neq_0_lt_0, N.pow_nonzero; lia).
      nia.
Qed.

Lemma size_spec (n : N) : n < 2 ^ N.of_nat (N.to_nat (N.size n)).
Proof. rewrite N2Nat.id. apply N.size_gt. Qed.

Lemma be_value_be_bytes (n : N) : be_value (be_bytes n) = n.
Proof.
  unfold be_value, be_bytes. rewrite be_go_value by apply size_spec.
  reflexivity.
Qed.

Lemma be_go_zero (fuel : nat) (acc : list byte) : be_go fuel 0 acc = acc.
Proof. destruct fuel; reflexivity. Qed.

Lemma div256_lt (n : N) (f : nat) :
  n < 2 ^ N.of_nat (S f) -> n / 256 < 2 ^ N.of_nat f.
Proof.
  intros Hn. rewrite Nat2N.inj_succ, N.pow_succ_r' in Hn.
  apply N.Div0.div_lt_upper_bound.
  assert (2 ^ N.of_nat f > 0)
    by (apply N.lt_gt, N.neq_0_lt_0, N.pow_nonzero; lia).
  nia.
Qed.

Lemma be_go_length (fuel : nat) : forall n k acc,
  n < 256 ^ N.of_nat k ->
  (length (be_go fuel n acc) <= k + length acc)%nat.
Proof.
  induction fuel as [|f IH]; intros n k acc Hn; simpl; [lia|].
  destruct (N.eqb_spec n 0) as [->|Hnz]; [lia|].
  destruct k as [|k]; [simpl in Hn; lia|].
  specialize (IH (n / 256) k (byte_of_N n :: acc)).
  simpl in IH. rewrite Nat2N.inj_succ, N.pow_succ_r' in Hn.
  assert (n / 256 < 256 ^ N.of_nat k)
    by (apply N.Div0.div_lt_upper_bound; lia).
  specialize (IH H). lia.
Qed.

Lemma be_bytes_length_le (n : N) (k : nat) :
  n < 256 ^ N.of_nat k -> (length (be_bytes n) <= k)%nat.
Proof.
  intros Hn. unfold be_bytes.
  pose proof (be_go_length (N.to_nat (N.size n)) n k [] Hn). simpl in H. lia.
Qed.

Lemma be_go_head (fuel : nat) : forall n acc,
  0 < n -> n < 2 ^ N.of_nat fuel ->
  exists b tl, be_go fuel n acc = b :: tl /\ Byte.to_N b <> 0.
Proof.
  induction fuel as [|f IH]; intros n acc Hpos Hn.
  - simpl in Hn. lia.
  - simpl. destruct (N.eqb_spec n 0) as [->|Hnz]; [lia|].
    destruct (N.eq_dec (n / 256) 0) as [Hz|Hz].
    + rewrite Hz, be_go_zero. exists (byte_of_N n), acc. split; [reflexivity|].
      rewrite to_N_byte_of_N_mod.
      pose proof (N.div_mod n 256 ltac:(lia)). lia.
    + apply IH; [now apply N.neq_0_lt_0 | now apply div256_lt].
Qed.

Lemma be_bytes_head (n : N) :
  0 < n -> exists b tl, be_bytes n = b :: tl /\ Byte.to_N b <> 0.
Proof. intros Hn. apply be_go_head; [exact Hn | apply size_spec]. Qed.

(** ** RLP: decoding inverts encoding *)

Module RLPFacts.
Import RLP.

Lemma take_app (bs rest : list byte) :
  take (length bs) (bs ++ rest) = Ok (bs, rest).
Proof.
  unfold take. rewrite length_app.
  destruct (Nat.ltb_spec (length bs + length rest) (length bs)); [lia|].
  rewrite firstn_app, Nat.sub_diag, firstn_all, firstn_O, app_nil_r.
  rewrite skipn_app, Nat.sub_diag, skipn_all. reflexivity.
Qed.

Lemma readSize_be (size : nat) (rest : list byte) :
  (56 <= size)%nat ->
  readSize (length (be_bytes (N.of_nat size)))
           (be_bytes (N.of_nat size) ++ rest) = Ok (size, rest).
Proof.
  intros Hsz. unfold readSize. rewrite length_app.
  destruct (Nat.ltb_spec (length (be_bytes (N.of_nat size)) + length rest)
              (length (be_bytes (N.of_nat size)))); [lia|].
  rewrite firstn_app, Nat.sub_diag, firstn_all, firstn_O, app_nil_r.
  rewrite skipn_app, Nat.sub_diag, skipn_all. simpl.
  rewrite be_value_be_bytes.
  destruct (be_bytes_head (N.of_nat size)) as (b & tl & Hb & Hnz); [lia|].
  rewrite Hb.
  destruct (N.ltb_spec (N.of_nat size) 56); [lia|].
  destruct (N.eqb_spec (Byte.to_N b) 0); [contradiction|].
  simpl. now rewrite Nat2N.id.
Qed.

(** The size bytes of a long header: between one and eight of them. *)
Lemma size_bytes_bounds (size : nat) :
  (56 <= size)%nat -> N.of_nat size < 2 ^ 64 ->
  (1 <= length (be_bytes (N.of_nat size)) <= 8)%nat.
Proof.
  intros Hsz Hlt. split.
  - destruct (be_bytes_head (N.of_nat size)) as (b & tl & Hb & _); [lia|].
    rewrite Hb. simpl. lia.
  - apply be_bytes_length_le. exact Hlt.
Qed.

Lemma decode_unfold (f : nat) (b : byte) (rest : list byte) :
  decode (S f) (b :: rest) =
    let t := Byte.to_N b in
    if t <? 0x80 then Ok (Str [b], rest)
    else if t <? 0xB8 then
      sr <- take (N.to_nat (t - 0x80)) rest ;;
      match fst sr with
      | [c] =>
          if Byte.to_N c <? 128
          then Err "rlp: non-canonical size information"
          else Ok (Str (fst sr), snd sr)
      | _ => Ok (Str (fst sr), snd sr)
      end
    else if t <? 0xC0 then
      nr <- readSize (N.to_nat (t - 0xB7)) rest ;;
      sr <- take (fst nr) (snd nr) ;;
      Ok (Str (fst sr), snd sr)
    else if t <? 0xF8 then
      pr <- take (N.to_nat (t - 0xC0)) rest ;;
      l <- decode_list f (fst pr) ;;
      Ok (List l, snd pr)
    else
      nr <- readSize (N.to_nat (t - 0xF7)) rest ;;
      pr <- take (fst nr) (snd nr) ;;
      l <- decode_list f (fst pr) ;;
      Ok (List l, snd pr).
Proof. reflexivity. Qed.

Lemma decode_list_unfold (f : nat) (b : byte) (rest : list byte) :
  decode_list (S f) (b :: rest) =
    xr <- decode f (b :: rest) ;;
    l <- decode_list f (snd xr) ;;
    Ok (fst xr :: l).
Proof. reflexivity. Qed.

Ltac ltb_cases :=
  repeat match goal with
    | |- context [?a <? ?b] => destruct (N.ltb_spec a b); try lia
    end.

Lemma decode_str_short (f : nat) (bs rest : list byte) :
  (length bs < 56)%nat ->
  (forall b, bs = [b] -> 128 <= Byte.to_N b) ->
  decode (S f) (byte_of_N (0x80 + N.of_nat (length bs)) :: bs ++ rest)
  = Ok (Str bs, rest).
Proof.
  intros Hlen Hsingle. rewrite decode_unfold. cbv zeta.
  rewrite to_N_byte_of_N by lia.
  ltb_cases.
  replace (N.to_nat (128 + N.of_nat (length bs) - 128)) with (length bs) by lia.
  rewrite take_app. simpl.
  destruct bs as [|c [|d tl]]; try reflexivity.
  specialize (Hsingle c eq_refl).
  destruct (N.ltb_spec (Byte.to_N c) 128); [lia | reflexivity].
Qed.

Lemma decode_str_long (f : nat) (bs rest : list byte) :
  (56 <= length bs)%nat -> N.of_nat (length bs) < 2 ^ 64 ->
  decode (S f)
    (byte_of_N (0x80 + 55 + N.of_nat (length (be_bytes (N.of_nat (length bs)))))
       :: be_bytes (N.of_nat (length bs)) ++ bs ++ rest)
  = Ok (Str bs, rest).
Proof.
  intros Hlen Hlt. rewrite decode_unfold. cbv zeta.
  pose proof (size_bytes_bounds (length bs) Hlen Hlt) as Hsb.
  rewrite to_N_byte_of_N by lia.
  ltb_cases.
  replace (N.to_nat (128 + 55 + N.of_nat (length (be_bytes (N.of_nat (length bs)))) - 183))
    with (length (be_bytes (N.of_nat (length bs)))) by lia.
  rewrite readSize_be by exact Hlen. simpl.
  rewrite take_app. reflexivity.
Qed.

Lemma decode_list_short (f : nat) (payload rest : list byte) :
  (length payload < 56)%nat ->
  decode (S f) (byte_of_N (0xC0 + N.of_nat (length payload)) :: payload ++ rest)
  = (l <- decode_list f payload ;; Ok (List l, rest)).
Proof.
  intros Hlen. rewrite decode_unfold. cbv zeta.
  rewrite to_N_byte_of_N by lia.
  ltb_cases.
  replace (N.to_nat (192 + N.of_nat (length payload) - 192))
    with (length payload) by lia.
  rewrite take_app. reflexivity.
Qed.

Lemma decode_list_long (f : nat) (payload rest : list byte) :
  (56 <= length payload)%nat -> N.of_nat (length payload) < 2 ^ 64 ->
  decode (S f)
    (byte_of_N (0xC0 + 55 + N.of_nat (length (be_bytes (N.of_nat (length payload)))))
       :: be_bytes (N.of_nat (length payload)) ++ payload ++ rest)
  = (l <- decode_list f payload ;; Ok (List l, rest)).
Proof.
  intros Hlen Hlt. rewrite decode_unfold. cbv zeta.
  pose proof (size_bytes_bounds (length payload) Hlen Hlt) as Hsb.
  rewrite to_N_byte_of_N by lia.
  ltb_cases.
  replace (N.to_nat (192 + 55 + N.of_nat (length (be_bytes (N.of_nat (length payload)))) - 247))
    with (length (be_bytes (N.of_nat (length payload)))) by lia.
  rewrite readSize_be by exact Hlen. simpl.
  rewrite take_app. reflexivity.
Qed.

Lemma header_short (base : N) (size : nat) :
  (size < 56)%nat -> header base size = [byte_of_N (base + N.of_nat size)].
Proof.
  intros H. unfold header. destruct (Nat.ltb_spec size 56); [reflexivity | lia].
Qed.

Lemma header_long (base : N) (size : nat) :
  (56 <= size)%nat ->
  header base size =
    byte_of_N (base + 55 + N.of_nat (length (be_bytes (N.of_nat size))))
      :: be_bytes (N.of_nat size).
Proof.
  intros H. unfold header. destruct (Nat.ltb_spec size 56); [lia | reflexivity].
Qed.

Lemma header_length_pos (base : N) (size : nat) :
  (1 <= length (header base size))%nat.
Proof. unfold header. destruct (size <? 56)%nat; simpl; lia. Qed.

Lemma encode_List (l : list item) :
  encode (List l) =
    header 0xC0 (length (concat (map encode l))) ++ concat (map encode l).
Proof. reflexivity. Qed.

Lemma encode_length_pos (x : item) : (1 <= length (encode x))%nat.
Proof.
  destruct x as [bs|l].
  - simpl. destruct bs as [|b [|c tl]].
    + simpl. lia.
    + destruct (Byte.to_N b <? 128); simpl; lia.
    + rewrite length_app. pose proof (header_length_pos 0x80 (length (b :: c :: tl))). lia.
  - rewrite encode_List, length_app.
    pose proof (header_length_pos 0xC0 (length (concat (map encode l)))). lia.
Qed.

(** The encoding of a string, by the shape of its head. *)
Lemma encode_Str_cases (bs : list byte) :
  (exists b, bs = [b] /\ Byte.to_N b < 128 /\ encode (Str bs) = [b])
  \/ ((length bs < 56)%nat /\ (forall b, bs = [b] -> 128 <= Byte.to_N b)
      /\ encode (Str bs) = byte_of_N (0x80 + N.of_nat (length bs)) :: bs)
  \/ ((56 <= length bs)%nat
      /\ encode (Str bs) =
           byte_of_N (0x80 + 55 + N.of_nat (length (be_bytes (N.of_nat (length bs)))))
             :: be_bytes (N.of_nat (length bs)) ++ bs).
Proof.
  destruct bs as [|b [|c tl]].
  - right; left. repeat split; [simpl; lia | discriminate].
  - simpl. destruct (N.ltb_spec (Byte.to_N b) 128).
    + left. exists b. auto.
    + right; left. repeat split; [simpl; lia|].
      intros b' [= <-]. exact H.
  - remember (b :: c :: tl) as bs eqn:E.
    assert (Henc : encode (Str bs) = header 0x80 (length bs) ++ bs)
      by (subst bs; reflexivity).
    rewrite Henc. unfold header.
    destruct (Nat.ltb_spec (length bs) 56).
    + right; left. repeat split; [exact H|].
      intros b' ->. subst. discriminate.
    + right; right. split; [exact H | reflexivity].
Qed.

Lemma decode_encode_fuel (fuel : nat) :
  (forall x rest,
      (2 * length (encode x) <= fuel)%nat ->
      N.of_nat (length (encode x)) < 2 ^ 64 ->
      decode fuel (encode x ++ rest) = Ok (x, rest))
  /\ (forall l,
      (2 * length (concat (map encode l)) + 1 <= fuel)%nat ->
      N.of_nat (length (concat (map encode l))) < 2 ^ 64 ->
      decode_list fuel (concat (map encode l)) = Ok l).
Proof.
  induction fuel as [|f [IHd IHl]].
  - split.
    + intros x rest Hf _. pose proof (encode_length_pos x). lia.
    + intros l Hf _. lia.
  - split.
    + intros [bs|l] rest Hf Hsz.
      * destruct (encode_Str_cases bs)
          as [(b & -> & Hb & Henc) | [(Hlen & Hs & Henc) | (Hlen & Henc)]];
          rewrite Henc in *.
        -- cbn [app]. rewrite decode_unfold. cbv zeta.
           destruct (N.ltb_spec (Byte.to_N b) 128); [reflexivity | lia].
        -- cbn [app]. now apply decode_str_short.
        -- cbn [app]. rewrite <- app_assoc. apply decode_str_long; [exact Hlen|].
           simpl in Hsz. rewrite length_app in Hsz. lia.
      * rewrite encode_List in *. rewrite length_app in Hf, Hsz.
        pose proof (header_length_pos 0xC0 (length (concat (map encode l)))) as Hh.
        destruct (Nat.ltb_spec (length (concat (map encode l))) 56) as [Hlen|Hlen].
        -- rewrite header_short by exact Hlen. cbn [app].
           rewrite decode_list_short by exact Hlen.
           rewrite IHl by lia. reflexivity.
        -- rewrite header_long by exact Hlen. cbn [app]. rewrite <- app_assoc.
           rewrite decode_list_long by (try exact Hlen; lia).
           rewrite IHl by lia. reflexivity.
    + intros [|x l] Hf Hsz; [reflexivity|].
      simpl map in *. simpl concat in *. rewrite length_app in Hf, Hsz.
      pose proof (encode_length_pos x) as Hx.
      destruct (encode x ++ concat (map encode l)) as [|b tl] eqn:E.
      { apply (f_equal (@length byte)) in E. rewrite length_app in E.
        simpl in E. lia. }
      rewrite decode_list_unfold, <- E.
      rewrite IHd by lia. simpl.
      rewrite IHl by lia. reflexivity.
Qed.

Lemma to_item_of_item (x : item) : to_item (of_item x) = Ok x.
Proof.
  revert x. fix IH 1. intros [bs|l]; [reflexivity|].
  simpl. assert (Hl :
    fold_right (fun v acc => x <- to_item v ;; xs <- acc ;; Ok (x :: xs))
      (Ok []) (map of_item l) = Ok l).
  { induction l as [|x l IHl]; [reflexivity|].
    simpl. rewrite IH, IHl. reflexivity. }
  rewrite Hl. reflexivity.
Qed.

(** Decoding what [EncodeToBytes] produced for a slice gives back the
    generic image of its elements. *)
Theorem DecodeBytes_encode (l : list item) :
  N.of_nat (length (encode (List l))) < 2 ^ 64 ->
  DecodeBytes (encode (List l)) = Ok (map of_item l).
Proof.
  intros Hsz. unfold DecodeBytes.
  destruct (decode_encode_fuel (2 * length (encode (List l)))) as [Hd _].
  specialize (Hd (List l) [] (Nat.le_refl _) Hsz).
  rewrite app_nil_r in Hd. rewrite Hd. reflexivity.
Qed.

End RLPFacts.

(** ** Hexadecimal text *)

Lemma hex_byte_roundtrip (b : byte) :
  Hex.fromHexChar (Hex.digit (Byte.to_N b / 16)) = Some (Byte.to_N b / 16)
  /\ Hex.fromHexChar (Hex.digit (Byte.to_N b mod 16)) = Some (Byte.to_N b mod 16).
Proof. destruct b; split; reflexivity. Qed.

Lemma hex_roundtrip (bs : list byte) :
  Hex.DecodeString (Hex.EncodeToString bs) = Ok bs.
Proof.
  induction bs as [|b bs IH]; [reflexivity|].
  cbn [Hex.EncodeToString Hex.DecodeString].
  destruct (hex_byte_roundtrip b) as [-> ->].
  rewrite IH. cbn [bind]. f_equal. f_equal.
  rewrite <- (byte_of_N_to_N b) at 3. f_equal.
  pose proof (N.div_mod (Byte.to_N b) 16 ltac:(lia)). lia.
Qed.

(** ** Keccak-256 *)

Lemma Keccak256_length (msg : list byte) : length (Keccak.Keccak256 msg) = 32%nat.
Proof.
  unfold Keccak.Keccak256, Keccak.squeeze.
  now rewrite length_map, length_seq.
Qed.

Example Keccak256_empty :
  Hex.EncodeToString (Keccak.Keccak256 [])
  = "c5d2460186f7233c927e7db2dcc703c0e500b653ca82273b7bfad8045d85a470"%string.
Proof. vm_compute. reflexivity. Qed.

Example Keccak256_abc :
  Hex.EncodeToString (Keccak.Keccak256 (bytes_of_string "abc"))
  = "4e03657aea45a94fc7d47ba826c8d667c0d1e6e33a64a036ec44f58fa12d6c45"%string.
Proof. vm_compute. reflexivity. Qed.

(** Inputs of one byte less than a block, exactly one block, and several
    blocks. *)
Example Keccak256_blocks :
  Hex.EncodeToString (Keccak.Keccak256 (repeat "a"%byte 135))
  = "34367dc248bbd832f4e3e69dfaac2f92638bd0bbd18f2912ba4ef454919cf446"%string
  /\ Hex.EncodeToString (Keccak.Keccak256 (repeat "a"%byte 136))
  = "a6c4d403279fe3e0af03729caada8374b5ca54d8065329a3ebcaeb4b60aa386e"%string
  /\ Hex.EncodeToString (Keccak.Keccak256 (repeat "x"%byte 300))
  = "956875d0d3af4718863b89e475911881cebd1cd08cfe3c2fcd0890d29def1e37"%string.
Proof. vm_compute. auto. Qed.

(** ** The authorization digest *)

Lemma be_value_lt (bs : list byte) : be_value bs < 256 ^ N.of_nat (length bs).
Proof.
  unfold be_value.
  assert (H : forall a,
    fold_left (fun a b => a * 256 + Byte.to_N b) bs a
    < (a + 1) * 256 ^ N.of_nat (length bs)).
  { induction bs as [|b bs IH]; intros a.
    - simpl. lia.
    - cbn [fold_left length]. rewrite Nat2N.inj_succ, N.pow_succ_r'.
      specialize (IH (a * 256 + Byte.to_N b)).
      pose proof (to_N_lt_256 b).
      assert (0 < 256 ^ N.of_nat (length bs))
        by (apply N.neq_0_lt_0, N.pow_nonzero; lia).
      nia. }
  specialize (H 0). lia.
Qed.

Lemma to_item_BigInt (z : Z) :
  (0 <= z)%Z -> to_item (BigInt z) = Ok (Reference.Int (Z.to_N z)).
Proof.
  intros Hz. simpl. destruct (Z.ltb_spec z 0); [lia | reflexivity].
Qed.

Lemma to_item_BigInt_of_N (n : N) :
  to_item (BigInt (Z.of_N n)) = Ok (Reference.Int n).
Proof. rewrite to_item_BigInt by lia. now rewrite N2Z.id. Qed.

Lemma to_item_Slice (l : list value) :
  to_item (Slice l) = (xs <- to_items l ;; Ok (List xs)).
Proof. reflexivity. Qed.

Lemma to_items_cons (v : value) (l : list value) :
  to_items (v :: l) = (x <- to_item v ;; xs <- to_items l ;; Ok (x :: xs)).
Proof. reflexivity. Qed.

Lemma to_items_app (l1 l2 : list value) (x1 x2 : list item) :
  to_items l1 = Ok x1 -> to_items l2 = Ok x2 ->
  to_items (l1 ++ l2) = Ok (x1 ++ x2).
Proof.
  revert x1. induction l1 as [|v l1 IH]; intros x1 H1 H2.
  - injection H1 as <-. exact H2.
  - cbn [app]. rewrite to_items_cons in *.
    destruct (to_item v) as [x| |]; try discriminate. cbn [bind] in *.
    destruct (to_items l1) as [xs| |]; try discriminate. cbn [bind] in *.
    injection H1 as <-. rewrite (IH xs eq_refl H2). reflexivity.
Qed.

Lemma to_items_of_items (l : list item) : to_items (map of_item l) = Ok l.
Proof.
  induction l as [|x l IH]; [reflexivity|].
  cbn [map]. rewrite to_items_cons, RLPFacts.to_item_of_item, IH. reflexivity.
Qed.

Lemma authTupleMessage_reference (chainId : Z) (addr : Address) (nonce : N) :
  (0 <= chainId)%Z ->
  authTupleMessage chainId addr nonce
  = Reference.authorization_digest (Z.to_N chainId) addr nonce.
Proof.
  intros Hc. unfold authTupleMessage, Reference.authorization_digest, EncodeToBytes.
  rewrite to_item_Slice, !to_items_cons, to_item_BigInt by exact Hc.
  reflexivity.
Qed.

(** A 20-byte string is encoded behind the single head byte 0x94. *)
Lemma encode_address (addr : Address) :
  length addr = 20%nat -> encode (Str addr) = x94 :: addr.
Proof.
  intros Hlen.
  do 20 (destruct addr as [|? addr]; [discriminate|]).
  destruct addr; [reflexivity | discriminate].
Qed.

(** C1. For every non-negative chain id, 20-byte delegate address and
    authorizer nonce, [authTupleMessage] is Keccak-256 of the magic byte
    0x05 followed by the RLP encoding of the list
    [chain_id, delegate_address, authorizer_nonce] (the address behind the
    head byte 0x94); the digest has 32 bytes; and it depends on nothing but
    the three inputs. *)
Theorem C1_authorization_digest (chainId : Z) (addr : Address) (nonce : N) :
  (0 <= chainId)%Z -> length addr = 20%nat ->
  authTupleMessage chainId addr nonce
  = Keccak.Keccak256
      (x05 :: encode (List [Str (be_bytes (Z.to_N chainId)); Str addr;
                            Str (be_bytes nonce)]))
  /\ authTupleMessage chainId addr nonce
     = Reference.authorization_digest (Z.to_N chainId) addr nonce
  /\ encode (Str addr) = x94 :: addr
  /\ length (authTupleMessage chainId addr nonce) = 32%nat
  /\ (forall chainId' addr' nonce',
        chainId' = chainId -> addr' = addr -> nonce' = nonce ->
        authTupleMessage chainId' addr' nonce'
        = authTupleMessage chainId addr nonce).
Proof.
  intros Hc Hlen. split; [|split; [|split; [|split]]].
  - now rewrite authTupleMessage_reference.
  - now apply authTupleMessage_reference.
  - now apply encode_address.
  - apply Keccak256_length.
  - intros ? ? ? -> -> ->. reflexivity.
Qed.

Lemma C1_authorization_digest_witness :
  (0 <= 1)%Z /\ length zeroAddress = 20%nat
  /\ length (authTupleMessage 1 zeroAddress 5) = 32%nat.
Proof.
  split; [lia|]. split; [reflexivity|].
  apply (C1_authorization_digest 1 zeroAddress 5); [lia | reflexivity].
Defined.

(** The reference vector for chain id 1, the zero address and nonce 5: the
    signing preimage and its digest. *)
Example authTupleMessage_vector :
  Hex.EncodeToString
    (x05 :: encode (List [Reference.Int 1; Str zeroAddress; Reference.Int 5]))
  = "05d70194000000000000000000000000000000000000000005"%string
  /\ Hex.EncodeToString (authTupleMessage 1 zeroAddress 5)
  = "e629e81fda439064a905f77d6faa9464b83ee243fc081dd2a6da7104dfea28d0"%string.
Proof. vm_compute. auto. Qed.

(** A chain id beyond 64 bits, a non-zero address, the largest nonce. *)
Example authTupleMessage_vector_wide :
  Hex.EncodeToString
    (authTupleMessage (2 ^ 70 + 3)
       (unhex "0102030405060708090a0b0c0d0e0f1011121314") (2 ^ 64 - 1))
  = "4a51c985c02663dd97d20d657e387dfac36b536bf723ca6601f7b88f90f51c1c"%string.
Proof. vm_compute. reflexivity. Qed.

(** ** Building and signing the transaction *)

Lemma slice_ok (lo hi : nat) (bs : list byte) :
  (hi <= length bs)%nat -> slice lo hi bs = Ok (firstn (hi - lo) (skipn lo bs)).
Proof.
  intros H. unfold slice. destruct (Nat.ltb_spec (length bs) hi); [lia | reflexivity].
Qed.

Lemma index_ok (i : nat) (bs : list byte) :
  (i < length bs)%nat -> index i bs = Ok (nth i bs x00).
Proof.
  intros H. unfold index.
  destruct (nth_error bs i) eqn:E.
  - now rewrite (nth_error_nth _ _ _ E).
  - apply nth_error_None in E. lia.
Qed.

Lemma to_item_Uint (n : N) : to_item (Uint n) = Ok (Reference.Int n).
Proof. reflexivity. Qed.

Lemma to_item_Bytes (bs : list byte) : to_item (Bytes bs) = Ok (Str bs).
Proof. reflexivity. Qed.

Lemma to_items_nil : to_items [] = Ok [].
Proof. reflexivity. Qed.

Ltac to_item_steps :=
  repeat (rewrite ?to_item_Slice, ?to_items_cons, ?to_item_BigInt_of_N,
            ?to_item_Uint, ?to_item_Bytes, ?to_items_nil;
          try rewrite to_item_BigInt by (assumption || lia);
          cbn [bind]).

Section Pipeline.

Context {signer : Signer}.
Hypothesis signer_ok : SignContract signer.

Lemma build7702Tx_reference
  (chainId : Z) (userPriv : PrivateKey) (relayerNonce userNonce : N)
  (gasTip gasFeeCap : Z) (gasLimit : N) (addr : Address) (sigA : list byte) :
  (0 <= chainId)%Z -> (0 <= gasTip)%Z -> (0 <= gasFeeCap)%Z ->
  Sign (authTupleMessage chainId addr userNonce) userPriv = Ok sigA ->
  build7702Tx chainId userPriv relayerNonce userNonce gasTip gasFeeCap
    gasLimit addr []
  = Ok (Hex.EncodeToString
          (x04 :: encode (List (Reference.envelope (Z.to_N chainId)
                                  relayerNonce (Z.to_N gasTip)
                                  (Z.to_N gasFeeCap) gasLimit addr
                                  userNonce sigA)))).
Proof.
  intros Hc Ht Hf HS. unfold build7702Tx. rewrite HS. cbn [bind].
  destruct (signer_ok _ _ _ HS) as [Hlen _].
  rewrite !slice_ok, index_ok by lia. cbn [bind].
  unfold EncodeToBytes. to_item_steps.
  reflexivity.
Qed.

Lemma signEIP7702Tx_reference
  (items : list item) (relayerPriv : PrivateKey) (sigO : list byte) :
  N.of_nat (length (encode (List items))) < 2 ^ 64 ->
  Sign (Keccak.Keccak256 (x04 :: encode (List items))) relayerPriv = Ok sigO ->
  signEIP7702Tx (Hex.EncodeToString (x04 :: encode (List items))) relayerPriv
  = Ok (Hex.EncodeToString
          (x04 :: encode (List (items ++ Reference.outer_fields sigO)))).
Proof.
  intros Hsz HS. unfold signEIP7702Tx.
  rewrite hex_roundtrip. cbn [bind Byte.eqb negb].
  rewrite RLPFacts.DecodeBytes_encode by exact Hsz. cbn [bind app].
  rewrite HS. cbn [bind].
  destruct (signer_ok _ _ _ HS) as [Hlen _].
  rewrite !slice_ok, index_ok by lia. cbn [bind].
  unfold EncodeToBytes. rewrite to_item_Slice.
  rewrite (to_items_app _ _ items (Reference.outer_fields sigO)).
  - reflexivity.
  - apply to_items_of_items.
  - to_item_steps. reflexivity.
Qed.

End Pipeline.

Lemma exampleSign_contract : SignContract exampleSigner.
Proof.
  intros h k sig H. change (exampleSign h k = Ok sig) in H.
  unfold exampleSign in H.
  destruct (Nat.eqb_spec (length h) 32) as [Hr|]; [|discriminate].
  assert (Hs : length (firstn 32 (k ++ repeat x00 32)) = 32%nat).
  { rewrite length_firstn, length_app, repeat_length. lia. }
  remember (firstn 32 (k ++ repeat x00 32)) as s eqn:Es. clear Es.
  injection H as <-.
  split.
  - rewrite !length_app, Hr, Hs. reflexivity.
  - rewrite app_nth2 by lia. rewrite app_nth2 by lia.
    rewrite Hr, Hs. cbn [Nat.sub nth].
    rewrite to_N_byte_of_N_mod.
    assert (Byte.to_N (nth 31 h x00) mod 2 < 2) by (apply N.mod_lt; lia).
    rewrite N.mod_small by lia. lia.
Qed.

Lemma topLevelFields_encode (items : list item) :
  N.of_nat (length (encode (List items))) < 2 ^ 64 ->
  topLevelFields (Hex.EncodeToString (x04 :: encode (List items)))
  = Ok (map of_item items).
Proof.
  intros Hsz. unfold topLevelFields. rewrite hex_roundtrip.
  cbn [bind Byte.eqb]. now apply RLPFacts.DecodeBytes_encode.
Qed.

(** C2. The outer (relayer) signature is the signature, with the relayer's
    key, of Keccak-256 of the type byte 0x04 followed by the RLP encoding
    of the envelope without the outer signature fields; that envelope
    already embeds the signed authorization tuple as
    [chain_id, delegate, nonce, recovery_id, r, s]. The signature has 65
    bytes, and its last byte goes into the final payload as it is. Whenever
    the two signing calls succeed, [GenerateSet7702AuthTx] returns the hex
    text of 0x04 and the envelope extended by recovery id, r and s. *)
Theorem C2_outer_signature {signer : Signer}
  (req : SetAuthorizationRequest) (sigA sigO : list byte) :
  SignContract signer ->
  (0 <= req.(ChainId))%Z -> (0 <= req.(GasTip))%Z -> (0 <= req.(GasFeeCap))%Z ->
  N.of_nat (length (encode (List
     (Reference.envelope (Z.to_N req.(ChainId)) req.(RelayerNonce)
        (Z.to_N req.(GasTip)) (Z.to_N req.(GasFeeCap)) req.(GasLimit)
        req.(TemplateAddress) req.(UserEOANonce) sigA)))) < 2 ^ 64 ->
  Sign (authTupleMessage req.(ChainId) req.(TemplateAddress) req.(UserEOANonce))
       req.(UserEOAPrivateKey) = Ok sigA ->
  Sign (Keccak.Keccak256
          (x04 :: encode (List
             (Reference.envelope (Z.to_N req.(ChainId)) req.(RelayerNonce)
                (Z.to_N req.(GasTip)) (Z.to_N req.(GasFeeCap)) req.(GasLimit)
                req.(TemplateAddress) req.(UserEOANonce) sigA))))
       req.(RelayerEOAPrivateKey) = Ok sigO ->
  part_001.GenerateSet7702AuthTx req
  = Ok (Hex.EncodeToString
          (x04 :: encode (List
             (Reference.envelope (Z.to_N req.(ChainId)) req.(RelayerNonce)
                (Z.to_N req.(GasTip)) (Z.to_N req.(GasFeeCap)) req.(GasLimit)
                req.(TemplateAddress) req.(UserEOANonce) sigA
              ++ [Str (be_bytes (Byte.to_N (nth 64 sigO x00)));
                  Str (be_bytes (be_value (firstn 32 sigO)));
                  Str (be_bytes (be_value (firstn 32 (skipn 32 sigO))))]))))
  /\ length sigO = 65%nat
  /\ nth 9 (Reference.envelope (Z.to_N req.(ChainId)) req.(RelayerNonce)
              (Z.to_N req.(GasTip)) (Z.to_N req.(GasFeeCap)) req.(GasLimit)
              req.(TemplateAddress) req.(UserEOANonce) sigA) (Str [])
     = List [List [Str (be_bytes (Z.to_N req.(ChainId)));
                   Str req.(TemplateAddress);
                   Str (be_bytes req.(UserEOANonce));
                   Str (be_bytes (Byte.to_N (nth 64 sigA x00)));
                   Str (be_bytes (be_value (firstn 32 sigA)));
                   Str (be_bytes (be_value (firstn 32 (skipn 32 sigA))))]].
Proof.
  intros Hok Hc Ht Hf Hsz HA HO. split; [|split].
  - unfold part_001.GenerateSet7702AuthTx.
    rewrite (build7702Tx_reference Hok _ _ _ _ _ _ _ _ sigA) by assumption.
    cbn [bind].
    rewrite (signEIP7702Tx_reference Hok _ _ sigO) by assumption.
    reflexivity.
  - now destruct (Hok _ _ _ HO).
  - reflexivity.
Qed.

Lemma C2_outer_signature_witness :
  part_001.GenerateSet7702AuthTx (withTemplate exampleRequest exampleTemplate)
  = Ok (Hex.EncodeToString
          (x04 :: encode (List
             (exampleEnvelope exampleTemplate
              ++ Reference.outer_fields (exampleOuterSig exampleTemplate)))))
  /\ length (exampleOuterSig exampleTemplate) = 65%nat.
Proof.
  destruct (C2_outer_signature (signer := exampleSigner)
              (withTemplate exampleRequest exampleTemplate)
              (exampleAuthSig exampleTemplate) (exampleOuterSig exampleTemplate))
    as (H1 & H2 & _).
  - exact exampleSign_contract.
  - vm_compute. discriminate.
  - vm_compute. discriminate.
  - vm_compute. discriminate.
  - vm_compute. reflexivity.
  - vm_compute. reflexivity.
  - vm_compute. reflexivity.
  - split; [exact H1 | exact H2].
Defined.

(** ** The two generations of [GenerateSet7702AuthTx] *)

Section Generations.

Context {signer : Signer}.
Hypothesis signer_ok : SignContract signer.

Lemma clear_go_GenerateSet7702AuthTx_reference
  (req : SetAuthorizationRequest) (sigA sigO : list byte) :
  (0 <= req.(ChainId))%Z -> (0 <= req.(GasTip))%Z -> (0 <= req.(GasFeeCap))%Z ->
  N.of_nat (length (encode (List
     (Reference.envelope (Z.to_N req.(ChainId)) req.(RelayerNonce)
        (Z.to_N req.(GasTip)) (Z.to_N req.(GasFeeCap)) req.(GasLimit)
        zeroAddress req.(UserEOANonce) sigA)))) < 2 ^ 64 ->
  Sign (authTupleMessage req.(ChainId) zeroAddress req.(UserEOANonce))
       req.(UserEOAPrivateKey) = Ok sigA ->
  Sign (Keccak.Keccak256
          (x04 :: encode (List
             (Reference.envelope (Z.to_N req.(ChainId)) req.(RelayerNonce)
                (Z.to_N req.(GasTip)) (Z.to_N req.(GasFeeCap)) req.(GasLimit)
                zeroAddress req.(UserEOANonce) sigA))))
       req.(RelayerEOAPrivateKey) = Ok sigO ->
  clear_go.GenerateSet7702AuthTx req
  = Ok (Hex.EncodeToString
          (x04 :: encode (List
             (Reference.envelope (Z.to_N req.(ChainId)) req.(RelayerNonce)
                (Z.to_N req.(GasTip)) (Z.to_N req.(GasFeeCap)) req.(GasLimit)
                zeroAddress req.(UserEOANonce) sigA
              ++ Reference.outer_fields sigO)))).
Proof.
  intros Hc Ht Hf Hsz HA HO.
  unfold clear_go.GenerateSet7702AuthTx.
  rewrite (build7702Tx_reference signer_ok _ _ _ _ _ _ _ _ sigA) by assumption.
  cbn [bind].
  rewrite (signEIP7702Tx_reference signer_ok _ _ sigO) by assumption.
  reflexivity.
Qed.

End Generations.

(** The signed transaction of the scenario under the stand-in signer, byte
    for byte: the type byte, the list head f8 c9, the ten fields of the
    envelope (the last one the authorization list f8 5c f8 5a ...), then
    the outer recovery id 80, r and s. *)
Example GenerateSet7702AuthTx_scenario_bytes :
  clear_go.GenerateSet7702AuthTx exampleRequest
  = Ok ("04f8c9010c8405f5e100847d2b7500830186a0"
        ++ "940000000000000000000000000000000000000000" ++ "8080c0"
        ++ "f85cf85a01" ++ "940000000000000000000000000000000000000000"
        ++ "0580"
        ++ "a0e629e81fda439064a905f77d6faa9464b83ee243fc081dd2a6da7104dfea28d0"
        ++ "a01111111111111111111111111111111111111111111111111111111111111111"
        ++ "80"
        ++ "a09fd0451dac5885934482653f12f32c347a52d00ef9e2e63e2a0d965767c3b13a"
        ++ "a02222222222222222222222222222222222222222222222222222222222222222")%string.
Proof. vm_compute. reflexivity. Qed.

(** Under the stand-in signer the two generations part on a non-zero
    template: the later one puts it into the transaction, the one of
    [clear.go] produces the clear transaction. *)
Example generations_differ :
  clear_go.GenerateSet7702AuthTx (withTemplate exampleRequest exampleTemplate)
  = clear_go.GenerateSet7702AuthTx exampleRequest
  /\ part_001.GenerateSet7702AuthTx (withTemplate exampleRequest exampleTemplate)
     <> part_001.GenerateSet7702AuthTx exampleRequest
  /\ (fields <- (tx <- part_001.GenerateSet7702AuthTx
                         (withTemplate exampleRequest exampleTemplate) ;;
                 topLevelFields tx) ;;
      Ok (nth 5 fields (Bytes [])))
     = Ok (Bytes exampleTemplate)
  /\ (fields <- (tx <- clear_go.GenerateSet7702AuthTx
                         (withTemplate exampleRequest exampleTemplate) ;;
                 topLevelFields tx) ;;
      Ok (nth 5 fields (Bytes [])))
     = Ok (Bytes zeroAddress).
Proof.
  split; [|split; [|split]].
  - vm_compute. reflexivity.
  - vm_compute. discriminate.
  - vm_compute. reflexivity.
  - vm_compute. reflexivity.
Qed.
(** ** Sizes of the envelope *)

Lemma header_length_le (base : N) (size : nat) :
  N.of_nat size < 2 ^ 64 -> (length (RLP.header base size) <= 9)%nat.
Proof.
  intros Hsz. unfold RLP.header. destruct (size <? 56)%nat; [simpl; lia|].
  cbn [length]. pose proof (be_bytes_length_le (N.of_nat size) 8 Hsz). lia.
Qed.

Lemma encode_List_length_le (l : list item) :
  N.of_nat (length (concat (map encode l))) < 2 ^ 64 ->
  (length (encode (List l)) <= 9 + length (concat (map encode l)))%nat.
Proof.
  intros Hsz. rewrite RLPFacts.encode_List, length_app.
  pose proof (header_length_le 0xC0 _ Hsz). lia.
Qed.

Lemma encode_Str_length_le (bs : list byte) :
  (length bs < 56)%nat -> (length (encode (Str bs)) <= 1 + length bs)%nat.
Proof.
  intros Hlen.
  destruct (RLPFacts.encode_Str_cases bs)
    as [(b & -> & _ & ->) | [(_ & _ & ->) | (Hge & _)]];
    cbn [length]; lia.
Qed.

Lemma encode_Int_length_le (n : N) (k : nat) :
  n < 256 ^ N.of_nat k -> (k < 56)%nat ->
  (length (encode (Reference.Int n)) <= 1 + k)%nat.
Proof.
  intros Hn Hk. unfold Reference.Int.
  pose proof (be_bytes_length_le n k Hn).
  pose proof (encode_Str_length_le (be_bytes n) ltac:(lia)). lia.
Qed.

Lemma be_bytes_of_bytes_length (bs : list byte) :
  (length (be_bytes (be_value bs)) <= length bs)%nat.
Proof. apply be_bytes_length_le, be_value_lt. Qed.

Lemma sig_r_length (sig : list byte) :
  (length (be_bytes (Reference.sig_r sig)) <= 32)%nat.
Proof.
  unfold Reference.sig_r.
  pose proof (be_bytes_of_bytes_length (firstn 32 sig)).
  pose proof (length_firstn 32 sig). lia.
Qed.

Lemma sig_s_length (sig : list byte) :
  (length (be_bytes (Reference.sig_s sig)) <= 32)%nat.
Proof.
  unfold Reference.sig_s.
  pose proof (be_bytes_of_bytes_length (firstn 32 (skipn 32 sig))).
  pose proof (length_firstn 32 (skipn 32 sig)). lia.
Qed.

Lemma sig_v_length (sig : list byte) :
  (length (be_bytes (Reference.sig_v sig)) <= 1)%nat.
Proof.
  unfold Reference.sig_v. apply be_bytes_length_le.
  pose proof (to_N_lt_256 (nth 64 sig x00)). exact H.
Qed.

(** The three signature fields take at most 2 + 33 + 33 bytes. *)
Lemma signature_fields_size (sig : list byte) :
  (length (encode (Reference.Int (Reference.sig_v sig)))
   + length (encode (Reference.Int (Reference.sig_r sig)))
   + length (encode (Reference.Int (Reference.sig_s sig))) <= 68)%nat.
Proof.
  pose proof (encode_Str_length_le (be_bytes (Reference.sig_v sig))).
  pose proof (encode_Str_length_le (be_bytes (Reference.sig_r sig))).
  pose proof (encode_Str_length_le (be_bytes (Reference.sig_s sig))).
  pose proof (sig_v_length sig). pose proof (sig_r_length sig).
  pose proof (sig_s_length sig). unfold Reference.Int. lia.
Qed.

(** An envelope of 256-bit quantities and a 20-byte delegate stays far
    below the size limit of the decoder, with or without the outer
    signature. *)
Lemma envelope_size (c rn tip cap gl : N) (d : list byte) (n : N)
  (sigA sigO : list byte) :
  uint256 c -> uint256 rn -> uint256 tip -> uint256 cap -> uint256 gl ->
  uint256 n -> length d = 20%nat ->
  (length (encode (List (Reference.envelope c rn tip cap gl d n sigA))) <= 400)%nat
  /\ (length (encode (List (Reference.envelope c rn tip cap gl d n sigA
                            ++ Reference.outer_fields sigO))) <= 500)%nat.
Proof.
  unfold uint256. intros Hc Hrn Htip Hcap Hgl Hn Hd.
  pose proof (encode_Int_length_le c 32 Hc ltac:(lia)).
  pose proof (encode_Int_length_le rn 32 Hrn ltac:(lia)).
  pose proof (encode_Int_length_le tip 32 Htip ltac:(lia)).
  pose proof (encode_Int_length_le cap 32 Hcap ltac:(lia)).
  pose proof (encode_Int_length_le gl 32 Hgl ltac:(lia)).
  pose proof (encode_Int_length_le n 32 Hn ltac:(lia)).
  pose proof (encode_Str_length_le d ltac:(lia)).
  pose proof (signature_fields_size sigA).
  pose proof (signature_fields_size sigO).
  assert (Hz : length (encode (Reference.Int 0)) = 1%nat) by reflexivity.
  assert (He : length (encode (Str [])) = 1%nat) by reflexivity.
  assert (Hl : length (encode (List [])) = 1%nat) by reflexivity.
  set (auth := Reference.authorization c d n sigA).
  assert (Hauth : (length (encode auth) <= 9 + 156)%nat).
  { subst auth. unfold Reference.authorization.
    etransitivity; [apply encode_List_length_le|];
      cbn [map concat]; rewrite !length_app; cbn [length]; lia. }
  assert (Hlist : (length (encode (List [auth])) <= 9 + 165)%nat).
  { etransitivity; [apply encode_List_length_le|];
      cbn [map concat]; rewrite !length_app; cbn [length]; lia. }
  unfold Reference.envelope, Reference.outer_fields. fold auth. split.
  - etransitivity; [apply encode_List_length_le|];
      cbn [map concat]; rewrite !length_app; cbn [length]; lia.
  - etransitivity; [apply encode_List_length_le|];
      cbn [app map concat]; rewrite !length_app; cbn [length]; lia.
Qed.

(** ** The end-to-end scenario *)

Lemma encode_Int_parity_length (v : N) :
  v <= 1 -> length (encode (Reference.Int v)) = 1%nat.
Proof.
  intros Hv. assert (Hc : v = 0 \/ v = 1) by lia.
  destruct Hc as [-> | ->]; reflexivity.
Qed.

Lemma uint256_small (n : N) : n < 2 ^ 64 -> uint256 n.
Proof.
  intros Hn. unfold uint256.
  apply (N.lt_le_trans _ _ _ Hn). vm_compute. discriminate.
Qed.

Lemma scenario_sizes (sigA sigO : list byte) :
  N.of_nat (length (encode (List (scenarioEnvelope sigA)))) < 2 ^ 64
  /\ N.of_nat (length (encode (List (scenarioEnvelope sigA
                                     ++ Reference.outer_fields sigO)))) < 2 ^ 64.
Proof.
  assert (Hu : forall n, n <= 2100000000 -> uint256 n).
  { intros n Hn. apply uint256_small.
    apply (N.le_lt_trans _ _ _ Hn). vm_compute. reflexivity. }
  pose proof (envelope_size 1 12 100000000 2100000000 100000 zeroAddress 5
                sigA sigO (Hu 1 ltac:(lia)) (Hu 12 ltac:(lia))
                (Hu 100000000 ltac:(lia)) (Hu 2100000000 ltac:(lia))
                (Hu 100000 ltac:(lia)) (Hu 5 ltac:(lia)) eq_refl)
    as [H1 H2].
  fold (scenarioEnvelope sigA) in H1, H2.
  assert (Hlim : 500 < 2 ^ 64) by (vm_compute; reflexivity).
  split; lia.
Qed.

(** C3 (amended). In the end-to-end scenario (authorizer nonce 5, relayer
    nonce 12, chain id 1, zero delegate, gas limit 100000, priority fee
    100000000, fee cap 2100000000), whenever the two signing calls succeed:
    [build7702Tx] returns a type-0x04 payload whose RLP list has exactly 10
    top-level elements, the envelope that is signed; the signed transaction
    that [GenerateSet7702AuthTx] returns is a type-0x04 payload whose RLP
    list has exactly 13 top-level elements, those 10 followed by the outer
    recovery id, r and s; its authorization list has exactly one entry, of
    six fields, whose recovery id is encoded in one byte and whose r and s
    are big-endian integers of at most 32 bytes. *)
Theorem C3_scenario_payload {signer : Signer}
  (userKey relayerKey : PrivateKey) (sigA sigO : list byte) :
  SignContract signer ->
  Sign (authTupleMessage 1 zeroAddress 5) userKey = Ok sigA ->
  Sign (Keccak.Keccak256 (x04 :: encode (List (scenarioEnvelope sigA))))
       relayerKey = Ok sigO ->
  build7702Tx 1 userKey 12 5 100000000 2100000000 100000 zeroAddress []
  = Ok (Hex.EncodeToString (x04 :: encode (List (scenarioEnvelope sigA))))
  /\ topLevelFields
       (Hex.EncodeToString (x04 :: encode (List (scenarioEnvelope sigA))))
     = Ok (map of_item (scenarioEnvelope sigA))
  /\ length (map of_item (scenarioEnvelope sigA)) = 10%nat
  /\ clear_go.GenerateSet7702AuthTx (scenario userKey relayerKey)
     = Ok (Hex.EncodeToString
             (x04 :: encode (List (scenarioEnvelope sigA
                                   ++ Reference.outer_fields sigO))))
  /\ part_001.GenerateSet7702AuthTx (scenario userKey relayerKey)
     = clear_go.GenerateSet7702AuthTx (scenario userKey relayerKey)
  /\ topLevelFields
       (Hex.EncodeToString
          (x04 :: encode (List (scenarioEnvelope sigA
                                ++ Reference.outer_fields sigO))))
     = Ok (map of_item (scenarioEnvelope sigA)
           ++ [Bytes (be_bytes (Reference.sig_v sigO));
               Bytes (be_bytes (Reference.sig_r sigO));
               Bytes (be_bytes (Reference.sig_s sigO))])
  /\ length (map of_item (scenarioEnvelope sigA)
             ++ [Bytes (be_bytes (Reference.sig_v sigO));
                 Bytes (be_bytes (Reference.sig_r sigO));
                 Bytes (be_bytes (Reference.sig_s sigO))]) = 13%nat
  /\ nth 9 (map of_item (scenarioEnvelope sigA)) (Bytes [])
     = Slice [Slice [Bytes [x01]; Bytes zeroAddress; Bytes [x05];
                     Bytes (be_bytes (Reference.sig_v sigA));
                     Bytes (be_bytes (Reference.sig_r sigA));
                     Bytes (be_bytes (Reference.sig_s sigA))]]
  /\ length (encode (Str (be_bytes (Reference.sig_v sigA)))) = 1%nat
  /\ (length (be_bytes (Reference.sig_r sigA)) <= 32)%nat
  /\ (length (be_bytes (Reference.sig_s sigA)) <= 32)%nat.
Proof.
  intros Hok HA HO.
  destruct (scenario_sizes sigA sigO) as [Hsz1 Hsz2].
  assert (Hbuild :
    build7702Tx 1 userKey 12 5 100000000 2100000000 100000 zeroAddress []
    = Ok (Hex.EncodeToString (x04 :: encode (List (scenarioEnvelope sigA))))).
  { apply (build7702Tx_reference Hok); [lia | lia | lia | exact HA]. }
  split; [exact Hbuild|].
  split; [now apply topLevelFields_encode|].
  split; [reflexivity|].
  split.
  { unfold clear_go.GenerateSet7702AuthTx.
    cbn [scenario ChainId UserEOAPrivateKey RelayerNonce UserEOANonce GasTip
           GasFeeCap GasLimit RelayerEOAPrivateKey].
    rewrite Hbuild. cbn [bind].
    rewrite (signEIP7702Tx_reference Hok _ _ sigO) by assumption.
    reflexivity. }
  split; [reflexivity|].
  split.
  { rewrite topLevelFields_encode by exact Hsz2. now rewrite map_app. }
  split; [reflexivity|].
  split; [reflexivity|].
  split.
  { apply (encode_Int_parity_length (Reference.sig_v sigA)).
    now destruct (Hok _ _ _ HA). }
  split; [apply sig_r_length | apply sig_s_length].
Qed.

Lemma C3_scenario_payload_witness :
  clear_go.GenerateSet7702AuthTx exampleRequest
  = Ok (Hex.EncodeToString
          (x04 :: encode (List (scenarioEnvelope (exampleAuthSig zeroAddress)
                                ++ Reference.outer_fields
                                     (exampleOuterSig zeroAddress)))))
  /\ length (map of_item (scenarioEnvelope (exampleAuthSig zeroAddress))
             ++ [Bytes (be_bytes (Reference.sig_v (exampleOuterSig zeroAddress)));
                 Bytes (be_bytes (Reference.sig_r (exampleOuterSig zeroAddress)));
                 Bytes (be_bytes (Reference.sig_s (exampleOuterSig zeroAddress)))])
     = 13%nat.
Proof.
  destruct (C3_scenario_payload (signer := exampleSigner)
              exampleUserKey exampleRelayerKey
              (exampleAuthSig zeroAddress) (exampleOuterSig zeroAddress))
    as (_ & _ & _ & H4 & _ & _ & H7 & _).
  - exact exampleSign_contract.
  - vm_compute. reflexivity.
  - vm_compute. reflexivity.
  - split; [exact H4 | exact H7].
Defined.

(** C3, as stated, fails: under the stand-in signer the signed transaction
    of the scenario has 13 top-level elements, not 10. *)
Lemma C3_counterexample :
  (tx <- clear_go.GenerateSet7702AuthTx exampleRequest ;;
   fields <- topLevelFields tx ;;
   Ok (length fields)) = Ok 13%nat
  /\ ~ (exists tx fields,
          clear_go.GenerateSet7702AuthTx exampleRequest = Ok tx
          /\ topLevelFields tx = Ok fields
          /\ length fields = 10%nat).
Proof.
  assert (H : (tx <- clear_go.GenerateSet7702AuthTx exampleRequest ;;
               fields <- topLevelFields tx ;;
               Ok (length fields)) = Ok 13%nat)
    by (vm_compute; reflexivity).
  split; [exact H|].
  intros (tx & fields & H1 & H2 & H3).
  rewrite H1 in H. cbn [bind] in H. rewrite H2 in H. cbn [bind] in H.
  rewrite H3 in H. discriminate H.
Qed.

(** ** Hexadecimal integers from the node *)

Lemma range_true (lo hi n : N) :
  (lo <=? n) && (n <=? hi) = true <-> lo <= n <= hi.
Proof. rewrite andb_true_iff, !N.leb_le. tauto. Qed.

Lemma range_false (lo hi n : N) :
  n < lo \/ hi < n -> (lo <=? n) && (n <=? hi) = false.
Proof.
  intros H. apply not_true_is_false. rewrite range_true. lia.
Qed.

Lemma digitVal_hex (c : ascii) (d : N) :
  Hex.fromHexChar c = Some d -> Big.digitVal c = Some d /\ d < 16.
Proof.
  unfold Hex.fromHexChar, Big.digitVal.
  set (n := N_of_ascii c).
  destruct ((48 <=? n) && (n <=? 57)) eqn:E1.
  - apply range_true in E1. intros [= <-]. split; [reflexivity | lia].
  - destruct ((97 <=? n) && (n <=? 102)) eqn:E2.
    + apply range_true in E2. intros [= <-].
      rewrite (proj2 (range_true 97 122 n)) by lia. split; [reflexivity | lia].
    + destruct ((65 <=? n) && (n <=? 70)) eqn:E3; [|discriminate].
      apply range_true in E3. intros [= <-].
      rewrite (range_false 97 122 n) by lia.
      rewrite (proj2 (range_true 65 90 n)) by lia. split; [reflexivity | lia].
Qed.

Lemma isHexChar_fromHexChar (c : ascii) :
  isHexChar c = true -> exists d, Hex.fromHexChar c = Some d.
Proof.
  unfold isHexChar. destruct (Hex.fromHexChar c) as [d|]; [|discriminate].
  intros _. now exists d.
Qed.

Lemma scanDigits_hex (s : string) : forall acc count,
  allHex s = true ->
  Big.scanDigits 16 s acc count
  = (acc * 16 ^ N.of_nat (String.length s) + Reference.hex_value s,
     (count + String.length s)%nat, EmptyString).
Proof.
  induction s as [|c s IH]; intros acc count Hs.
  - cbn [Big.scanDigits Reference.hex_value String.length].
    replace (acc * 16 ^ N.of_nat 0 + 0) with acc by (cbn; lia).
    now rewrite Nat.add_0_r.
  - cbn [allHex] in Hs. apply andb_true_iff in Hs as [Hc Hs].
    destruct (isHexChar_fromHexChar c Hc) as [d Hd].
    destruct (digitVal_hex c d Hd) as [Hv Hlt].
    cbn [Big.scanDigits Reference.hex_value String.length]. rewrite Hv, Hd.
    destruct (N.ltb_spec d 16); [|lia].
    rewrite IH by exact Hs. rewrite Nat2N.inj_succ, N.pow_succ_r'.
    replace ((acc * 16 + d) * 16 ^ N.of_nat (String.length s)
             + Reference.hex_value s)
      with (acc * (16 * 16 ^ N.of_nat (String.length s))
            + (d * 16 ^ N.of_nat (String.length s) + Reference.hex_value s))
      by ring.
    now rewrite Nat.add_succ_comm.
Qed.

Lemma hex_char_not_sign (c : ascii) :
  isHexChar c = true -> (c =? "-")%char = false /\ (c =? "+")%char = false.
Proof.
  intros Hc. split.
  - destruct (Ascii.eqb_spec c "-"%char) as [->|]; [discriminate | reflexivity].
  - destruct (Ascii.eqb_spec c "+"%char) as [->|]; [discriminate | reflexivity].
Qed.

(** On a non-empty string of hexadecimal digits [SetString] succeeds with
    the integer the digits denote, whatever its size. *)
Lemma SetString_hex (s : string) :
  allHex s = true -> s <> EmptyString ->
  Big.SetString s 16 = (Z.of_N (Reference.hex_value s), true).
Proof.
  intros Hs Hne. destruct s as [|c s]; [contradiction|].
  pose proof Hs as Hs'. cbn [allHex] in Hs'.
  apply andb_true_iff in Hs' as [Hc _].
  destruct (hex_char_not_sign c Hc) as [Hm Hp].
  unfold Big.SetString. rewrite Hm, Hp. cbn [orb].
  rewrite scanDigits_hex by exact Hs.
  cbn [String.length Nat.add]. rewrite N.mul_0_l, N.add_0_l. reflexivity.
Qed.

Lemma substring_0_length (s : string) : substring 0 (String.length s) s = s.
Proof. induction s as [|c s IH]; [reflexivity|]. cbn. now rewrite IH. Qed.

Lemma string_from_0x (hs : string) :
  string_from 2 (String "0" (String "x" hs)) = Ok hs.
Proof.
  unfold string_from. cbn [String.length Nat.ltb Nat.leb Nat.sub substring].
  now rewrite Nat.sub_0_r, substring_0_length.
Qed.

Lemma hexResult_hex (hs : string) :
  allHex hs = true -> hs <> EmptyString ->
  hexResult (Body (String "0" (String "x" hs)) None)
  = Ok (Z.of_N (Reference.hex_value hs)).
Proof.
  intros Hs Hne. unfold hexResult. rewrite string_from_0x. cbn [bind].
  now rewrite SetString_hex.
Qed.

Lemma getChainID_hexResult (rpc : Node) :
  getChainID rpc = hexResult rpc.(eth_chainId).
Proof. reflexivity. Qed.

Lemma getGasPrice_hexResult (rpc : Node) :
  getGasPrice rpc = hexResult rpc.(eth_gasPrice).
Proof. reflexivity. Qed.

Lemma getNonce_hexResult (rpc : Node) (address : string) :
  getNonce rpc address
  = (nonce <- hexResult (rpc.(eth_getTransactionCount) address) ;;
     Ok (Big.Int64 nonce)).
Proof.
  unfold getNonce, hexResult.
  destruct (eth_getTransactionCount rpc address) as [e | res [e|]];
    try reflexivity.
  destruct (string_from 2 res); reflexivity.
Qed.

Lemma wrap_int64_small (z : Z) :
  (- 2 ^ 63 <= z < 2 ^ 63)%Z -> Big.wrap_int64 z = z.
Proof.
  intros Hz. unfold Big.wrap_int64.
  rewrite Z.mod_small; lia.
Qed.

Lemma Int64_nonneg (z : Z) :
  (0 <= z)%Z -> Big.Int64 z = Big.wrap_int64 z.
Proof.
  intros Hz. unfold Big.Int64. destruct (Z.ltb_spec z 0); [lia|].
  rewrite Z.abs_eq by lia. unfold Big.wrap_int64.
  now rewrite Zplus_mod_idemp_l.
Qed.

(** C8 (amended). A result "0x" followed by hexadecimal digits is read by
    [getChainID] and [getGasPrice] as the arbitrary-precision integer the
    digits denote, exactly, also beyond 64 bits. [getNonce] returns an
    [int64]: the integer the digits denote whenever that is below 2^63. *)
Theorem C8_hex_integers (rpc : Node) (address hs : string) :
  allHex hs = true -> hs <> EmptyString ->
  (rpc.(eth_chainId) = Body ("0x" ++ hs)%string None ->
   getChainID rpc = Ok (Z.of_N (Reference.hex_value hs)))
  /\ (rpc.(eth_gasPrice) = Body ("0x" ++ hs)%string None ->
      getGasPrice rpc = Ok (Z.of_N (Reference.hex_value hs)))
  /\ (rpc.(eth_getTransactionCount) address = Body ("0x" ++ hs)%string None ->
      Reference.hex_value hs < 2 ^ 63 ->
      getNonce rpc address = Ok (Z.of_N (Reference.hex_value hs))).
Proof.
  intros Hs Hne. split; [|split].
  - intros E. rewrite getChainID_hexResult, E. now apply hexResult_hex.
  - intros E. rewrite getGasPrice_hexResult, E. now apply hexResult_hex.
  - intros E Hlt. rewrite getNonce_hexResult, E.
    change ("0x" ++ hs)%string with (String "0" (String "x" hs)).
    rewrite hexResult_hex by assumption. cbn [bind].
    rewrite Int64_nonneg by lia. rewrite wrap_int64_small; [reflexivity|].
    change (2 ^ 63) with 9223372036854775808 in Hlt.
    change (2 ^ 63)%Z with 9223372036854775808%Z. lia.
Qed.

Lemma C8_hex_integers_witness :
  getChainID wideNode = Ok (2 ^ 70 + 3)%Z
  /\ getGasPrice wideNode = Ok (2 ^ 70 + 3)%Z
  /\ getNonce mainnetLike "0x00"%string = Ok 5%Z.
Proof.
  destruct (C8_hex_integers wideNode "0x00"%string "400000000000000003"%string)
    as (H1 & H2 & _); [reflexivity | discriminate |].
  destruct (C8_hex_integers mainnetLike "0x00"%string "5"%string)
    as (_ & _ & H3); [reflexivity | discriminate |].
  split; [exact (H1 eq_refl)|]. split; [exact (H2 eq_refl)|].
  apply (H3 eq_refl). vm_compute. reflexivity.
Defined.

(** C8, as stated, fails for the nonce: the transaction count 2^64 comes
    back from [getNonce] as 0. *)
Lemma C8_counterexample :
  eth_getTransactionCount wideNode "0x00"%string
  = Body ("0x" ++ "10000000000000000")%string None
  /\ Reference.hex_value "10000000000000000" = 2 ^ 64
  /\ getNonce wideNode "0x00"%string = Ok 0%Z
  /\ getNonce wideNode "0x00"%string
     <> Ok (Z.of_N (Reference.hex_value "10000000000000000")).
Proof.
  split; [reflexivity|]. split; [vm_compute; reflexivity|].
  split; [vm_compute; reflexivity|]. vm_compute. discriminate.
Qed.

(** What [Clear] and [Set] build from the [int64]: [uint64(nonce)] is the
    transaction count itself whenever that is below 2^64. *)
Lemma uint64_of_getNonce (rpc : Node) (address hs : string) :
  allHex hs = true -> hs <> EmptyString ->
  rpc.(eth_getTransactionCount) address = Body ("0x" ++ hs)%string None ->
  Reference.hex_value hs < 2 ^ 64 ->
  exists nonce, getNonce rpc address = Ok nonce
                /\ Big.uint64_of_int64 nonce = Reference.hex_value hs.
Proof.
  intros Hs Hne E Hlt. rewrite getNonce_hexResult, E.
  change ("0x" ++ hs)%string with (String "0" (String "x" hs)).
  rewrite hexResult_hex by assumption. cbn [bind].
  eexists. split; [reflexivity|].
  rewrite Int64_nonneg by lia. unfold Big.uint64_of_int64, Big.wrap_int64.
  change (2 ^ 64) with 18446744073709551616 in Hlt.
  change (2 ^ 64)%Z with 18446744073709551616%Z.
  change (2 ^ 63)%Z with 9223372036854775808%Z.
  set (z := Z.of_N (Reference.hex_value hs)).
  assert (Hz : (0 <= z < 18446744073709551616)%Z) by lia.
  rewrite <- (N2Z.id (Reference.hex_value hs)). fold z. f_equal.
  rewrite Zminus_mod_idemp_l.
  replace (z + 9223372036854775808 - 9223372036854775808)%Z with z by lia.
  now apply Z.mod_small.
Qed.

(** ** The unguarded slice of the result *)

Lemma string_from_panics (n : nat) (s : string) :
  string_from n s = Panic <-> (String.length s < n)%nat.
Proof.
  unfold string_from. destruct (Nat.ltb_spec (String.length s) n); split;
    intros; try reflexivity; try discriminate; try assumption; lia.
Qed.

Lemma hexResult_panics (res : string) :
  hexResult (Body res None) = Panic <-> (String.length res < 2)%nat.
Proof.
  unfold hexResult. rewrite <- string_from_panics.
  destruct (string_from 2 res); cbn [bind]; split; intros; try reflexivity;
    discriminate.
Qed.

Lemma hexResult_total (res : string) :
  (2 <= String.length res)%nat -> exists v, hexResult (Body res None) = Ok v.
Proof.
  intros H. unfold hexResult, string_from.
  destruct (Nat.ltb_spec (String.length res) 2); [lia|].
  cbn [bind]. eexists. reflexivity.
Qed.

Lemma HasPrefix_0x_length (res : string) :
  HasPrefix res "0x" = true -> (2 <= String.length res)%nat.
Proof.
  destruct res as [|a [|b res]]; intros H; [| |cbn; lia].
  - discriminate H.
  - cbn in H. now rewrite andb_false_r in H.
Qed.

(** C10. [getChainID] and [getNonce] slice the result string at index 2
    without looking at its length. On a reply that unmarshals without
    error they abort with a slice-out-of-range panic exactly when the
    result has fewer than two characters (an error-only response leaves
    it empty), and return a value whenever it starts with "0x". *)
Theorem C10_unguarded_slice (rpc : Node) (address res : string) :
  (rpc.(eth_chainId) = Body res None ->
   (getChainID rpc = Panic <-> (String.length res < 2)%nat)
   /\ (HasPrefix res "0x" = true -> exists v, getChainID rpc = Ok v))
  /\ (rpc.(eth_getTransactionCount) address = Body res None ->
      (getNonce rpc address = Panic <-> (String.length res < 2)%nat)
      /\ (HasPrefix res "0x" = true -> exists v, getNonce rpc address = Ok v)).
Proof.
  split; intros E.
  - rewrite getChainID_hexResult, E. split; [apply hexResult_panics|].
    intros Hp. apply hexResult_total. now apply HasPrefix_0x_length.
  - rewrite getNonce_hexResult, E. split.
    + rewrite <- hexResult_panics.
      destruct (hexResult (Body res None)); cbn [bind]; split; intros;
        try reflexivity; discriminate.
    + intros Hp.
      destruct (hexResult_total res (HasPrefix_0x_length res Hp)) as [v ->].
      cbn [bind]. eexists. reflexivity.
Qed.

Lemma C10_unguarded_slice_witness :
  getChainID errorOnlyNode = Panic
  /\ getNonce errorOnlyNode "0x00"%string = Panic
  /\ (exists v, getChainID mainnetLike = Ok v).
Proof.
  destruct (C10_unguarded_slice errorOnlyNode "0x00"%string ""%string)
    as [H1 H2].
  destruct (H1 eq_refl) as [H1p _]. destruct (H2 eq_refl) as [H2p _].
  destruct (C10_unguarded_slice mainnetLike "0x00"%string "0x1"%string)
    as [H3 _].
  destruct (H3 eq_refl) as [_ H3t].
  split; [apply H1p; cbn; lia|]. split; [apply H2p; cbn; lia|].
  apply H3t. reflexivity.
Defined.

(** ** Fee estimation *)

Lemma feeValue_hex (hs : string) :
  allHex hs = true -> hs <> EmptyString ->
  feeValue ("0x" ++ hs) = Z.of_N (Reference.hex_value hs).
Proof.
  intros Hs Hne. unfold feeValue, TrimPrefix.
  change ("0x" ++ hs)%string with (String "0" (String "x" hs)).
  cbn [HasPrefix Ascii.eqb Bool.eqb andb String.length Nat.sub substring].
  rewrite Nat.sub_0_r, substring_0_length. now rewrite SetString_hex.
Qed.

Lemma eqb_empty_false (s : string) :
  s <> EmptyString -> (s =? "")%string = false.
Proof. intros H. now apply String.eqb_neq. Qed.

(** C4. When the node suggests a priority fee below 0.1 x 10^9 and reports
    a base fee, [getSuggestedGasFees] returns exactly that floor as
    priority fee and 2 x base fee + floor as fee cap, not the cap computed
    from the suggestion; in the legacy fallback a gas price below the floor
    is returned as the floor, for both values. *)
Theorem C4_fee_floor (rpc : Node) :
  (10 * minPriorityFee = 10 ^ 9)%Z
  /\ (forall p b,
        rpc.(eth_maxPriorityFeePerGas) = Body p None -> p <> EmptyString ->
        rpc.(eth_getBlockByNumber) = Body b None -> b <> EmptyString ->
        (feeValue p < minPriorityFee)%Z ->
        getSuggestedGasFees rpc
        = Ok (minPriorityFee, (2 * feeValue b + minPriorityFee)%Z)
        /\ (2 * feeValue b + minPriorityFee <> 2 * feeValue b + feeValue p)%Z)
  /\ (forall gasPrice,
        getGasPrice rpc = Ok gasPrice ->
        (gasPrice < minPriorityFee)%Z ->
        fallbackGasFees rpc = Ok (minPriorityFee, minPriorityFee)).
Proof.
  split; [reflexivity|]. split.
  - intros p b Ep Hp Eb Hb Hlt. split; [|lia].
    unfold getSuggestedGasFees. rewrite Ep, Eb.
    rewrite (eqb_empty_false p Hp), (eqb_empty_false b Hb).
    fold (feeValue p). fold (feeValue b).
    destruct (Z.ltb_spec (feeValue p) minPriorityFee); [|lia].
    f_equal. f_equal. lia.
  - intros g Eg Hlt. unfold fallbackGasFees. rewrite Eg.
    destruct (Z.ltb_spec g minPriorityFee); [reflexivity | lia].
Qed.

Lemma C4_fee_floor_witness :
  getSuggestedGasFees mainnetLike = Ok (100000000, 2100000000)%Z
  /\ fallbackGasFees legacyNode = Ok (100000000, 100000000)%Z.
Proof.
  destruct (C4_fee_floor mainnetLike) as (_ & H1 & _).
  destruct (C4_fee_floor legacyNode) as (_ & _ & H2).
  split.
  - apply (H1 "0x1" "0x3b9aca00")%string;
      [reflexivity | discriminate | reflexivity | discriminate
      | vm_compute; reflexivity].
  - apply (H2 99999999%Z); [reflexivity | vm_compute; reflexivity].
Defined.

(** Above the floor nothing is raised, and a node without the priority-fee
    method or without a base fee is served by the legacy fallback. *)
Lemma getSuggestedGasFees_above_floor (rpc : Node) (p b : string) :
  rpc.(eth_maxPriorityFeePerGas) = Body p None -> p <> EmptyString ->
  rpc.(eth_getBlockByNumber) = Body b None -> b <> EmptyString ->
  (minPriorityFee <= feeValue p)%Z ->
  getSuggestedGasFees rpc = Ok (feeValue p, (2 * feeValue b + feeValue p)%Z).
Proof.
  intros Ep Hp Eb Hb Hge. unfold getSuggestedGasFees. rewrite Ep, Eb.
  rewrite (eqb_empty_false p Hp), (eqb_empty_false b Hb).
  fold (feeValue p). fold (feeValue b).
  destruct (Z.ltb_spec (feeValue p) minPriorityFee); [lia|].
  f_equal. f_equal. lia.
Qed.

Example getSuggestedGasFees_legacy :
  getSuggestedGasFees legacyNode = fallbackGasFees legacyNode
  /\ getSuggestedGasFees legacyNode = Ok (100000000, 100000000)%Z.
Proof. split; reflexivity. Qed.

(** ** Code inspection *)

Lemma isSafe_spec (res : string) :
  ((res =? "") || (res =? "0x"))%string = true <-> isSafe res.
Proof.
  unfold isSafe. rewrite orb_true_iff, !String.eqb_eq. tauto.
Qed.

Lemma classify_unfold (res : string) :
  classify res =
    if ((res =? "") || (res =? "0x"))%string then Safe
    else if HasPrefix (ToLower (codeWithoutPrefix res)) "ef0100"
         then Delegated ("0x" ++ substring 6 (String.length (codeWithoutPrefix res) - 6)
                                   (codeWithoutPrefix res))
         else MightBeContract.
Proof. reflexivity. Qed.

Lemma codeWithoutPrefix_0x (s : string) :
  codeWithoutPrefix (String "0" (String "x" s)) = s.
Proof.
  unfold codeWithoutPrefix.
  cbn [HasPrefix Ascii.eqb Bool.eqb andb String.length Nat.sub substring].
  now rewrite Nat.sub_0_r, substring_0_length.
Qed.

Lemma HasPrefix_app (p s : string) : HasPrefix (p ++ s) p = true.
Proof.
  induction p as [|c p IH]; [reflexivity|].
  cbn [append HasPrefix]. now rewrite Ascii.eqb_refl, IH.
Qed.

Lemma ToLower_app (a b : string) :
  ToLower (a ++ b) = (ToLower a ++ ToLower b)%string.
Proof.
  induction a as [|c a IH]; [reflexivity|].
  cbn [append ToLower]. now rewrite IH.
Qed.

Lemma ToLower_length (s : string) : String.length (ToLower s) = String.length s.
Proof.
  induction s as [|c s IH]; [reflexivity|]. cbn [ToLower String.length].
  now rewrite IH.
Qed.

Lemma append_length (a b : string) :
  String.length (a ++ b) = (String.length a + String.length b)%nat.
Proof.
  induction a as [|c a IH]; [reflexivity|]. cbn [append String.length].
  now rewrite IH.
Qed.

Lemma substring_skip (p s : string) :
  substring (String.length p) (String.length s) (p ++ s) = s.
Proof.
  induction p as [|c p IH]; [apply substring_0_length|].
  cbn [append String.length substring]. exact IH.
Qed.

Lemma classify_delegation (marker addr : string) :
  ToLower marker = "ef0100"%string ->
  classify ("0x" ++ marker ++ addr) = Delegated ("0x" ++ addr).
Proof.
  intros Hm.
  assert (Hlen : String.length marker = 6%nat)
    by (rewrite <- ToLower_length, Hm; reflexivity).
  rewrite classify_unfold.
  change ("0x" ++ marker ++ addr)%string
    with (String "0" (String "x" (marker ++ addr))).
  rewrite codeWithoutPrefix_0x.
  destruct ((String "0" (String "x" (marker ++ addr)) =? "")
            || (String "0" (String "x" (marker ++ addr)) =? "0x"))%string eqn:E.
  - apply isSafe_spec in E. destruct E as [E | E]; [discriminate E|].
    injection E as E. destruct marker; discriminate.
  - rewrite ToLower_app, Hm, HasPrefix_app.
    rewrite append_length, Hlen. cbn [Nat.add Nat.sub].
    rewrite Nat.sub_0_r. rewrite <- Hlen at 1.
    now rewrite substring_skip.
Qed.

(** C5. [Check] classifies the fetched code in exactly one of three ways:
    empty or the bare "0x" is safe; code whose hex, lower-cased, begins with
    ef0100 is a delegation, and the delegate is what follows the three
    marker bytes (for a well-formed delegation, the 20-byte address); any
    other code is unclassified contract code. *)
Theorem C5_classification (res : string) :
  (classify res = Safe <-> isSafe res)
  /\ (forall a,
        classify res = Delegated a <->
        ~ isSafe res
        /\ HasPrefix (ToLower (codeWithoutPrefix res)) "ef0100" = true
        /\ a = ("0x" ++ substring 6 (String.length (codeWithoutPrefix res) - 6)
                          (codeWithoutPrefix res))%string)
  /\ (classify res = MightBeContract <->
      ~ isSafe res
      /\ HasPrefix (ToLower (codeWithoutPrefix res)) "ef0100" = false)
  /\ (forall marker addr,
        res = ("0x" ++ marker ++ addr)%string ->
        ToLower marker = "ef0100"%string ->
        String.length addr = 40%nat ->
        classify res = Delegated ("0x" ++ addr))
  /\ (forall address rpcResponse,
        address <> EmptyString -> IsHexAddress address = true ->
        rpcResponse.(Error) = None -> rpcResponse.(Result) = res ->
        Check address (Body rpcResponse None) = Ok (classify res)).
Proof.
  pose proof (isSafe_spec res) as Hsafe.
  pose proof (classify_unfold res) as Hc.
  destruct ((res =? "") || (res =? "0x"))%string eqn:E.
  - assert (Hs : isSafe res) by now apply Hsafe.
    split; [tauto|]. split; [|split; [|split]].
    + intros a. rewrite Hc. split; [discriminate | tauto].
    + rewrite Hc. split; [discriminate | tauto].
    + intros marker addr -> Hm _.
      rewrite (classify_delegation marker addr Hm) in Hc. discriminate Hc.
    + intros address resp Ha Hhex He Hr. unfold Check.
      rewrite (eqb_empty_false address Ha), Hhex, He, Hr. reflexivity.
  - assert (Hs : ~ isSafe res) by (intros H; apply Hsafe in H; discriminate H).
    rewrite Hc.
    split; [|split; [|split; [|split]]].
    + split; [|tauto].
      destruct (HasPrefix (ToLower (codeWithoutPrefix res)) "ef0100"); discriminate.
    + intros a.
      destruct (HasPrefix (ToLower (codeWithoutPrefix res)) "ef0100"); split.
      * intros [= <-]. auto.
      * intros (_ & _ & ->). reflexivity.
      * discriminate.
      * intros (_ & H & _). discriminate H.
    + destruct (HasPrefix (ToLower (codeWithoutPrefix res)) "ef0100"); split;
        try discriminate; auto.
      intros [_ H]. discriminate H.
    + intros marker addr -> Hm _.
      rewrite <- Hc. now apply classify_delegation.
    + intros address resp Ha Hhex He Hr. unfold Check.
      rewrite (eqb_empty_false address Ha), Hhex, He, Hr. cbn [negb].
      now rewrite Hc.
Qed.

Lemma C5_classification_witness :
  classify "0xef01000102030405060708090a0b0c0d0e0f1011121314"
  = Delegated "0x0102030405060708090a0b0c0d0e0f1011121314"
  /\ Check "0x00000000000000000000000000000000000000aa"
       (Body {| JSONRPC := "2.0"; ID := 1;
                Result := "0xEF01000102030405060708090a0b0c0d0e0f1011121314";
                Error := None |} None)
     = Ok (Delegated "0x0102030405060708090a0b0c0d0e0f1011121314").
Proof.
  split.
  - destruct (C5_classification
                "0xef01000102030405060708090a0b0c0d0e0f1011121314")
      as (_ & _ & _ & H & _).
    apply (H "ef0100" "0102030405060708090a0b0c0d0e0f1011121314")%string;
      reflexivity.
  - destruct (C5_classification
                "0xEF01000102030405060708090a0b0c0d0e0f1011121314")
      as (_ & _ & _ & H & Hc).
    rewrite (Hc "0x00000000000000000000000000000000000000aa"%string
               {| JSONRPC := "2.0"; ID := 1;
                  Result := "0xEF01000102030405060708090a0b0c0d0e0f1011121314";
                  Error := None |});
      [|discriminate | reflexivity | reflexivity | reflexivity].
    rewrite (H "EF0100" "0102030405060708090a0b0c0d0e0f1011121314"
               eq_refl eq_refl eq_refl)%string.
    reflexivity.
Defined.

(** The three cases of the design document. *)
Example classify_examples :
  classify "" = Safe
  /\ classify "0x" = Safe
  /\ classify "0xef0100d8da6bf26964af9d7eed9e03e53415d37aa96045"
     = Delegated "0xd8da6bf26964af9d7eed9e03e53415d37aa96045"
  /\ classify "0x6001" = MightBeContract.
Proof. repeat split. Qed.

(** ** Broadcast and confirmation *)

Lemma broadcastRawTx_error_verbatim (rawTxHex res message : string)
  (uerr : option string) (rpc : Node) :
  rpc.(eth_sendRawTransaction) ("0x" ++ rawTxHex)%string = Body (res, message) uerr ->
  message <> EmptyString ->
  broadcastRawTx rawTxHex rpc = Err message.
Proof.
  intros E Hm. unfold broadcastRawTx. rewrite E.
  now rewrite (eqb_empty_false message Hm).
Qed.

Lemma broadcastRawTx_transport (rawTxHex e : string) (rpc : Node) :
  rpc.(eth_sendRawTransaction) ("0x" ++ rawTxHex)%string = Transport e ->
  broadcastRawTx rawTxHex rpc = Err e.
Proof. intros E. unfold broadcastRawTx. now rewrite E. Qed.

(** Without an error message the result field is returned as the hash,
    whatever unmarshalling reported. *)
Lemma broadcastRawTx_no_message (rawTxHex res : string) (uerr : option string)
  (rpc : Node) :
  rpc.(eth_sendRawTransaction) ("0x" ++ rawTxHex)%string = Body (res, ""%string) uerr ->
  broadcastRawTx rawTxHex rpc = Ok res.
Proof. intros E. unfold broadcastRawTx. now rewrite E. Qed.

(** C7. An error message of the node fails the broadcast with that message
    verbatim. A body that is not JSON does not: [broadcastRawTx] returns
    the empty string as transaction hash, and no error. *)
Theorem C7_broadcast_malformed_body :
  broadcastRawTx "04c0" errorOnlyNode = Err "nonce too low"
  /\ eth_sendRawTransaction badGateway "0x04c0"
     = Body (""%string, ""%string)
         (Some "invalid character '<' looking for beginning of value"%string)
  /\ broadcastRawTx "04c0" badGateway = Ok ""%string
  /\ getChainID badGateway
     = Err "invalid character '<' looking for beginning of value".
Proof. repeat split. Qed.

Lemma polls_afterPending (k : nat) : forall w,
  polls (afterPending k w) = (polls w + k)%nat
  /\ slept (afterPending k w) = slept w + 5 * N.of_nat k.
Proof.
  induction k as [|k IH]; intros w.
  - cbn. split; lia.
  - cbn [afterPending]. destruct (IH (print "." (polled (sleep 5 w)))) as [-> ->].
    cbn [polls slept print polled sleep]. split; lia.
Qed.

Lemma pollLoop_pending_step (rpc : Node) (txHash : string) (n : nat) (w : world) :
  decisive (rpc.(eth_getTransactionReceipt) w.(polls) txHash) = false ->
  pollLoop rpc txHash (S n) w
  = pollLoop rpc txHash n (print "." (polled (sleep 5 w))).
Proof.
  intros Hd. cbn [pollLoop]. unfold getTransactionReceipt.
  cbn [sleep polls]. unfold decisive, receiptStatus in Hd.
  destruct (eth_getTransactionReceipt rpc (polls w) txHash)
    as [e | [rc|] [e|]]; try reflexivity.
  apply orb_false_iff in Hd as [H1 H0]. now rewrite H1, H0.
Qed.

Lemma pollLoop_mined_step (rpc : Node) (txHash : string) (n : nat) (w : world) :
  receiptStatus (rpc.(eth_getTransactionReceipt) w.(polls) txHash)
  = Some "0x1"%string ->
  pollLoop rpc txHash (S n) w
  = (print "Transaction successfully mined!" (polled (sleep 5 w)), Mined).
Proof.
  intros Hs. cbn [pollLoop]. unfold getTransactionReceipt.
  cbn [sleep polls]. unfold receiptStatus in Hs.
  destruct (eth_getTransactionReceipt rpc (polls w) txHash)
    as [e | [rc|] [e|]]; try discriminate Hs.
  injection Hs as ->. reflexivity.
Qed.

Lemma pollLoop_reverted_step (rpc : Node) (txHash : string) (n : nat) (w : world) :
  receiptStatus (rpc.(eth_getTransactionReceipt) w.(polls) txHash)
  = Some "0x0"%string ->
  pollLoop rpc txHash (S n) w
  = (polled (sleep 5 w), Reverted ("transaction failed: " ++ txHash)).
Proof.
  intros Hs. cbn [pollLoop]. unfold getTransactionReceipt.
  cbn [sleep polls]. unfold receiptStatus in Hs.
  destruct (eth_getTransactionReceipt rpc (polls w) txHash)
    as [e | [rc|] [e|]]; try discriminate Hs.
  injection Hs as ->. reflexivity.
Qed.

Lemma pollLoop_skip (rpc : Node) (txHash : string) (k : nat) : forall n w,
  (forall j, (j < k)%nat ->
     decisive (rpc.(eth_getTransactionReceipt) (polls w + j)%nat txHash) = false) ->
  pollLoop rpc txHash (k + n) w = pollLoop rpc txHash n (afterPending k w).
Proof.
  induction k as [|k IH]; intros n w Hp; [reflexivity|].
  cbn [Nat.add afterPending].
  rewrite pollLoop_pending_step.
  - apply IH. intros j Hj. cbn [polls print polled sleep].
    replace (S (polls w) + j)%nat with (polls w + S j)%nat by lia.
    apply Hp. lia.
  - specialize (Hp 0%nat ltac:(lia)). now rewrite Nat.add_0_r in Hp.
Qed.

Lemma pollLoop_first_mined (rpc : Node) (txHash : string) (total i : nat)
  (w : world) :
  (i < total)%nat ->
  (forall j, (j < i)%nat ->
     decisive (rpc.(eth_getTransactionReceipt) (polls w + j)%nat txHash) = false) ->
  receiptStatus (rpc.(eth_getTransactionReceipt) (polls w + i)%nat txHash)
  = Some "0x1"%string ->
  pollLoop rpc txHash total w
  = (print "Transaction successfully mined!"
       (polled (sleep 5 (afterPending i w))), Mined).
Proof.
  intros Hi Hpend Hst.
  replace total with (i + S (total - i - 1))%nat by lia.
  rewrite pollLoop_skip by exact Hpend.
  destruct (polls_afterPending i w) as [Hp _].
  now rewrite pollLoop_mined_step by (rewrite Hp; exact Hst).
Qed.

Lemma pollLoop_first_reverted (rpc : Node) (txHash : string) (total i : nat)
  (w : world) :
  (i < total)%nat ->
  (forall j, (j < i)%nat ->
     decisive (rpc.(eth_getTransactionReceipt) (polls w + j)%nat txHash) = false) ->
  receiptStatus (rpc.(eth_getTransactionReceipt) (polls w + i)%nat txHash)
  = Some "0x0"%string ->
  pollLoop rpc txHash total w
  = (polled (sleep 5 (afterPending i w)),
     Reverted ("transaction failed: " ++ txHash)).
Proof.
  intros Hi Hpend Hst.
  replace total with (i + S (total - i - 1))%nat by lia.
  rewrite pollLoop_skip by exact Hpend.
  destruct (polls_afterPending i w) as [Hp _].
  now rewrite pollLoop_reverted_step by (rewrite Hp; exact Hst).
Qed.

Lemma pollLoop_exhausted (rpc : Node) (txHash : string) (total : nat)
  (w : world) :
  (forall j, (j < total)%nat ->
     decisive (rpc.(eth_getTransactionReceipt) (polls w + j)%nat txHash) = false) ->
  pollLoop rpc txHash total w = (afterPending total w, Exhausted).
Proof.
  intros Hpend.
  replace total with (total + 0)%nat at 1 by lia.
  now rewrite pollLoop_skip by exact Hpend.
Qed.

Lemma Clear_wait_unfold (rpc : Node) (rpcURL victimAddress txHash : string)
  (w : world) :
  Clear_wait rpc rpcURL victimAddress txHash w =
    match pollLoop rpc txHash 60 (print "Waiting for transaction to be mined..." w) with
    | (w, Reverted e) => (w, Reverted e, Some e)
    | (w, how) =>
        (print ("eip7702cleaner check " ++ victimAddress ++ " --rpc-url " ++ rpcURL)
           (print "To verify the EIP-7702 authorization has been cleared, run:" w),
         how, None)
    end.
Proof. reflexivity. Qed.

(** C6. With at most 60 polls, 5 seconds apart: the first reply that
    carries a receipt with status "0x1" ends the operation successfully,
    the first with status "0x0" ends it with the error that names the
    transaction hash, and 60 polls without such a reply end it without an
    error: [Clear] returns [nil] after telling the caller how to check. *)
Theorem C6_confirmation (rpc : Node) (rpcURL victimAddress txHash : string)
  (w : world) :
  (forall i, (i < 60)%nat ->
     (forall j, (j < i)%nat ->
        decisive (rpc.(eth_getTransactionReceipt) (polls w + j)%nat txHash) = false) ->
     receiptStatus (rpc.(eth_getTransactionReceipt) (polls w + i)%nat txHash)
     = Some "0x1"%string ->
     exists w',
       Clear_wait rpc rpcURL victimAddress txHash w = (w', Mined, None)
       /\ polls w' = (polls w + i + 1)%nat
       /\ slept w' = slept w + 5 * N.of_nat (i + 1))
  /\ (forall i, (i < 60)%nat ->
     (forall j, (j < i)%nat ->
        decisive (rpc.(eth_getTransactionReceipt) (polls w + j)%nat txHash) = false) ->
     receiptStatus (rpc.(eth_getTransactionReceipt) (polls w + i)%nat txHash)
     = Some "0x0"%string ->
     exists w',
       Clear_wait rpc rpcURL victimAddress txHash w
       = (w', Reverted ("transaction failed: " ++ txHash),
          Some ("transaction failed: " ++ txHash)%string)
       /\ polls w' = (polls w + i + 1)%nat)
  /\ ((forall j, (j < 60)%nat ->
        decisive (rpc.(eth_getTransactionReceipt) (polls w + j)%nat txHash) = false) ->
     exists w' out,
       Clear_wait rpc rpcURL victimAddress txHash w = (w', Exhausted, None)
       /\ polls w' = (polls w + 60)%nat
       /\ slept w' = slept w + 300
       /\ stdout w'
          = out ++ ["To verify the EIP-7702 authorization has been cleared, run:";
                    "eip7702cleaner check " ++ victimAddress
                      ++ " --rpc-url " ++ rpcURL]%string).
Proof.
  set (w0 := print "Waiting for transaction to be mined..." w).
  assert (Hp0 : polls w0 = polls w) by reflexivity.
  assert (Hs0 : slept w0 = slept w) by reflexivity.
  split; [|split].
  - intros i Hi Hpend Hst.
    rewrite Clear_wait_unfold. fold w0.
    rewrite (pollLoop_first_mined rpc txHash 60 i w0 Hi)
      by (rewrite ?Hp0; assumption).
    destruct (polls_afterPending i w0) as [Hp Hs].
    eexists. split; [reflexivity|].
    cbn [polls slept print polled sleep]. rewrite Hp, Hs, Hp0, Hs0.
    split; lia.
  - intros i Hi Hpend Hst.
    rewrite Clear_wait_unfold. fold w0.
    rewrite (pollLoop_first_reverted rpc txHash 60 i w0 Hi)
      by (rewrite ?Hp0; assumption).
    destruct (polls_afterPending i w0) as [Hp Hs].
    eexists. split; [reflexivity|].
    cbn [polls polled sleep]. rewrite Hp, Hp0. lia.
  - intros Hpend.
    rewrite Clear_wait_unfold. fold w0.
    rewrite (pollLoop_exhausted rpc txHash 60 w0)
      by (rewrite ?Hp0; assumption).
    destruct (polls_afterPending 60 w0) as [Hp Hs].
    rewrite Hp0 in Hp. rewrite Hs0 in Hs.
    change (5 * N.of_nat 60) with 300 in Hs.
    remember (afterPending 60 w0) as wl eqn:Ewl. clear Ewl.
    eexists. exists (stdout wl). split; [reflexivity|].
    cbn [polls slept stdout print].
    split; [exact Hp|]. split; [exact Hs|].
    now rewrite <- app_assoc.
Qed.

Lemma C6_confirmation_witness :
  (exists w', Clear_wait mainnetLike "http://localhost:8545" "0xaa" exampleHash
                freshWorld = (w', Mined, None)
              /\ polls w' = 3%nat /\ slept w' = 15)
  /\ (exists w', Clear_wait legacyNode "http://localhost:8545" "0xaa" exampleHash
                   freshWorld
                 = (w', Reverted ("transaction failed: " ++ exampleHash),
                    Some ("transaction failed: " ++ exampleHash)%string)
                 /\ polls w' = 3%nat)
  /\ (exists w', Clear_wait wideNode "http://localhost:8545" "0xaa" exampleHash
                   freshWorld = (w', Exhausted, None)
                 /\ polls w' = 60%nat /\ slept w' = 300).
Proof.
  split; [|split].
  - destruct (C6_confirmation mainnetLike "http://localhost:8545" "0xaa"
                exampleHash freshWorld) as (H & _ & _).
    destruct (H 2%nat) as (w' & E & Hp & Hs).
    + lia.
    + intros j Hj. destruct j as [|[|j]]; [reflexivity | reflexivity | lia].
    + reflexivity.
    + exists w'. split; [exact E|]. split; [exact Hp | exact Hs].
  - destruct (C6_confirmation legacyNode "http://localhost:8545" "0xaa"
                exampleHash freshWorld) as (_ & H & _).
    destruct (H 2%nat) as (w' & E & Hp).
    + lia.
    + intros j Hj. destruct j as [|[|j]]; [reflexivity | reflexivity | lia].
    + reflexivity.
    + exists w'. split; [exact E | exact Hp].
  - destruct (C6_confirmation wideNode "http://localhost:8545" "0xaa"
                exampleHash freshWorld) as (_ & _ & H).
    destruct H as (w' & out & E & Hp & Hs & _).
    + intros j _. reflexivity.
    + exists w'. split; [exact E|]. split; [exact Hp | exact Hs].
Defined.

(** The scenario of the design document: a receipt with status "0x1" at
    the third poll. *)
Example Clear_wait_third_poll :
  snd (fst (Clear_wait mainnetLike "http://localhost:8545" "0xaa" exampleHash
              freshWorld)) = Mined
  /\ snd (Clear_wait mainnetLike "http://localhost:8545" "0xaa" exampleHash
            freshWorld) = None
  /\ stdout (fst (fst (Clear_wait mainnetLike "http://localhost:8545" "0xaa"
                         exampleHash freshWorld)))
     = ["Waiting for transaction to be mined..."; "."; ".";
        "Transaction successfully mined!";
        "To verify the EIP-7702 authorization has been cleared, run:";
        "eip7702cleaner check 0xaa --rpc-url http://localhost:8545"]%string.
Proof. repeat split. Qed.

(* ================================================================== *)
(** * Part III: further properties of the code *)
(* ================================================================== *)

(** ** Errors of the transaction builder *)

Lemma to_item_BigInt_negative (z : Z) :
  (z < 0)%Z -> to_item (BigInt z) = Err "rlp: cannot encode negative big.Int".
Proof.
  intros Hz. cbn [to_item]. destruct (Z.ltb_spec z 0); [reflexivity | lia].
Qed.

Lemma to_item_BigInt_cases (z : Z) :
  ((z < 0)%Z /\ to_item (BigInt z) = Err "rlp: cannot encode negative big.Int")
  \/ ((0 <= z)%Z /\ to_item (BigInt z) = Ok (Reference.Int (Z.to_N z))).
Proof.
  destruct (Z.lt_ge_cases z 0) as [H | H].
  - left. split; [exact H | now apply to_item_BigInt_negative].
  - right. split; [exact H | now apply to_item_BigInt].
Qed.

(** X1. With a negative chain id the error of [rlp.Encode] is dropped and
    the buffer stays empty: the digest is Keccak-256 of the magic byte
    alone, whatever the delegate address and the nonce are. *)
Theorem X1_authTupleMessage_negative_chain
  (chainId : Z) (addr addr' : Address) (nonce nonce' : N) :
  (chainId < 0)%Z ->
  authTupleMessage chainId addr nonce = Keccak.Keccak256 [x05]
  /\ authTupleMessage chainId addr nonce = authTupleMessage chainId addr' nonce'.
Proof.
  intros Hc.
  assert (H : forall a n, authTupleMessage chainId a n = Keccak.Keccak256 [x05]).
  { intros a n. unfold authTupleMessage, EncodeToBytes.
    rewrite to_item_Slice, to_items_cons, to_item_BigInt_negative by exact Hc.
    reflexivity. }
  split; [apply H | now rewrite !H].
Qed.

Lemma X1_authTupleMessage_negative_chain_witness :
  authTupleMessage (-1) zeroAddress 5
  = authTupleMessage (-1) exampleTemplate 6.
Proof.
  apply (X1_authTupleMessage_negative_chain (-1) zeroAddress exampleTemplate 5 6).
  lia.
Defined.

Section BuilderErrors.

Context {signer : Signer}.

Lemma build7702Tx_encode_step
  (chainId : Z) (userPriv : PrivateKey) (relayerNonce userNonce : N)
  (gasTip gasFeeCap : Z) (gasLimit : N) (addr : Address) (txData sig : list byte) :
  Sign (authTupleMessage chainId addr userNonce) userPriv = Ok sig ->
  length sig = 65%nat ->
  build7702Tx chainId userPriv relayerNonce userNonce gasTip gasFeeCap
    gasLimit addr txData
  = (rlpPayload <-
       EncodeToBytes
         (Slice [BigInt chainId; Uint relayerNonce; BigInt gasTip;
                 BigInt gasFeeCap; Uint gasLimit; Bytes addr; BigInt 0;
                 Bytes txData; Slice [];
                 Slice [Slice [BigInt chainId; Bytes addr; Uint userNonce;
                               Uint (Reference.sig_v sig);
                               BigInt (Z.of_N (Reference.sig_r sig));
                               BigInt (Z.of_N (Reference.sig_s sig))]]]) ;;
     Ok (Hex.EncodeToString ([SET_CODE_TX_TYPE] ++ rlpPayload))).
Proof.
  intros HS Hlen. unfold build7702Tx. rewrite HS. cbn [bind].
  rewrite !slice_ok, index_ok by lia. reflexivity.
Qed.

End BuilderErrors.

(** X2. [build7702Tx] never returns a transaction for a negative chain id,
    priority fee or fee cap: once the authorization is signed, the encoder
    refuses the envelope with its negative-integer error; and an error of
    the signing call is returned as it is. *)
Theorem X2_build7702Tx_errors {signer : Signer}
  (chainId : Z) (userPriv : PrivateKey) (relayerNonce userNonce : N)
  (gasTip gasFeeCap : Z) (gasLimit : N) (addr : Address) (txData : list byte) :
  (forall tx,
     build7702Tx chainId userPriv relayerNonce userNonce gasTip gasFeeCap
       gasLimit addr txData = Ok tx ->
     (0 <= chainId)%Z /\ (0 <= gasTip)%Z /\ (0 <= gasFeeCap)%Z)
  /\ (forall sig,
        Sign (authTupleMessage chainId addr userNonce) userPriv = Ok sig ->
        length sig = 65%nat ->
        (chainId < 0 \/ gasTip < 0 \/ gasFeeCap < 0)%Z ->
        build7702Tx chainId userPriv relayerNonce userNonce gasTip gasFeeCap
          gasLimit addr txData
        = Err "rlp: cannot encode negative big.Int")
  /\ (forall e,
        Sign (authTupleMessage chainId addr userNonce) userPriv = Err e ->
        build7702Tx chainId userPriv relayerNonce userNonce gasTip gasFeeCap
          gasLimit addr txData = Err e).
Proof.
  assert (Henc : forall sig,
    (chainId < 0 \/ gasTip < 0 \/ gasFeeCap < 0)%Z ->
    EncodeToBytes
      (Slice [BigInt chainId; Uint relayerNonce; BigInt gasTip;
              BigInt gasFeeCap; Uint gasLimit; Bytes addr; BigInt 0;
              Bytes txData; Slice [];
              Slice [Slice [BigInt chainId; Bytes addr; Uint userNonce;
                            Uint (Reference.sig_v sig);
                            BigInt (Z.of_N (Reference.sig_r sig));
                            BigInt (Z.of_N (Reference.sig_s sig))]]])
    = Err "rlp: cannot encode negative big.Int").
  { intros sig Hneg. unfold EncodeToBytes.
    rewrite to_item_Slice, to_items_cons.
    destruct (to_item_BigInt_cases chainId) as [[_ ->] | [Hc ->]];
      [reflexivity|]. cbn [bind].
    rewrite to_items_cons, to_item_Uint. cbn [bind].
    rewrite to_items_cons.
    destruct (to_item_BigInt_cases gasTip) as [[_ ->] | [Ht ->]];
      [reflexivity|]. cbn [bind].
    rewrite to_items_cons.
    destruct (to_item_BigInt_cases gasFeeCap) as [[_ ->] | [Hf ->]];
      [reflexivity | lia]. }
  split; [|split].
  - intros tx H. unfold build7702Tx in H.
    destruct (Sign (authTupleMessage chainId addr userNonce) userPriv)
      as [sig| |] eqn:HS; try discriminate H. cbn [bind] in H.
    destruct (slice 0 32 sig) as [rb| |] eqn:Hr; try discriminate H.
    cbn [bind] in H.
    destruct (slice 32 64 sig) as [sb| |] eqn:Hs; try discriminate H.
    cbn [bind] in H.
    destruct (index 64 sig) as [yb| |] eqn:Hy; try discriminate H.
    cbn [bind] in H.
    destruct (Z.lt_ge_cases chainId 0) as [Hc|Hc];
      [|destruct (Z.lt_ge_cases gasTip 0) as [Ht|Ht];
        [|destruct (Z.lt_ge_cases gasFeeCap 0) as [Hf|Hf]; [|auto]]];
      exfalso; revert H; unfold EncodeToBytes;
      rewrite to_item_Slice, to_items_cons.
    + rewrite to_item_BigInt_negative by exact Hc. discriminate.
    + rewrite to_item_BigInt by exact Hc. cbn [bind].
      rewrite to_items_cons, to_item_Uint. cbn [bind].
      rewrite to_items_cons, to_item_BigInt_negative by exact Ht. discriminate.
    + rewrite to_item_BigInt by exact Hc. cbn [bind].
      rewrite to_items_cons, to_item_Uint. cbn [bind].
      rewrite to_items_cons, to_item_BigInt by exact Ht. cbn [bind].
      rewrite to_items_cons, to_item_BigInt_negative by exact Hf. discriminate.
  - intros sig HS Hlen Hneg.
    rewrite (build7702Tx_encode_step _ _ _ _ _ _ _ _ _ sig HS Hlen).
    now rewrite Henc.
  - intros e HS. unfold build7702Tx. now rewrite HS.
Qed.

Lemma X2_build7702Tx_errors_witness :
  build7702Tx (signer := exampleSigner) 1 exampleUserKey 12 5 (-1) 2100000000
    100000 zeroAddress []
  = Err "rlp: cannot encode negative big.Int".
Proof.
  destruct (X2_build7702Tx_errors (signer := exampleSigner) 1 exampleUserKey
              12 5 (-1) 2100000000 100000 zeroAddress []) as (_ & H & _).
  apply (H (exampleAuthSig zeroAddress)).
  - vm_compute. reflexivity.
  - vm_compute. reflexivity.
  - lia.
Defined.

(** ** What [signEIP7702Tx] accepts and what it adds *)

Lemma fromHexChar_lt (c : ascii) (d : N) : Hex.fromHexChar c = Some d -> d < 16.
Proof. intros H. now destruct (digitVal_hex c d H). Qed.

Lemma fromHexChar_zero (c : ascii) : Hex.fromHexChar c = Some 0 -> c = "0"%char.
Proof.
  unfold Hex.fromHexChar. set (n := N_of_ascii c).
  destruct ((48 <=? n) && (n <=? 57)) eqn:E1.
  - apply range_true in E1. intros [= H].
    rewrite <- (ascii_N_embedding c). fold n.
    replace n with 48 by lia. reflexivity.
  - destruct ((97 <=? n) && (n <=? 102)) eqn:E2.
    + apply range_true in E2. intros [= H]. lia.
    + destruct ((65 <=? n) && (n <=? 70)) eqn:E3; [|discriminate].
      apply range_true in E3. intros [= H]. lia.
Qed.

Lemma fromHexChar_four (c : ascii) : Hex.fromHexChar c = Some 4 -> c = "4"%char.
Proof.
  unfold Hex.fromHexChar. set (n := N_of_ascii c).
  destruct ((48 <=? n) && (n <=? 57)) eqn:E1.
  - apply range_true in E1. intros [= H].
    rewrite <- (ascii_N_embedding c). fold n.
    replace n with 52 by lia. reflexivity.
  - destruct ((97 <=? n) && (n <=? 102)) eqn:E2.
    + apply range_true in E2. intros [= H]. lia.
    + destruct ((65 <=? n) && (n <=? 70)) eqn:E3; [|discriminate].
      apply range_true in E3. intros [= H]. lia.
Qed.

Lemma DecodeString_cons (s : string) (b : byte) (bs : list byte) :
  Hex.DecodeString s = Ok (b :: bs) ->
  exists hi lo rest h l,
    s = String hi (String lo rest)
    /\ Hex.fromHexChar hi = Some h /\ Hex.fromHexChar lo = Some l
    /\ b = byte_of_N (h * 16 + l) /\ Hex.DecodeString rest = Ok bs.
Proof.
  destruct s as [|hi [|lo rest]]; try discriminate.
  cbn [Hex.DecodeString].
  destruct (Hex.fromHexChar hi) as [h|] eqn:Eh; [|discriminate].
  destruct (Hex.fromHexChar lo) as [l|] eqn:El; [|discriminate].
  destruct (Hex.DecodeString rest) as [bs'| |] eqn:Er; try discriminate.
  cbn [bind]. intros [= <- <-].
  exists hi, lo, rest, h, l. auto.
Qed.

Lemma DecodeString_length (s : string) :
  (forall bs, Hex.DecodeString s = Ok bs ->
              String.length s = (2 * length bs)%nat)
  /\ (forall c bs, Hex.DecodeString (String c s) = Ok bs ->
                   String.length (String c s) = (2 * length bs)%nat).
Proof.
  induction s as [|a s [IH1 IH2]].
  - split; [intros bs [= <-]; reflexivity | intros c bs H; discriminate H].
  - split; [exact (IH2 a)|].
    intros c bs H. destruct bs as [|b bs].
    + cbn [Hex.DecodeString] in H.
      destruct (Hex.fromHexChar c), (Hex.fromHexChar a); try discriminate H.
      destruct (Hex.DecodeString s); discriminate H.
    + destruct (DecodeString_cons _ _ _ H)
        as (hi & lo & rest & h & l & E & _ & _ & _ & Hr).
      injection E as <- <- <-.
      cbn [String.length length]. rewrite (IH1 bs Hr). lia.
Qed.

Lemma EncodeToString_length (bs : list byte) :
  String.length (Hex.EncodeToString bs) = (2 * length bs)%nat.
Proof.
  induction bs as [|b bs IH]; [reflexivity|].
  cbn [Hex.EncodeToString String.length length]. rewrite IH. lia.
Qed.

Lemma DecodeString_type_byte (s : string) (payload : list byte) :
  Hex.DecodeString s = Ok (x04 :: payload) -> HasPrefix s "04" = true.
Proof.
  intros H.
  destruct (DecodeString_cons _ _ _ H)
    as (hi & lo & rest & h & l & -> & Hh & Hl & Hb & _).
  pose proof (fromHexChar_lt _ _ Hh). pose proof (fromHexChar_lt _ _ Hl).
  assert (Hv : h * 16 + l = 4).
  { rewrite <- (to_N_byte_of_N (h * 16 + l)) by lia. now rewrite <- Hb. }
  assert (h = 0) by lia. assert (l = 4) by lia. subst h l.
  rewrite (fromHexChar_zero _ Hh), (fromHexChar_four _ Hl). reflexivity.
Qed.

Lemma DecodeBytes_image (bs : list byte) (fields : list value) :
  DecodeBytes bs = Ok fields -> exists l, fields = map of_item l.
Proof.
  unfold DecodeBytes.
  destruct (decode (2 * length bs) bs) as [[[s|l] [|b rest]]| |];
    cbn [bind]; try discriminate.
  intros [= <-]. now exists l.
Qed.

(** X3. [signEIP7702Tx] signs nothing but a type-0x04 payload: whenever it
    returns a transaction, the input text has an even number of characters
    and starts with "04", and so does the output; and the hex text of any
    byte string that is empty or starts with another byte is refused with
    "not a EIP-7702 tx hex", whatever the key. *)
Theorem X3_signEIP7702Tx_type_byte {signer : Signer}
  (rawHex : string) (relayerPriv : PrivateKey) :
  (forall signed,
     signEIP7702Tx rawHex relayerPriv = Ok signed ->
     HasPrefix rawHex "04" = true
     /\ Nat.even (String.length rawHex) = true
     /\ HasPrefix signed "04" = true)
  /\ (forall bs,
        rawHex = Hex.EncodeToString bs ->
        hd x00 bs <> x04 \/ bs = [] ->
        signEIP7702Tx rawHex relayerPriv = Err "not a EIP-7702 tx hex").
Proof.
  split.
  - intros signed H. unfold signEIP7702Tx in H.
    destruct (Hex.DecodeString rawHex) as [txBytes| |] eqn:Ed;
      try discriminate H. cbn [bind] in H.
    destruct txBytes as [|b0 payload]; [discriminate H|].
    destruct (Byte.eqb b0 x04) eqn:Eb; [|discriminate H].
    apply Byte.byte_dec_bl in Eb. subst b0. cbn [negb] in H.
    split; [now apply (DecodeString_type_byte rawHex payload)|].
    split.
    + destruct (DecodeString_length rawHex) as [Hl _].
      rewrite (Hl _ Ed). now rewrite Nat.even_mul.
    + destruct (DecodeBytes payload) as [txRaw| |]; try discriminate H.
      cbn [bind] in H.
      destruct (Sign _ relayerPriv) as [sig| |]; try discriminate H.
      cbn [bind] in H.
      destruct (slice 0 32 sig); try discriminate H. cbn [bind] in H.
      destruct (slice 32 64 sig); try discriminate H. cbn [bind] in H.
      destruct (index 64 sig); try discriminate H. cbn [bind] in H.
      destruct (EncodeToBytes _) as [final| |]; try discriminate H.
      cbn [bind] in H. injection H as <-. reflexivity.
  - intros bs -> Hbs. unfold signEIP7702Tx. rewrite hex_roundtrip.
    cbn [bind]. destruct bs as [|b bs]; [reflexivity|].
    destruct Hbs as [Hb|Hb]; [|discriminate Hb]. cbn [hd] in Hb.
    destruct (Byte.eqb b x04) eqn:Eb; [|reflexivity].
    apply Byte.byte_dec_bl in Eb. contradiction.
Qed.

Lemma X3_signEIP7702Tx_type_byte_witness :
  signEIP7702Tx (signer := exampleSigner) "02c0" exampleRelayerKey
  = Err "not a EIP-7702 tx hex"
  /\ HasPrefix
       (value_of ""%string
          (signEIP7702Tx (signer := exampleSigner) "04c0" exampleRelayerKey))
       "04" = true.
Proof.
  destruct (X3_signEIP7702Tx_type_byte (signer := exampleSigner)
              "02c0" exampleRelayerKey) as [_ H2].
  destruct (X3_signEIP7702Tx_type_byte (signer := exampleSigner)
              "04c0" exampleRelayerKey) as [H1 _].
  split.
  - apply (H2 [x02; xc0]); [reflexivity | left; discriminate].
  - destruct (signEIP7702Tx (signer := exampleSigner) "04c0" exampleRelayerKey)
      as [signed| |] eqn:E; try (vm_compute in E; discriminate E).
    now destruct (H1 signed eq_refl) as (_ & _ & H).
Defined.

(** X4. Signing keeps every field it was given. For every input whose top-level
    fields can be read and for which the signing call succeeds,
    [signEIP7702Tx] returns a transaction, the digest signed is that of the
    decoded input bytes, and the fields of the result are those of the input,
    in order, followed by exactly three more: recovery id, r and s. *)
Theorem X4_signEIP7702Tx_appends {signer : Signer}
  (rawHex : string) (relayerPriv : PrivateKey) (txBytes : list byte)
  (fields : list value) (sig : list byte) :
  SignContract signer ->
  Hex.DecodeString rawHex = Ok txBytes ->
  topLevelFields rawHex = Ok fields ->
  Sign (Keccak.Keccak256 txBytes) relayerPriv = Ok sig ->
  exists signed,
    signEIP7702Tx rawHex relayerPriv = Ok signed
    /\ (N.of_nat (String.length signed) < 2 ^ 64 ->
        topLevelFields signed
        = Ok (fields ++ [Bytes (be_bytes (Reference.sig_v sig));
                         Bytes (be_bytes (Reference.sig_r sig));
                         Bytes (be_bytes (Reference.sig_s sig))])).
Proof.
  intros Hok Hd Hf HS.
  unfold topLevelFields in Hf. rewrite Hd in Hf. cbn [bind] in Hf.
  destruct txBytes as [|b0 payload]; [discriminate Hf|].
  destruct (Byte.eqb b0 x04) eqn:Eb; [|discriminate Hf].
  apply Byte.byte_dec_bl in Eb. subst b0.
  destruct (DecodeBytes_image _ _ Hf) as [l ->].
  destruct (Hok _ _ _ HS) as [Hlen _].
  exists (Hex.EncodeToString
            (x04 :: encode (List (l ++ Reference.outer_fields sig)))).
  split.
  - unfold signEIP7702Tx. rewrite Hd. cbn [bind Byte.eqb negb].
    rewrite Hf. cbn [bind app]. rewrite HS. cbn [bind].
    rewrite !slice_ok, index_ok by lia. cbn [bind].
    unfold EncodeToBytes. rewrite to_item_Slice.
    rewrite (to_items_app _ _ l (Reference.outer_fields sig)).
    + reflexivity.
    + apply to_items_of_items.
    + to_item_steps. reflexivity.
  - intros Hsz. rewrite EncodeToString_length in Hsz. cbn [length] in Hsz.
    rewrite topLevelFields_encode by lia.
    now rewrite map_app.
Qed.

Lemma X4_signEIP7702Tx_appends_witness :
  exists signed,
    signEIP7702Tx (signer := exampleSigner) "04C20501" exampleRelayerKey
    = Ok signed
    /\ topLevelFields signed
       = Ok ([Bytes [x05]; Bytes [x01]]
             ++ [Bytes (be_bytes (Reference.sig_v
                   (value_of [] (exampleSign (Keccak.Keccak256 [x04; xc2; x05; x01])
                                   exampleRelayerKey))));
                 Bytes (be_bytes (Reference.sig_r
                   (value_of [] (exampleSign (Keccak.Keccak256 [x04; xc2; x05; x01])
                                   exampleRelayerKey))));
                 Bytes (be_bytes (Reference.sig_s
                   (value_of [] (exampleSign (Keccak.Keccak256 [x04; xc2; x05; x01])
                                   exampleRelayerKey))))]).
Proof.
  destruct (X4_signEIP7702Tx_appends (signer := exampleSigner) "04C20501"
              exampleRelayerKey [x04; xc2; x05; x01]
              [Bytes [x05]; Bytes [x01]]
              (value_of [] (exampleSign (Keccak.Keccak256 [x04; xc2; x05; x01])
                              exampleRelayerKey)))
    as (signed & H1 & H2).
  - exact exampleSign_contract.
  - reflexivity.
  - reflexivity.
  - vm_compute. reflexivity.
  - exists signed. split; [exact H1|]. apply H2.
    vm_compute in H1. injection H1 as <-. vm_compute. reflexivity.
Defined.

(** ** Every path of the fee estimator *)

Lemma fallbackGasFees_cases (rpc : Node) :
  (exists g, getGasPrice rpc = Ok g
             /\ fallbackGasFees rpc
                = Ok (Z.max minPriorityFee g, Z.max minPriorityFee g))
  \/ (exists e, getGasPrice rpc = Err e
                /\ fallbackGasFees rpc
                   = Err ("failed to get gas price for fallback: " ++ e))
  \/ (getGasPrice rpc = Panic /\ fallbackGasFees rpc = Panic).
Proof.
  unfold fallbackGasFees. destruct (getGasPrice rpc) as [g|e|].
  - left. exists g. split; [reflexivity|].
    destruct (Z.ltb_spec g minPriorityFee).
    + now rewrite Z.max_l by lia.
    + now rewrite Z.max_r by lia.
  - right; left. now exists e.
  - right; right. auto.
Qed.

(** How [getSuggestedGasFees] ends: with the legacy fallback, with the
    error of the block query, or on the EIP-1559 path. *)
Lemma getSuggestedGasFees_cases (rpc : Node) :
  getSuggestedGasFees rpc = fallbackGasFees rpc
  \/ (exists e, rpc.(eth_getBlockByNumber) = Transport e
                /\ getSuggestedGasFees rpc
                   = Err ("failed to get latest block: " ++ e))
  \/ (exists p b,
        rpc.(eth_maxPriorityFeePerGas) = Body p None /\ p <> EmptyString
        /\ rpc.(eth_getBlockByNumber) = Body b None /\ b <> EmptyString
        /\ getSuggestedGasFees rpc
           = Ok (Z.max minPriorityFee (feeValue p),
                 (2 * feeValue b + Z.max minPriorityFee (feeValue p))%Z)).
Proof.
  unfold getSuggestedGasFees.
  destruct (eth_maxPriorityFeePerGas rpc) as [e | p [e|]]; auto.
  destruct (String.eqb_spec p "") as [->|Hp]; auto.
  destruct (eth_getBlockByNumber rpc) as [e | b [e|]]; auto.
  - right; left. now exists e.
  - destruct (String.eqb_spec b "") as [->|Hb]; auto.
    right; right. exists p, b. repeat (split; [auto; fail|]).
    fold (feeValue p). fold (feeValue b).
    destruct (Z.ltb_spec (feeValue p) minPriorityFee).
    + rewrite Z.max_l by lia. f_equal. f_equal. lia.
    + rewrite Z.max_r by lia. f_equal. f_equal. lia.
Qed.

(** X5. Whatever the node answers, a pair of fees that [getSuggestedGasFees]
    returns has a priority fee of at least the floor of 100000000; its fee
    cap is either the priority fee itself (legacy fallback) or twice the
    reported base fee plus the priority fee. [fallbackGasFees] always
    returns the same value twice. *)
Theorem X5_fee_floor_on_every_path (rpc : Node) (tip cap : Z) :
  (getSuggestedGasFees rpc = Ok (tip, cap) ->
   (minPriorityFee <= tip)%Z
   /\ (cap = tip
       \/ exists b, rpc.(eth_getBlockByNumber) = Body b None
                    /\ cap = (2 * feeValue b + tip)%Z))
  /\ (fallbackGasFees rpc = Ok (tip, cap) ->
      (minPriorityFee <= tip)%Z /\ cap = tip).
Proof.
  assert (Hfb : fallbackGasFees rpc = Ok (tip, cap) ->
                (minPriorityFee <= tip)%Z /\ cap = tip).
  { intros H.
    destruct (fallbackGasFees_cases rpc)
      as [(g & _ & E) | [(e & _ & E) | (_ & E)]];
      rewrite E in H; try discriminate H.
    injection H as <- <-. split; [lia | reflexivity]. }
  split; [|exact Hfb].
  intros H.
  destruct (getSuggestedGasFees_cases rpc)
    as [E | [(e & _ & E) | (p & b & _ & _ & Eb & _ & E)]];
    rewrite E in H; try discriminate H.
  - destruct (Hfb H) as [H1 H2]. auto.
  - injection H as <- <-. split; [lia|]. right. now exists b.
Qed.

Lemma X5_fee_floor_on_every_path_witness :
  (getSuggestedGasFees mainnetLike = Ok (100000000, 2100000000)%Z
   /\ (minPriorityFee <= 100000000)%Z)
  /\ (fallbackGasFees legacyNode = Ok (100000000, 100000000)%Z
      /\ (minPriorityFee <= 100000000)%Z).
Proof.
  destruct (X5_fee_floor_on_every_path mainnetLike 100000000 2100000000)
    as [H1 _].
  destruct (X5_fee_floor_on_every_path legacyNode 100000000 100000000)
    as [_ H2].
  split; (split; [reflexivity|]).
  - apply H1. reflexivity.
  - apply H2. reflexivity.
Defined.

(** X6. [getSuggestedGasFees] fails in two ways only: the block query could
    not be sent, or the gas price of the legacy fallback could not be read;
    the error says which. A failure of the priority-fee query, a reply that
    is not JSON and a missing base fee are not reported: the gas price
    decides. It panics only where [getGasPrice] does. *)
Theorem X6_fee_errors (rpc : Node) :
  (forall e,
     getSuggestedGasFees rpc = Err e ->
     (exists cause, rpc.(eth_getBlockByNumber) = Transport cause
                    /\ e = ("failed to get latest block: " ++ cause)%string)
     \/ (exists cause, getGasPrice rpc = Err cause
                       /\ e = ("failed to get gas price for fallback: "
                               ++ cause)%string))
  /\ (getSuggestedGasFees rpc = Panic -> getGasPrice rpc = Panic)
  /\ (forall g,
        getGasPrice rpc = Ok g ->
        (forall e, rpc.(eth_getBlockByNumber) <> Transport e) ->
        exists tip cap, getSuggestedGasFees rpc = Ok (tip, cap)).
Proof.
  split; [|split].
  - intros e H.
    destruct (getSuggestedGasFees_cases rpc)
      as [E | [(c & Ec & E) | (p & b & _ & _ & _ & _ & E)]];
      rewrite E in H; try discriminate H.
    + right.
      destruct (fallbackGasFees_cases rpc)
        as [(g & _ & F) | [(c & Ec & F) | (_ & F)]];
        rewrite F in H; try discriminate H.
      injection H as <-. now exists c.
    + left. injection H as <-. now exists c.
  - intros H.
    destruct (getSuggestedGasFees_cases rpc)
      as [E | [(c & Ec & E) | (p & b & _ & _ & _ & _ & E)]];
      rewrite E in H; try discriminate H.
    destruct (fallbackGasFees_cases rpc)
      as [(g & _ & F) | [(c & Ec & F) | (Ep & F)]];
      rewrite F in H; try discriminate H.
    exact Ep.
  - intros g Hg Hblock.
    destruct (getSuggestedGasFees_cases rpc)
      as [E | [(c & Ec & E) | (p & b & _ & _ & _ & _ & E)]].
    + rewrite E.
      destruct (fallbackGasFees_cases rpc)
        as [(g' & _ & F) | [(c & Ec & F) | (Ep & F)]].
      * rewrite F. eauto.
      * rewrite Hg in Ec. discriminate Ec.
      * rewrite Hg in Ep. discriminate Ep.
    + exfalso. exact (Hblock c Ec).
    + rewrite E. eauto.
Qed.

Lemma X6_fee_errors_witness :
  (getSuggestedGasFees badGateway
   = Err "failed to get gas price for fallback: invalid character '<' looking for beginning of value"
   /\ ((exists cause,
          eth_getBlockByNumber badGateway = Transport cause
          /\ "failed to get gas price for fallback: invalid character '<' looking for beginning of value"%string
             = ("failed to get latest block: " ++ cause)%string)
       \/ (exists cause,
             getGasPrice badGateway = Err cause
             /\ "failed to get gas price for fallback: invalid character '<' looking for beginning of value"%string
                = ("failed to get gas price for fallback: " ++ cause)%string)))
  /\ exists tip cap, getSuggestedGasFees legacyNode = Ok (tip, cap).
Proof.
  destruct (X6_fee_errors badGateway) as (H1 & _ & _).
  destruct (X6_fee_errors legacyNode) as (_ & _ & H3).
  split; [split; [reflexivity|]|].
  - apply H1. reflexivity.
  - apply (H3 99999999%Z); [reflexivity | discriminate].
Defined.

(** ** Numbers the node reports *)

Lemma SetString_negative (hs : string) :
  allHex hs = true -> hs <> EmptyString ->
  Big.SetString (String "-" hs) 16 = ((- Z.of_N (Reference.hex_value hs))%Z, true).
Proof.
  intros Hs Hne. unfold Big.SetString.
  cbn [Ascii.eqb Bool.eqb orb].
  rewrite scanDigits_hex by exact Hs.
  destruct hs as [|c hs]; [contradiction|].
  cbn [String.length Nat.add]. rewrite N.mul_0_l, N.add_0_l. reflexivity.
Qed.

(** X7. From a transaction count below 2^64, [getNonce] returns an [int64]
    that the conversion [uint64(nonce)] of [Clear] and [Set] turns back
    into the count, although for counts from 2^63 on the [int64] itself is
    negative (the count minus 2^64). *)
Theorem X7_nonce_through_int64 (rpc : Node) (address hs : string) :
  allHex hs = true -> hs <> EmptyString ->
  rpc.(eth_getTransactionCount) address = Body ("0x" ++ hs)%string None ->
  Reference.hex_value hs < 2 ^ 64 ->
  exists nonce,
    getNonce rpc address = Ok nonce
    /\ Big.uint64_of_int64 nonce = Reference.hex_value hs
    /\ (2 ^ 63 <= Reference.hex_value hs ->
        nonce = (Z.of_N (Reference.hex_value hs) - 2 ^ 64)%Z /\ (nonce < 0)%Z).
Proof.
  intros Hs Hne E Hlt.
  destruct (uint64_of_getNonce rpc address hs Hs Hne E Hlt) as (nonce & Hn & Hu).
  exists nonce. split; [exact Hn|]. split; [exact Hu|].
  intros Hge.
  rewrite getNonce_hexResult, E in Hn.
  change ("0x" ++ hs)%string with (String "0" (String "x" hs)) in Hn.
  rewrite hexResult_hex in Hn by assumption. cbn [bind] in Hn.
  injection Hn as <-.
  rewrite Int64_nonneg by lia. unfold Big.wrap_int64.
  change (2 ^ 64) with 18446744073709551616 in Hlt.
  change (2 ^ 63) with 9223372036854775808 in Hge.
  change (2 ^ 64)%Z with 18446744073709551616%Z.
  change (2 ^ 63)%Z with 9223372036854775808%Z.
  set (z := Z.of_N (Reference.hex_value hs)).
  assert (Hz : (9223372036854775808 <= z < 18446744073709551616)%Z)
    by (unfold z; lia).
  replace ((z + 9223372036854775808) mod 18446744073709551616)%Z
    with (z - 9223372036854775808)%Z.
  - lia.
  - symmetry.
    replace (z + 9223372036854775808)%Z
      with ((z - 9223372036854775808) + 1 * 18446744073709551616)%Z by lia.
    rewrite Z.mod_add by lia. apply Z.mod_small. lia.
Qed.

Lemma X7_nonce_through_int64_witness :
  exists nonce,
    getNonce
      (exampleNode (Body "0x1" None) (Body "0xffffffffffffffff" None)
         (Body "0x1" None) (Body "0x1" None) (Body "0x1" None)
         (Body (exampleHash, ""%string) None) (fun _ => Body None None))%string
      "0x00"%string = Ok nonce
    /\ Big.uint64_of_int64 nonce = 2 ^ 64 - 1
    /\ nonce = (-1)%Z.
Proof.
  destruct (X7_nonce_through_int64
              (exampleNode (Body "0x1" None) (Body "0xffffffffffffffff" None)
                 (Body "0x1" None) (Body "0x1" None) (Body "0x1" None)
                 (Body (exampleHash, ""%string) None)
                 (fun _ => Body None None))%string
              "0x00"%string "ffffffffffffffff"%string)
    as (nonce & H1 & H2 & H3).
  - reflexivity.
  - discriminate.
  - reflexivity.
  - vm_compute. reflexivity.
  - exists nonce. split; [exact H1|]. split.
    + rewrite H2. vm_compute. reflexivity.
    + destruct H3 as [H3 _]; [vm_compute; discriminate|].
      rewrite H3. vm_compute. reflexivity.
Defined.

(** X8. A result that unmarshals and has at least two characters never
    makes [getChainID] or [getGasPrice] fail: the success flag of
    [SetString] is not looked at. In particular a result "0x-" followed by
    hexadecimal digits is accepted as the negative integer, which
    [build7702Tx] then refuses to encode. *)
Theorem X8_numbers_are_not_validated {signer : Signer}
  (rpc : Node) (res : string) :
  (rpc.(eth_chainId) = Body res None -> (2 <= String.length res)%nat ->
   exists chainID, getChainID rpc = Ok chainID)
  /\ (rpc.(eth_gasPrice) = Body res None -> (2 <= String.length res)%nat ->
      exists gasPrice, getGasPrice rpc = Ok gasPrice)
  /\ (forall hs,
        allHex hs = true -> hs <> EmptyString ->
        rpc.(eth_chainId) = Body ("0x-" ++ hs)%string None ->
        Reference.hex_value hs <> 0 ->
        getChainID rpc = Ok (- Z.of_N (Reference.hex_value hs))%Z
        /\ forall userPriv relayerNonce userNonce gasTip gasFeeCap gasLimit
                  addr txData tx,
             build7702Tx (- Z.of_N (Reference.hex_value hs)) userPriv
               relayerNonce userNonce gasTip gasFeeCap gasLimit addr txData
             <> Ok tx).
Proof.
  split; [|split].
  - intros E Hlen. rewrite getChainID_hexResult, E. now apply hexResult_total.
  - intros E Hlen. rewrite getGasPrice_hexResult, E. now apply hexResult_total.
  - intros hs Hs Hne E Hnz. split.
    + rewrite getChainID_hexResult, E. unfold hexResult.
      change ("0x-" ++ hs)%string with (String "0" (String "x" (String "-" hs))).
      rewrite string_from_0x. cbn [bind].
      now rewrite SetString_negative.
    + intros userPriv relayerNonce userNonce gasTip gasFeeCap gasLimit
        addr txData tx H.
      unfold build7702Tx in H.
      destruct (Sign _ userPriv) as [sig| |]; try discriminate H.
      cbn [bind] in H.
      destruct (slice 0 32 sig); try discriminate H. cbn [bind] in H.
      destruct (slice 32 64 sig); try discriminate H. cbn [bind] in H.
      destruct (index 64 sig); try discriminate H. cbn [bind] in H.
      revert H. unfold EncodeToBytes.
      rewrite to_item_Slice, to_items_cons, to_item_BigInt_negative by lia.
      discriminate.
Qed.

Lemma X8_numbers_are_not_validated_witness :
  getChainID
    (exampleNode (Body "0x-1" None) (Body "0x1" None) (Body "0x1" None)
       (Body "0x1" None) (Body "0x1" None)
       (Body (exampleHash, ""%string) None) (fun _ => Body None None))%string
  = Ok (-1)%Z.
Proof.
  destruct (X8_numbers_are_not_validated (signer := exampleSigner)
              (exampleNode (Body "0x-1" None) (Body "0x1" None) (Body "0x1" None)
                 (Body "0x1" None) (Body "0x1" None)
                 (Body (exampleHash, ""%string) None)
                 (fun _ => Body None None))%string "0x-1"%string)
    as (_ & _ & H).
  destruct (H "1"%string) as [H1 _];
    [reflexivity | discriminate | reflexivity | vm_compute; discriminate |].
  exact H1.
Defined.

(** ** More on the code inspector *)

Lemma HasPrefix_split (s p : string) :
  HasPrefix s p = true -> exists rest, s = (p ++ rest)%string.
Proof.
  revert s. induction p as [|a p IH]; intros s H.
  - now exists s.
  - destruct s as [|b s]; [discriminate H|]. cbn [HasPrefix] in H.
    apply andb_true_iff in H as [Hab Hp].
    apply Ascii.eqb_eq in Hab. subst b.
    destruct (IH s Hp) as [rest ->]. now exists rest.
Qed.

Lemma codeWithoutPrefix_none (s : string) :
  HasPrefix s "0x" = false -> codeWithoutPrefix s = s.
Proof. intros H. unfold codeWithoutPrefix. now rewrite H. Qed.

Lemma marker_not_0x (marker rest : string) :
  ToLower marker = "ef0100"%string -> HasPrefix (marker ++ rest) "0x" = false.
Proof.
  intros Hm. destruct marker as [|m1 marker]; [discriminate Hm|].
  cbn [ToLower] in Hm. injection Hm as H1 _.
  cbn [append HasPrefix].
  destruct (Ascii.eqb_spec "0"%char m1) as [<-|]; [discriminate H1 | reflexivity].
Qed.

(** X9. The "0x" in front of the code is optional: text that does not
    itself start with "0x" is classified the same with and without it. And
    the length of a delegation is not looked at: whatever follows the
    marker, in either case of its letters, is reported as the contract
    address, be it empty or longer than 20 bytes. *)
Theorem X9_classify_prefix_and_length (s marker rest : string) :
  (HasPrefix s "0x" = false -> classify ("0x" ++ s) = classify s)
  /\ (ToLower marker = "ef0100"%string ->
      classify ("0x" ++ marker ++ rest) = Delegated ("0x" ++ rest)
      /\ classify (marker ++ rest) = Delegated ("0x" ++ rest)).
Proof.
  assert (H1 : forall t, HasPrefix t "0x" = false ->
                         classify ("0x" ++ t) = classify t).
  { intros t Hp. rewrite !classify_unfold.
    change ("0x" ++ t)%string with (String "0" (String "x" t)).
    rewrite codeWithoutPrefix_0x, (codeWithoutPrefix_none t Hp).
    cbn [String.eqb Ascii.eqb Bool.eqb andb orb].
    destruct (String.eqb_spec t "") as [->|Hne]; [reflexivity|].
    destruct (String.eqb_spec t "0x") as [->|Hne2]; [discriminate Hp|].
    reflexivity. }
  split; [apply H1|].
  intros Hm. split; [now apply classify_delegation|].
  rewrite <- H1 by now apply marker_not_0x.
  now apply classify_delegation.
Qed.

Lemma X9_classify_prefix_and_length_witness :
  classify "0x6001" = classify "6001"
  /\ classify "0xEf0100" = Delegated "0x"
  /\ classify "eF0100aabb" = Delegated "0xaabb".
Proof.
  destruct (X9_classify_prefix_and_length "6001" "Ef0100" "") as [H1 H2].
  destruct (X9_classify_prefix_and_length "6001" "eF0100" "aabb") as [_ H3].
  split; [apply H1; reflexivity|]. split.
  - apply (proj1 (H2 eq_refl)).
  - apply (proj2 (H3 eq_refl)).
Defined.

Lemma allHex_no_0x (d : string) :
  allHex d = true -> HasPrefix d "0x" = false /\ HasPrefix d "0X" = false.
Proof.
  intros Hd. split.
  - destruct (HasPrefix d "0x") eqn:E; [|reflexivity].
    destruct (HasPrefix_split _ _ E) as [rest ->]. discriminate Hd.
  - destruct (HasPrefix d "0X") eqn:E; [|reflexivity].
    destruct (HasPrefix_split _ _ E) as [rest ->]. discriminate Hd.
Qed.

Lemma substring_after_two (a b : ascii) (d : string) :
  substring 2 (String.length (String a (String b d)) - 2) (String a (String b d)) = d.
Proof.
  cbn [String.length Nat.sub substring].
  now rewrite Nat.sub_0_r, substring_0_length.
Qed.

(** What [common.IsHexAddress] accepts: 40 hexadecimal digits, with "0x" or
    "0X" in front or without. *)
Lemma IsHexAddress_spec (s : string) :
  IsHexAddress s = true <->
  exists d, String.length d = 40%nat /\ allHex d = true
            /\ (s = d \/ s = ("0x" ++ d)%string \/ s = ("0X" ++ d)%string).
Proof.
  unfold IsHexAddress. split.
  - intros H.
    destruct (HasPrefix s "0x") eqn:E1; cbn [orb] in H.
    + destruct (HasPrefix_split _ _ E1) as [d ->].
      change ("0x" ++ d)%string with (String "0" (String "x" d)) in H.
      rewrite substring_after_two in H.
      apply andb_true_iff in H as [Hl Hh]. apply Nat.eqb_eq in Hl.
      exists d. auto.
    + destruct (HasPrefix s "0X") eqn:E2.
      * destruct (HasPrefix_split _ _ E2) as [d ->].
        change ("0X" ++ d)%string with (String "0" (String "X" d)) in H.
        rewrite substring_after_two in H.
        apply andb_true_iff in H as [Hl Hh]. apply Nat.eqb_eq in Hl.
        exists d. auto.
      * apply andb_true_iff in H as [Hl Hh]. apply Nat.eqb_eq in Hl.
        exists s. auto.
  - intros (d & Hl & Hh & [-> | [-> | ->]]).
    + destruct (allHex_no_0x d Hh) as [-> ->]. cbn [orb].
      rewrite Hl, Hh. reflexivity.
    + change ("0x" ++ d)%string with (String "0" (String "x" d)).
      cbn [HasPrefix Ascii.eqb Bool.eqb andb orb].
      rewrite substring_after_two, Hl, Hh. reflexivity.
    + change ("0X" ++ d)%string with (String "0" (String "X" d)).
      cbn [HasPrefix Ascii.eqb Bool.eqb andb orb].
      rewrite substring_after_two, Hl, Hh. reflexivity.
Qed.

(** X10. [Check] reports a verdict exactly when the address consists of 40
    hexadecimal digits (with or without "0x" or "0X"), the exchange with
    the node succeeded, the reply unmarshalled and carries no error object;
    the verdict is then the classification of the result. For any other
    address the reply of the node makes no difference. *)
Theorem X10_Check_verdict (address : string) (rpc : reply RPCResponse)
  (v : verdict) :
  (Check address rpc = Ok v <->
   (exists d, String.length d = 40%nat /\ allHex d = true
              /\ (address = d \/ address = ("0x" ++ d)%string
                  \/ address = ("0X" ++ d)%string))
   /\ exists rpcResponse,
        rpc = Body rpcResponse None /\ rpcResponse.(Error) = None
        /\ v = classify rpcResponse.(Result))
  /\ (IsHexAddress address = false ->
      forall rpc', Check address rpc' = Check address rpc).
Proof.
  split.
  - rewrite <- IsHexAddress_spec. unfold Check. split.
    + intros H.
      destruct (String.eqb_spec address "") as [->|Hne]; [discriminate H|].
      destruct (IsHexAddress address); [|discriminate H].
      split; [reflexivity|]. cbn [negb] in H.
      destruct rpc as [e | resp [e|]]; try discriminate H.
      destruct (Error resp) eqn:Ee; [discriminate H|].
      injection H as <-. now exists resp.
    + intros (Hhex & resp & -> & He & ->).
      destruct (String.eqb_spec address "") as [->|Hne]; [discriminate Hhex|].
      rewrite Hhex, He. reflexivity.
  - intros Hhex rpc'. unfold Check. rewrite Hhex. cbn [negb].
    destruct (address =? "")%string; reflexivity.
Qed.

Lemma X10_Check_verdict_witness :
  Check "0X00000000000000000000000000000000000000Aa"
    (Body {| JSONRPC := "2.0"; ID := 1; Result := "0x"; Error := None |} None)
  = Ok Safe
  /\ Check "not an address"
       (Body {| JSONRPC := "2.0"; ID := 1; Result := "0x"; Error := None |} None)
     = Check "not an address" (Transport "connection refused").
Proof.
  destruct (X10_Check_verdict "0X00000000000000000000000000000000000000Aa"
              (Body {| JSONRPC := "2.0"; ID := 1; Result := "0x";
                       Error := None |} None) Safe) as [[_ H1] _].
  destruct (X10_Check_verdict "not an address" (Transport "connection refused")
              Safe) as [_ H2].
  split.
  - apply H1. split.
    + exists "00000000000000000000000000000000000000Aa"%string.
      split; [reflexivity|]. split; [reflexivity|]. right. right. reflexivity.
    + eexists. split; [reflexivity|]. split; reflexivity.
  - apply H2. reflexivity.
Defined.

(** ** The wait loop, read backwards *)

Ltac pollLoop_shift IH H Hd how w :=
  apply IH in H; destruct H as (k & Hk & Hp & Hs & Hhow);
  cbn [polls slept print polled sleep] in Hp, Hs, Hhow;
  exists (S k);
  split; [lia|]; split; [lia|]; split; [lia|];
  destruct how as [|e|];
  [ destruct Hhow as (H1 & Hst & Hpend); split; [lia|]; split;
    [ replace (polls w + S k - 1)%nat with (S (polls w) + k - 1)%nat by lia;
      exact Hst
    | intros j Hj; destruct j as [|j];
      [ rewrite Nat.add_0_r; exact Hd
      | replace (polls w + S j)%nat with (S (polls w) + j)%nat by lia;
        apply Hpend; lia ] ]
  | destruct Hhow as (H1 & He & Hst & Hpend); split; [lia|]; split; [exact He|];
    split;
    [ replace (polls w + S k - 1)%nat with (S (polls w) + k - 1)%nat by lia;
      exact Hst
    | intros j Hj; destruct j as [|j];
      [ rewrite Nat.add_0_r; exact Hd
      | replace (polls w + S j)%nat with (S (polls w) + j)%nat by lia;
        apply Hpend; lia ] ]
  | destruct Hhow as (H1 & Hpend); split; [lia|];
    intros j Hj; destruct j as [|j];
    [ rewrite Nat.add_0_r; exact Hd
    | replace (polls w + S j)%nat with (S (polls w) + j)%nat by lia;
      apply Hpend; lia ] ].

Lemma pollLoop_inv (rpc : Node) (txHash : string) (n : nat) : forall w w' how,
  pollLoop rpc txHash n w = (w', how) ->
  exists k,
    (k <= n)%nat
    /\ polls w' = (polls w + k)%nat
    /\ slept w' = slept w + 5 * N.of_nat k
    /\ match how with
       | Exhausted =>
           k = n
           /\ forall j, (j < n)%nat ->
                decisive (rpc.(eth_getTransactionReceipt) (polls w + j)%nat txHash)
                = false
       | Mined =>
           (1 <= k)%nat
           /\ receiptStatus
                (rpc.(eth_getTransactionReceipt) (polls w + k - 1)%nat txHash)
              = Some "0x1"%string
           /\ forall j, (j < k - 1)%nat ->
                decisive (rpc.(eth_getTransactionReceipt) (polls w + j)%nat txHash)
                = false
       | Reverted e =>
           (1 <= k)%nat
           /\ e = ("transaction failed: " ++ txHash)%string
           /\ receiptStatus
                (rpc.(eth_getTransactionReceipt) (polls w + k - 1)%nat txHash)
              = Some "0x0"%string
           /\ forall j, (j < k - 1)%nat ->
                decisive (rpc.(eth_getTransactionReceipt) (polls w + j)%nat txHash)
                = false
       end.
Proof.
  induction n as [|n IH]; intros w w' how H.
  - cbn [pollLoop] in H. injection H as <- <-. exists 0%nat.
    repeat split; lia.
  - destruct (receiptStatus (eth_getTransactionReceipt rpc (polls w) txHash))
      as [s|] eqn:Es.
    + destruct (String.eqb_spec s "0x1") as [->|Hn1].
      { rewrite (pollLoop_mined_step _ _ _ _ Es) in H. injection H as <- <-.
        exists 1%nat. cbn [polls slept print polled sleep].
        replace (polls w + 1 - 1)%nat with (polls w) by lia.
        repeat split; try lia; exact Es. }
      destruct (String.eqb_spec s "0x0") as [->|Hn0].
      { rewrite (pollLoop_reverted_step _ _ _ _ Es) in H. injection H as <- <-.
        exists 1%nat. cbn [polls slept print polled sleep].
        replace (polls w + 1 - 1)%nat with (polls w) by lia.
        repeat split; try lia; exact Es. }
      assert (Hd : decisive (eth_getTransactionReceipt rpc (polls w) txHash) = false).
      { unfold decisive. rewrite Es. apply orb_false_iff.
        split; now apply String.eqb_neq. }
      rewrite (pollLoop_pending_step _ _ _ _ Hd) in H.
      pollLoop_shift IH H Hd how w.
    + assert (Hd : decisive (eth_getTransactionReceipt rpc (polls w) txHash) = false).
      { unfold decisive. now rewrite Es. }
      rewrite (pollLoop_pending_step _ _ _ _ Hd) in H.
      pollLoop_shift IH H Hd how w.
Qed.

(** X11. However the wait ends, it made at most 60 polls and slept 5
    seconds before each of them. It ends early only on a receipt with
    status "0x1" or "0x0", the first such reply; the only error it returns
    names the transaction hash and comes from a receipt with status "0x0".
    Errors of the transport, replies that do not unmarshal and receipts
    with any other status are never reported: they count as pending. *)
Theorem X11_wait_outcomes (rpc : Node) (rpcURL victimAddress txHash : string)
  (w w' : world) (how : loop_exit) (err : option string) :
  Clear_wait rpc rpcURL victimAddress txHash w = (w', how, err) ->
  exists k,
    (k <= 60)%nat
    /\ polls w' = (polls w + k)%nat
    /\ slept w' = slept w + 5 * N.of_nat k
    /\ match how with
       | Exhausted =>
           err = None /\ k = 60%nat
           /\ forall j, (j < 60)%nat ->
                decisive (rpc.(eth_getTransactionReceipt) (polls w + j)%nat txHash)
                = false
       | Mined =>
           err = None /\ (1 <= k)%nat
           /\ receiptStatus
                (rpc.(eth_getTransactionReceipt) (polls w + k - 1)%nat txHash)
              = Some "0x1"%string
           /\ forall j, (j < k - 1)%nat ->
                decisive (rpc.(eth_getTransactionReceipt) (polls w + j)%nat txHash)
                = false
       | Reverted e =>
           err = Some ("transaction failed: " ++ txHash)%string
           /\ e = ("transaction failed: " ++ txHash)%string /\ (1 <= k)%nat
           /\ receiptStatus
                (rpc.(eth_getTransactionReceipt) (polls w + k - 1)%nat txHash)
              = Some "0x0"%string
           /\ forall j, (j < k - 1)%nat ->
                decisive (rpc.(eth_getTransactionReceipt) (polls w + j)%nat txHash)
                = false
       end.
Proof.
  intros H. rewrite Clear_wait_unfold in H.
  destruct (pollLoop rpc txHash 60 (print "Waiting for transaction to be mined..." w))
    as [w1 how1] eqn:E.
  apply pollLoop_inv in E. destruct E as (k & Hk & Hp & Hs & Hhow).
  cbn [polls slept print] in Hp, Hs, Hhow.
  destruct how1 as [|e|]; injection H as <- <- <-; exists k;
    cbn [polls slept print].
  - destruct Hhow as (H1 & Hst & Hpend). auto 10.
  - destruct Hhow as (H1 & He & Hst & Hpend). subst e. auto 10.
  - destruct Hhow as (H1 & Hpend). subst k. auto 10.
Qed.

Lemma X11_wait_outcomes_witness :
  exists k,
    (k <= 60)%nat
    /\ polls (fst (fst (Clear_wait legacyNode "http://localhost:8545" "0xaa"
                          exampleHash freshWorld))) = (0 + k)%nat
    /\ slept (fst (fst (Clear_wait legacyNode "http://localhost:8545" "0xaa"
                          exampleHash freshWorld))) = 0 + 5 * N.of_nat k
    /\ (1 <= k)%nat
    /\ receiptStatus (eth_getTransactionReceipt legacyNode (0 + k - 1) exampleHash)
       = Some "0x0"%string.
Proof.
  destruct (X11_wait_outcomes legacyNode "http://localhost:8545" "0xaa"
              exampleHash freshWorld
              (fst (fst (Clear_wait legacyNode "http://localhost:8545" "0xaa"
                           exampleHash freshWorld)))
              (Reverted ("transaction failed: " ++ exampleHash))
              (Some ("transaction failed: " ++ exampleHash)%string))
    as (k & Hk & Hp & Hs & _ & _ & H1 & Hst & _).
  - vm_compute. reflexivity.
  - exists k. auto.
Defined.

(** ** The commands *)

Lemma getSuggestedGasFees_tip (rpc : Node) (tip cap : Z) :
  getSuggestedGasFees rpc = Ok (tip, cap) -> (minPriorityFee <= tip)%Z.
Proof.
  intros H.
  destruct (getSuggestedGasFees_cases rpc) as [E | [(e & _ & E) | (p & b & _ & _ & _ & _ & E)]];
    rewrite E in H.
  - destruct (fallbackGasFees_cases rpc) as [(g & _ & F) | [(e & _ & F) | [_ F]]];
      rewrite F in H; try discriminate H.
    injection H as <- _. lia.
  - discriminate H.
  - injection H as <- _. lia.
Qed.

Lemma confirmation_refused (confirmation : string) :
  ToLower confirmation <> "y"%string -> ToLower confirmation <> "yes"%string ->
  negb (ToLower confirmation =? "y")%string
  && negb (ToLower confirmation =? "yes")%string = true.
Proof.
  intros H1 H2. apply String.eqb_neq in H1, H2. now rewrite H1, H2.
Qed.

Lemma confirmation_accepted (confirmation : string) :
  ToLower confirmation = "y"%string \/ ToLower confirmation = "yes"%string ->
  negb (ToLower confirmation =? "y")%string
  && negb (ToLower confirmation =? "yes")%string = false.
Proof. intros [-> | ->]; reflexivity. Qed.

(** X12. Neither command hands a transaction to [broadcastRawTx], nor
    returns a transaction hash, unless the word typed at the prompt
    lower-cases to "y" or "yes". [Set] in addition sends nothing for a text
    that is no address, and says so whatever the node would answer. *)
Theorem X12_nothing_sent_unconfirmed {signer : Signer}
  (contractAddress : string) (rpc : Node) (gasLimit : N)
  (userPrivateKey relayerPrivateKey : PrivateKey)
  (userAddress relayerAddress confirmation : string) :
  (ToLower confirmation <> "y"%string -> ToLower confirmation <> "yes"%string ->
   (broadcast (Clear_send rpc gasLimit userPrivateKey relayerPrivateKey
                 userAddress relayerAddress confirmation) = None
    /\ forall txHash,
         returned (Clear_send rpc gasLimit userPrivateKey relayerPrivateKey
                     userAddress relayerAddress confirmation) <> Ok txHash)
   /\ (broadcast (Clear_send_legacy rpc gasLimit userPrivateKey
                    relayerPrivateKey userAddress relayerAddress confirmation)
       = None
       /\ forall txHash,
            returned (Clear_send_legacy rpc gasLimit userPrivateKey
                        relayerPrivateKey userAddress relayerAddress
                        confirmation) <> Ok txHash)
   /\ (broadcast (Set_send contractAddress rpc gasLimit userPrivateKey
                    relayerPrivateKey userAddress relayerAddress confirmation)
       = None
       /\ forall txHash,
            returned (Set_send contractAddress rpc gasLimit userPrivateKey
                        relayerPrivateKey userAddress relayerAddress
                        confirmation) <> Ok txHash))
  /\ (IsHexAddress contractAddress = false ->
      forall rpc',
        Set_send contractAddress rpc' gasLimit userPrivateKey relayerPrivateKey
          userAddress relayerAddress confirmation
        = {| broadcast := None;
             returned := Err ("invalid contract address format: "
                                ++ contractAddress) |}).
Proof.
  split.
  - intros H1 H2. pose proof (confirmation_refused confirmation H1 H2) as Hu.
    split; [|split].
    + unfold Clear_send, Clear_transaction.
      destruct (getChainID rpc); cbn [wrapError bind send broadcast returned];
        try (split; [reflexivity | discriminate]).
      destruct (getNonce rpc userAddress);
        cbn [wrapError bind send broadcast returned];
        try (split; [reflexivity | discriminate]).
      destruct (getNonce rpc relayerAddress);
        cbn [wrapError bind send broadcast returned];
        try (split; [reflexivity | discriminate]).
      destruct (getSuggestedGasFees rpc);
        cbn [wrapError bind send broadcast returned];
        try (split; [reflexivity | discriminate]).
      rewrite Hu. cbn [send broadcast returned].
      split; [reflexivity | discriminate].
    + unfold Clear_send_legacy, Clear_transaction_legacy.
      destruct (getChainID rpc); cbn [wrapError bind send broadcast returned];
        try (split; [reflexivity | discriminate]).
      destruct (getNonce rpc userAddress);
        cbn [wrapError bind send broadcast returned];
        try (split; [reflexivity | discriminate]).
      destruct (getNonce rpc relayerAddress);
        cbn [wrapError bind send broadcast returned];
        try (split; [reflexivity | discriminate]).
      destruct (getGasPrice rpc);
        cbn [wrapError bind send broadcast returned];
        try (split; [reflexivity | discriminate]).
      rewrite Hu. cbn [send broadcast returned].
      split; [reflexivity | discriminate].
    + unfold Set_send, Set_transaction.
      destruct (IsHexAddress contractAddress);
        cbn [negb send broadcast returned];
        try (split; [reflexivity | discriminate]).
      destruct (getChainID rpc); cbn [wrapError bind send broadcast returned];
        try (split; [reflexivity | discriminate]).
      destruct (getNonce rpc userAddress);
        cbn [wrapError bind send broadcast returned];
        try (split; [reflexivity | discriminate]).
      destruct (getNonce rpc relayerAddress);
        cbn [wrapError bind send broadcast returned];
        try (split; [reflexivity | discriminate]).
      destruct (getSuggestedGasFees rpc);
        cbn [wrapError bind send broadcast returned];
        try (split; [reflexivity | discriminate]).
      rewrite Hu. cbn [send broadcast returned].
      split; [reflexivity | discriminate].
  - intros Hx rpc'. unfold Set_send, Set_transaction. rewrite Hx. reflexivity.
Qed.

Lemma X12_nothing_sent_unconfirmed_witness :
  broadcast (Clear_send (signer := exampleSigner) mainnetLike 100000
               exampleUserKey exampleRelayerKey "0xaa" "0xbb" "no") = None
  /\ Set_send (signer := exampleSigner) "0x1234" badGateway 100000
       exampleUserKey exampleRelayerKey "0xaa" "0xbb" "y"
     = {| broadcast := None;
          returned := Err "invalid contract address format: 0x1234" |}.
Proof.
  destruct (X12_nothing_sent_unconfirmed (signer := exampleSigner) "0x1234"
              mainnetLike 100000 exampleUserKey exampleRelayerKey "0xaa" "0xbb"
              "no") as [H1 H2].
  destruct (X12_nothing_sent_unconfirmed (signer := exampleSigner) "0x1234"
              mainnetLike 100000 exampleUserKey exampleRelayerKey "0xaa" "0xbb"
              "y") as [_ H3].
  split.
  - apply H1; discriminate.
  - apply H3. reflexivity.
Defined.

Section CommandPipeline.

Context {signer : Signer}.
Hypothesis signer_ok : SignContract signer.

Lemma part_001_GenerateSet7702AuthTx_reference
  (req : SetAuthorizationRequest) (sigA sigO : list byte) :
  (0 <= req.(ChainId))%Z -> (0 <= req.(GasTip))%Z -> (0 <= req.(GasFeeCap))%Z ->
  N.of_nat (length (encode (List
     (Reference.envelope (Z.to_N req.(ChainId)) req.(RelayerNonce)
        (Z.to_N req.(GasTip)) (Z.to_N req.(GasFeeCap)) req.(GasLimit)
        req.(TemplateAddress) req.(UserEOANonce) sigA)))) < 2 ^ 64 ->
  Sign (authTupleMessage req.(ChainId) req.(TemplateAddress) req.(UserEOANonce))
       req.(UserEOAPrivateKey) = Ok sigA ->
  Sign (Keccak.Keccak256
          (x04 :: encode (List
             (Reference.envelope (Z.to_N req.(ChainId)) req.(RelayerNonce)
                (Z.to_N req.(GasTip)) (Z.to_N req.(GasFeeCap)) req.(GasLimit)
                req.(TemplateAddress) req.(UserEOANonce) sigA))))
       req.(RelayerEOAPrivateKey) = Ok sigO ->
  part_001.GenerateSet7702AuthTx req
  = Ok (Hex.EncodeToString
          (x04 :: encode (List
             (Reference.envelope (Z.to_N req.(ChainId)) req.(RelayerNonce)
                (Z.to_N req.(GasTip)) (Z.to_N req.(GasFeeCap)) req.(GasLimit)
                req.(TemplateAddress) req.(UserEOANonce) sigA
              ++ Reference.outer_fields sigO)))).
Proof.
  intros Hc Ht Hf Hsz HA HO.
  unfold part_001.GenerateSet7702AuthTx.
  rewrite (build7702Tx_reference signer_ok _ _ _ _ _ _ _ _ sigA) by assumption.
  cbn [bind].
  rewrite (signEIP7702Tx_reference signer_ok _ _ sigO) by assumption.
  reflexivity.
Qed.

(** The reads that the three commands share, on a node that answers with
    hexadecimal numbers. *)
Lemma reads_ok (rpc : Node) (userAddress relayerAddress hc hu hr : string) :
  allHex hc = true -> hc <> EmptyString ->
  allHex hu = true -> hu <> EmptyString ->
  allHex hr = true -> hr <> EmptyString ->
  rpc.(eth_chainId) = Body ("0x" ++ hc)%string None ->
  rpc.(eth_getTransactionCount) userAddress = Body ("0x" ++ hu)%string None ->
  rpc.(eth_getTransactionCount) relayerAddress = Body ("0x" ++ hr)%string None ->
  Reference.hex_value hu < 2 ^ 64 -> Reference.hex_value hr < 2 ^ 64 ->
  getChainID rpc = Ok (Z.of_N (Reference.hex_value hc))
  /\ (exists userNonce,
        getNonce rpc userAddress = Ok userNonce
        /\ Big.uint64_of_int64 userNonce = Reference.hex_value hu)
  /\ (exists relayerNonce,
        getNonce rpc relayerAddress = Ok relayerNonce
        /\ Big.uint64_of_int64 relayerNonce = Reference.hex_value hr).
Proof.
  intros Hc Hc' Hu Hu' Hr Hr' Ec Eu Er Lu Lr. split; [|split].
  - rewrite getChainID_hexResult, Ec. now apply hexResult_hex.
  - now apply uint64_of_getNonce.
  - now apply uint64_of_getNonce.
Qed.

End CommandPipeline.

Ltac request_fields :=
  cbn [ChainId UserEOAPrivateKey RelayerNonce UserEOANonce GasTip GasFeeCap
       GasLimit TemplateAddress RelayerEOAPrivateKey];
  rewrite ?N2Z.id.

(** X13. What [Clear] puts on the wire. On a node that answers with
    hexadecimal numbers (transaction counts below 2^64), once the user has
    confirmed and both signatures were made, the transaction handed to
    [broadcastRawTx] is the type byte 0x04 and the RLP list of: the node's
    chain id, the relayer's transaction count as nonce, the suggested fees,
    the gas limit, the zero address as destination, no value, no data, no
    access list, the single authorization [chain id, zero address,
    victim's transaction count, signature], and the relayer's signature.
    The priority fee in it is never below the floor. *)
Theorem X13_Clear_sends_deauthorization {signer : Signer}
  (rpc : Node) (gasLimit : N) (victimPrivateKey relayerPrivateKey : PrivateKey)
  (victimAddress relayerAddress confirmation hc hv hr : string)
  (gasTip gasFeeCap : Z) (sigA sigO : list byte) :
  SignContract signer ->
  allHex hc = true -> hc <> EmptyString ->
  allHex hv = true -> hv <> EmptyString ->
  allHex hr = true -> hr <> EmptyString ->
  rpc.(eth_chainId) = Body ("0x" ++ hc)%string None ->
  rpc.(eth_getTransactionCount) victimAddress = Body ("0x" ++ hv)%string None ->
  rpc.(eth_getTransactionCount) relayerAddress = Body ("0x" ++ hr)%string None ->
  Reference.hex_value hv < 2 ^ 64 -> Reference.hex_value hr < 2 ^ 64 ->
  getSuggestedGasFees rpc = Ok (gasTip, gasFeeCap) -> (0 <= gasFeeCap)%Z ->
  ToLower confirmation = "y"%string \/ ToLower confirmation = "yes"%string ->
  N.of_nat (length (encode (List
     (Reference.envelope (Reference.hex_value hc) (Reference.hex_value hr)
        (Z.to_N gasTip) (Z.to_N gasFeeCap) gasLimit zeroAddress
        (Reference.hex_value hv) sigA)))) < 2 ^ 64 ->
  Sign (authTupleMessage (Z.of_N (Reference.hex_value hc)) zeroAddress
          (Reference.hex_value hv)) victimPrivateKey = Ok sigA ->
  Sign (Keccak.Keccak256
          (x04 :: encode (List
             (Reference.envelope (Reference.hex_value hc)
                (Reference.hex_value hr) (Z.to_N gasTip) (Z.to_N gasFeeCap)
                gasLimit zeroAddress (Reference.hex_value hv) sigA))))
       relayerPrivateKey = Ok sigO ->
  Clear_send rpc gasLimit victimPrivateKey relayerPrivateKey victimAddress
    relayerAddress confirmation
  = {| broadcast :=
         Some (Hex.EncodeToString
                 (x04 :: encode (List
                    (Reference.envelope (Reference.hex_value hc)
                       (Reference.hex_value hr) (Z.to_N gasTip)
                       (Z.to_N gasFeeCap) gasLimit zeroAddress
                       (Reference.hex_value hv) sigA
                     ++ Reference.outer_fields sigO))));
       returned :=
         wrapError "failed to broadcast transaction: "
           (broadcastRawTx
              (Hex.EncodeToString
                 (x04 :: encode (List
                    (Reference.envelope (Reference.hex_value hc)
                       (Reference.hex_value hr) (Z.to_N gasTip)
                       (Z.to_N gasFeeCap) gasLimit zeroAddress
                       (Reference.hex_value hv) sigA
                     ++ Reference.outer_fields sigO)))) rpc) |}
  /\ (minPriorityFee <= gasTip)%Z.
Proof.
  intros Hok Hc Hc' Hv Hv' Hr Hr' Ec Ev Er Lv Lr Hfee Hcap Hconf Hsz HA HO.
  pose proof (getSuggestedGasFees_tip rpc gasTip gasFeeCap Hfee) as Htip.
  split; [|exact Htip].
  assert (Htip0 : (0 <= gasTip)%Z) by (unfold minPriorityFee in Htip; lia).
  destruct (reads_ok rpc victimAddress relayerAddress hc hv hr)
    as (Gc & (vn & Gv & Uv) & (rn & Gr & Ur)); try assumption.
  unfold Clear_send, Clear_transaction.
  rewrite Gc, Gv, Gr, Hfee. cbn [wrapError bind fst snd].
  rewrite (confirmation_accepted confirmation Hconf), Uv, Ur.
  match goal with
  | |- context [part_001.GenerateSet7702AuthTx ?r] =>
      rewrite (part_001_GenerateSet7702AuthTx_reference Hok r sigA sigO)
  end; request_fields; try assumption; try lia.
  reflexivity.
Qed.

Lemma X13_Clear_sends_deauthorization_witness :
  broadcast (Clear_send (signer := exampleSigner) mainnetLike 100000
               exampleUserKey exampleRelayerKey "0xaa" "0xbb" "Yes")
  = Some (Hex.EncodeToString
            (x04 :: encode (List
               (Reference.envelope 1 5 100000000 2100000000 100000 zeroAddress 5
                  (exampleAuthSig zeroAddress)
                ++ Reference.outer_fields
                     (value_of []
                        (exampleSign
                           (Keccak.Keccak256
                              (x04 :: encode (List
                                 (Reference.envelope 1 5 100000000 2100000000
                                    100000 zeroAddress 5
                                    (exampleAuthSig zeroAddress)))))
                           exampleRelayerKey))))))
  /\ returned (Clear_send (signer := exampleSigner) mainnetLike 100000
                 exampleUserKey exampleRelayerKey "0xaa" "0xbb" "Yes")
     = Ok exampleHash.
Proof.
  destruct (X13_Clear_sends_deauthorization (signer := exampleSigner)
              mainnetLike 100000 exampleUserKey exampleRelayerKey
              "0xaa" "0xbb" "Yes" "1" "5" "5" 100000000 2100000000
              (exampleAuthSig zeroAddress)
              (value_of []
                 (exampleSign
                    (Keccak.Keccak256
                       (x04 :: encode (List
                          (Reference.envelope 1 5 100000000 2100000000 100000
                             zeroAddress 5 (exampleAuthSig zeroAddress)))))
                    exampleRelayerKey)))
    as [H _].
  - exact exampleSign_contract.
  - reflexivity.
  - discriminate.
  - reflexivity.
  - discriminate.
  - reflexivity.
  - discriminate.
  - reflexivity.
  - reflexivity.
  - reflexivity.
  - vm_compute. reflexivity.
  - vm_compute. reflexivity.
  - vm_compute. reflexivity.
  - vm_compute. discriminate.
  - right. reflexivity.
  - vm_compute. reflexivity.
  - vm_compute. reflexivity.
  - vm_compute. reflexivity.
  - rewrite H. split; [reflexivity|]. vm_compute. reflexivity.
Defined.

(** ** [common.HexToAddress] on what [common.IsHexAddress] accepts *)

Lemma Hex2Bytes_pairs (n : nat) : forall s,
  String.length s = (2 * n)%nat -> allHex s = true ->
  Hex.DecodeString s = Ok (Hex2Bytes s) /\ length (Hex2Bytes s) = n.
Proof.
  induction n as [|n IH]; intros s Hl Hh.
  - destruct s; [split; reflexivity | discriminate Hl].
  - destruct s as [|a [|b rest]]; try (cbn in Hl; lia).
    cbn [allHex] in Hh.
    apply andb_true_iff in Hh as [Ha Hh].
    apply andb_true_iff in Hh as [Hb Hh].
    unfold isHexChar in Ha, Hb.
    cbn [Hex.DecodeString Hex2Bytes].
    destruct (Hex.fromHexChar a) as [h|]; [|discriminate Ha].
    destruct (Hex.fromHexChar b) as [l|]; [|discriminate Hb].
    destruct (IH rest) as [-> Hn]; [cbn in Hl; lia | exact Hh |].
    cbn [bind length]. split; [reflexivity | now rewrite Hn].
Qed.

Lemma BytesToAddress_20 (b : list byte) :
  length b = 20%nat -> BytesToAddress b = b.
Proof.
  intros H. unfold BytesToAddress. rewrite H.
  cbn [Nat.ltb Nat.leb]. rewrite H. reflexivity.
Qed.

Lemma FromHex_digits (d : string) :
  String.length d = 40%nat -> allHex d = true ->
  FromHex d = Hex2Bytes d /\ FromHex ("0x" ++ d) = Hex2Bytes d
  /\ FromHex ("0X" ++ d) = Hex2Bytes d.
Proof.
  intros Hl Hh. destruct (allHex_no_0x d Hh) as [H1 H2].
  unfold FromHex, has0xPrefix. split; [|split].
  - rewrite H1, H2. cbn [orb]. rewrite Hl. reflexivity.
  - change ("0x" ++ d)%string with (String "0" (String "x" d)).
    cbn [HasPrefix Ascii.eqb Bool.eqb andb orb].
    rewrite substring_after_two, Hl. reflexivity.
  - change ("0X" ++ d)%string with (String "0" (String "X" d)).
    cbn [HasPrefix Ascii.eqb Bool.eqb andb orb].
    rewrite substring_after_two, Hl. reflexivity.
Qed.

(** On an accepted text [HexToAddress] is the 20 bytes its digits spell. *)
Lemma HexToAddress_spec (s : string) :
  IsHexAddress s = true ->
  length (HexToAddress s) = 20%nat
  /\ exists d, (s = d \/ s = ("0x" ++ d)%string \/ s = ("0X" ++ d)%string)
               /\ Hex.DecodeString d = Ok (HexToAddress s).
Proof.
  intros H. apply IsHexAddress_spec in H as (d & Hl & Hh & Hs).
  destruct (Hex2Bytes_pairs 20 d Hl Hh) as [Hd Hn].
  destruct (FromHex_digits d Hl Hh) as (F1 & F2 & F3).
  assert (E : HexToAddress s = Hex2Bytes d).
  { unfold HexToAddress.
    destruct Hs as [-> | [-> | ->]]; rewrite ?F1, ?F2, ?F3;
      now apply BytesToAddress_20. }
  rewrite E. split; [exact Hn|]. exists d. auto.
Qed.

(** X14. What [Set] puts on the wire. For a contract address that
    [common.IsHexAddress] accepts, on a node that answers with hexadecimal
    numbers (transaction counts below 2^64), once the user has confirmed
    and both signatures were made, the transaction handed to
    [broadcastRawTx] is the type byte 0x04 and the RLP list of chain id,
    relayer's transaction count, suggested fees, gas limit, destination,
    no value, no data, no access list, one signed authorization and the
    relayer's signature. Destination and delegate of the authorization are
    the 20 bytes that the 40 digits of the address spell, in either case
    of the letters, with or without "0x" or "0X" in front. *)
Theorem X14_Set_sends_authorization {signer : Signer}
  (contractAddress : string) (rpc : Node) (gasLimit : N)
  (userPrivateKey relayerPrivateKey : PrivateKey)
  (userAddress relayerAddress confirmation hc hu hr : string)
  (gasTip gasFeeCap : Z) (sigA sigO : list byte) :
  SignContract signer ->
  IsHexAddress contractAddress = true ->
  allHex hc = true -> hc <> EmptyString ->
  allHex hu = true -> hu <> EmptyString ->
  allHex hr = true -> hr <> EmptyString ->
  rpc.(eth_chainId) = Body ("0x" ++ hc)%string None ->
  rpc.(eth_getTransactionCount) userAddress = Body ("0x" ++ hu)%string None ->
  rpc.(eth_getTransactionCount) relayerAddress = Body ("0x" ++ hr)%string None ->
  Reference.hex_value hu < 2 ^ 64 -> Reference.hex_value hr < 2 ^ 64 ->
  getSuggestedGasFees rpc = Ok (gasTip, gasFeeCap) -> (0 <= gasFeeCap)%Z ->
  ToLower confirmation = "y"%string \/ ToLower confirmation = "yes"%string ->
  N.of_nat (length (encode (List
     (Reference.envelope (Reference.hex_value hc) (Reference.hex_value hr)
        (Z.to_N gasTip) (Z.to_N gasFeeCap) gasLimit
        (HexToAddress contractAddress) (Reference.hex_value hu) sigA))))
  < 2 ^ 64 ->
  Sign (authTupleMessage (Z.of_N (Reference.hex_value hc))
          (HexToAddress contractAddress) (Reference.hex_value hu))
       userPrivateKey = Ok sigA ->
  Sign (Keccak.Keccak256
          (x04 :: encode (List
             (Reference.envelope (Reference.hex_value hc)
                (Reference.hex_value hr) (Z.to_N gasTip) (Z.to_N gasFeeCap)
                gasLimit (HexToAddress contractAddress)
                (Reference.hex_value hu) sigA))))
       relayerPrivateKey = Ok sigO ->
  Set_send contractAddress rpc gasLimit userPrivateKey relayerPrivateKey
    userAddress relayerAddress confirmation
  = {| broadcast :=
         Some (Hex.EncodeToString
                 (x04 :: encode (List
                    (Reference.envelope (Reference.hex_value hc)
                       (Reference.hex_value hr) (Z.to_N gasTip)
                       (Z.to_N gasFeeCap) gasLimit
                       (HexToAddress contractAddress)
                       (Reference.hex_value hu) sigA
                     ++ Reference.outer_fields sigO))));
       returned :=
         wrapError "failed to broadcast transaction: "
           (broadcastRawTx
              (Hex.EncodeToString
                 (x04 :: encode (List
                    (Reference.envelope (Reference.hex_value hc)
                       (Reference.hex_value hr) (Z.to_N gasTip)
                       (Z.to_N gasFeeCap) gasLimit
                       (HexToAddress contractAddress)
                       (Reference.hex_value hu) sigA
                     ++ Reference.outer_fields sigO)))) rpc) |}
  /\ length (HexToAddress contractAddress) = 20%nat
  /\ exists digits,
       (contractAddress = digits \/ contractAddress = ("0x" ++ digits)%string
        \/ contractAddress = ("0X" ++ digits)%string)
       /\ Hex.DecodeString digits = Ok (HexToAddress contractAddress).
Proof.
  intros Hok Hx Hc Hc' Hu Hu' Hr Hr' Ec Eu Er Lu Lr Hfee Hcap Hconf Hsz HA HO.
  split; [|now apply HexToAddress_spec].
  pose proof (getSuggestedGasFees_tip rpc gasTip gasFeeCap Hfee) as Htip.
  assert (Htip0 : (0 <= gasTip)%Z) by (unfold minPriorityFee in Htip; lia).
  destruct (reads_ok rpc userAddress relayerAddress hc hu hr)
    as (Gc & (un & Gu & Uu) & (rn & Gr & Ur)); try assumption.
  unfold Set_send, Set_transaction.
  rewrite Hx. cbn [negb].
  rewrite Gc, Gu, Gr, Hfee. cbn [wrapError bind fst snd].
  rewrite (confirmation_accepted confirmation Hconf), Uu, Ur.
  match goal with
  | |- context [part_001.GenerateSet7702AuthTx ?r] =>
      rewrite (part_001_GenerateSet7702AuthTx_reference Hok r sigA sigO)
  end; request_fields; try assumption; try lia.
  reflexivity.
Qed.

Lemma X14_Set_sends_authorization_witness :
  broadcast (Set_send (signer := exampleSigner)
               "0X0102030405060708090A0b0c0D0e0F1011121314" mainnetLike 100000
               exampleUserKey exampleRelayerKey "0xaa" "0xbb" "y")
  = Some (Hex.EncodeToString
            (x04 :: encode (List
               (Reference.envelope 1 5 100000000 2100000000 100000
                  exampleTemplate 5 (exampleAuthSig exampleTemplate)
                ++ Reference.outer_fields
                     (value_of []
                        (exampleSign
                           (Keccak.Keccak256
                              (x04 :: encode (List
                                 (Reference.envelope 1 5 100000000 2100000000
                                    100000 exampleTemplate 5
                                    (exampleAuthSig exampleTemplate)))))
                           exampleRelayerKey))))))
  /\ HexToAddress "0X0102030405060708090A0b0c0D0e0F1011121314" = exampleTemplate.
Proof.
  destruct (X14_Set_sends_authorization (signer := exampleSigner)
              "0X0102030405060708090A0b0c0D0e0F1011121314"
              mainnetLike 100000 exampleUserKey exampleRelayerKey
              "0xaa" "0xbb" "y" "1" "5" "5" 100000000 2100000000
              (exampleAuthSig exampleTemplate)
              (value_of []
                 (exampleSign
                    (Keccak.Keccak256
                       (x04 :: encode (List
                          (Reference.envelope 1 5 100000000 2100000000 100000
                             exampleTemplate 5
                             (exampleAuthSig exampleTemplate)))))
                    exampleRelayerKey)))
    as [H _].
  - exact exampleSign_contract.
  - reflexivity.
  - reflexivity.
  - discriminate.
  - reflexivity.
  - discriminate.
  - reflexivity.
  - discriminate.
  - reflexivity.
  - reflexivity.
  - reflexivity.
  - vm_compute. reflexivity.
  - vm_compute. reflexivity.
  - vm_compute. reflexivity.
  - vm_compute. discriminate.
  - left. reflexivity.
  - vm_compute. reflexivity.
  - vm_compute. reflexivity.
  - vm_compute. reflexivity.
  - rewrite H. split; [|vm_compute; reflexivity].
    cbn [broadcast]. vm_compute. reflexivity.
Defined.

Lemma legacy_fees (p : N) :
  Z.to_N (Z.of_N p / 10) = p / 10 /\ Z.to_N (Z.of_N p * 2) = p * 2
  /\ (0 <= Z.of_N p / 10)%Z /\ (0 <= Z.of_N p * 2)%Z.
Proof.
  change 10%Z with (Z.of_N 10). change 2%Z with (Z.of_N 2).
  rewrite <- N2Z.inj_div, <- N2Z.inj_mul, !N2Z.id.
  repeat split; apply N2Z.is_nonneg.
Qed.

(** X15. What [Clear] of [pkg/cmd/clear.go] puts on the wire. On a node
    that answers with hexadecimal numbers (transaction counts below 2^64),
    once the user has confirmed and both signatures were made, it hands
    over the deauthorization for the zero address with fees taken from the
    gas price alone: a tenth of it, rounded down, as priority fee and twice
    it as fee cap, however small; this generation has no floor. *)
Theorem X15_Clear_legacy_fees {signer : Signer}
  (rpc : Node) (gasLimit : N) (victimPrivateKey relayerPrivateKey : PrivateKey)
  (victimAddress relayerAddress confirmation hc hv hr hp : string)
  (sigA sigO : list byte) :
  SignContract signer ->
  allHex hc = true -> hc <> EmptyString ->
  allHex hv = true -> hv <> EmptyString ->
  allHex hr = true -> hr <> EmptyString ->
  allHex hp = true -> hp <> EmptyString ->
  rpc.(eth_chainId) = Body ("0x" ++ hc)%string None ->
  rpc.(eth_getTransactionCount) victimAddress = Body ("0x" ++ hv)%string None ->
  rpc.(eth_getTransactionCount) relayerAddress = Body ("0x" ++ hr)%string None ->
  rpc.(eth_gasPrice) = Body ("0x" ++ hp)%string None ->
  Reference.hex_value hv < 2 ^ 64 -> Reference.hex_value hr < 2 ^ 64 ->
  ToLower confirmation = "y"%string \/ ToLower confirmation = "yes"%string ->
  N.of_nat (length (encode (List
     (Reference.envelope (Reference.hex_value hc) (Reference.hex_value hr)
        (Reference.hex_value hp / 10) (Reference.hex_value hp * 2) gasLimit
        zeroAddress (Reference.hex_value hv) sigA)))) < 2 ^ 64 ->
  Sign (authTupleMessage (Z.of_N (Reference.hex_value hc)) zeroAddress
          (Reference.hex_value hv)) victimPrivateKey = Ok sigA ->
  Sign (Keccak.Keccak256
          (x04 :: encode (List
             (Reference.envelope (Reference.hex_value hc)
                (Reference.hex_value hr) (Reference.hex_value hp / 10)
                (Reference.hex_value hp * 2) gasLimit zeroAddress
                (Reference.hex_value hv) sigA))))
       relayerPrivateKey = Ok sigO ->
  Clear_send_legacy rpc gasLimit victimPrivateKey relayerPrivateKey
    victimAddress relayerAddress confirmation
  = {| broadcast :=
         Some (Hex.EncodeToString
                 (x04 :: encode (List
                    (Reference.envelope (Reference.hex_value hc)
                       (Reference.hex_value hr) (Reference.hex_value hp / 10)
                       (Reference.hex_value hp * 2) gasLimit zeroAddress
                       (Reference.hex_value hv) sigA
                     ++ Reference.outer_fields sigO))));
       returned :=
         wrapError "failed to broadcast transaction: "
           (broadcastRawTx
              (Hex.EncodeToString
                 (x04 :: encode (List
                    (Reference.envelope (Reference.hex_value hc)
                       (Reference.hex_value hr) (Reference.hex_value hp / 10)
                       (Reference.hex_value hp * 2) gasLimit zeroAddress
                       (Reference.hex_value hv) sigA
                     ++ Reference.outer_fields sigO)))) rpc) |}.
Proof.
  intros Hok Hc Hc' Hv Hv' Hr Hr' Hp Hp' Ec Ev Er Ep Lv Lr Hconf Hsz HA HO.
  destruct (legacy_fees (Reference.hex_value hp)) as (T1 & T2 & T3 & T4).
  destruct (reads_ok rpc victimAddress relayerAddress hc hv hr)
    as (Gc & (vn & Gv & Uv) & (rn & Gr & Ur)); try assumption.
  assert (Gp : getGasPrice rpc = Ok (Z.of_N (Reference.hex_value hp))).
  { rewrite getGasPrice_hexResult, Ep. now apply hexResult_hex. }
  unfold Clear_send_legacy, Clear_transaction_legacy.
  rewrite Gc, Gv, Gr, Gp. cbn [wrapError bind].
  rewrite (confirmation_accepted confirmation Hconf), Uv, Ur.
  match goal with
  | |- context [clear_go.GenerateSet7702AuthTx ?r] =>
      rewrite (clear_go_GenerateSet7702AuthTx_reference Hok r sigA sigO)
  end; request_fields; rewrite ?T1, ?T2; try assumption; try lia.
  reflexivity.
Qed.

Lemma X15_Clear_legacy_fees_witness :
  broadcast (Clear_send_legacy (signer := exampleSigner) legacyNode 100000
               exampleUserKey exampleRelayerKey "0xaa" "0xbb" "YES")
  = Some (Hex.EncodeToString
            (x04 :: encode (List
               (Reference.envelope 1 5 9999999 199999998 100000 zeroAddress 5
                  (exampleAuthSig zeroAddress)
                ++ Reference.outer_fields
                     (value_of []
                        (exampleSign
                           (Keccak.Keccak256
                              (x04 :: encode (List
                                 (Reference.envelope 1 5 9999999 199999998
                                    100000 zeroAddress 5
                                    (exampleAuthSig zeroAddress)))))
                           exampleRelayerKey)))))).
Proof.
  rewrite (X15_Clear_legacy_fees (signer := exampleSigner)
             legacyNode 100000 exampleUserKey exampleRelayerKey
             "0xaa" "0xbb" "YES" "1" "5" "5" "5f5e0ff"
             (exampleAuthSig zeroAddress)
             (value_of []
                (exampleSign
                   (Keccak.Keccak256
                      (x04 :: encode (List
                         (Reference.envelope 1 5 9999999 199999998 100000
                            zeroAddress 5 (exampleAuthSig zeroAddress)))))
                   exampleRelayerKey))).
  - cbn [broadcast]. vm_compute. reflexivity.
  - exact exampleSign_contract.
  - reflexivity.
  - discriminate.
  - reflexivity.
  - discriminate.
  - reflexivity.
  - discriminate.
  - reflexivity.
  - discriminate.
  - reflexivity.
  - reflexivity.
  - reflexivity.
  - reflexivity.
  - vm_compute. reflexivity.
  - vm_compute. reflexivity.
  - right. reflexivity.
  - vm_compute. reflexivity.
  - vm_compute. reflexivity.
  - vm_compute. reflexivity.
Defined.

(* ================================================================== *)
(** * Part IV: the template address in the two commands *)
(* ================================================================== *)

Lemma uint64_of_int64_uint256 (z : Z) : uint256 (Big.uint64_of_int64 z).
Proof.
  apply uint256_small. unfold Big.uint64_of_int64.
  pose proof (Z.mod_pos_bound z (2 ^ 64) ltac:(lia)) as Hb.
  change (2 ^ 64) with (Z.to_N (2 ^ 64)%Z).
  apply Z2N.inj_lt; lia.
Qed.

Lemma zeroAddress_length : length zeroAddress = 20%nat.
Proof. reflexivity. Qed.

Section TemplateInversion.

Context {signer : Signer}.
Hypothesis signer_ok : SignContract signer.

(** A transaction that the later [GenerateSet7702AuthTx] returns is the
    reference envelope of its request, with the request's
    [TemplateAddress], extended by the outer signature. *)
Lemma part_001_GenerateSet7702AuthTx_inversion
  (req : SetAuthorizationRequest) (tx : string) :
  (0 <= req.(ChainId))%Z -> (0 <= req.(GasTip))%Z -> (0 <= req.(GasFeeCap))%Z ->
  uint256 (Z.to_N req.(ChainId)) -> uint256 req.(RelayerNonce) ->
  uint256 (Z.to_N req.(GasTip)) -> uint256 (Z.to_N req.(GasFeeCap)) ->
  uint256 req.(GasLimit) -> uint256 req.(UserEOANonce) ->
  length req.(TemplateAddress) = 20%nat ->
  part_001.GenerateSet7702AuthTx req = Ok tx ->
  exists sigA sigO,
    Sign (authTupleMessage req.(ChainId) req.(TemplateAddress)
            req.(UserEOANonce)) req.(UserEOAPrivateKey) = Ok sigA
    /\ Sign (Keccak.Keccak256
               (x04 :: encode (List
                  (Reference.envelope (Z.to_N req.(ChainId)) req.(RelayerNonce)
                     (Z.to_N req.(GasTip)) (Z.to_N req.(GasFeeCap))
                     req.(GasLimit) req.(TemplateAddress) req.(UserEOANonce)
                     sigA))))
            req.(RelayerEOAPrivateKey) = Ok sigO
    /\ tx = Hex.EncodeToString
              (x04 :: encode (List
                 (Reference.envelope (Z.to_N req.(ChainId)) req.(RelayerNonce)
                    (Z.to_N req.(GasTip)) (Z.to_N req.(GasFeeCap))
                    req.(GasLimit) req.(TemplateAddress) req.(UserEOANonce)
                    sigA
                  ++ Reference.outer_fields sigO)))
    /\ N.of_nat (length (encode (List
         (Reference.envelope (Z.to_N req.(ChainId)) req.(RelayerNonce)
            (Z.to_N req.(GasTip)) (Z.to_N req.(GasFeeCap))
            req.(GasLimit) req.(TemplateAddress) req.(UserEOANonce)
            sigA
          ++ Reference.outer_fields sigO)))) < 2 ^ 64.
Proof.
  intros Hc Ht Hf Uc Ur Ut Uf Ug Un Hd H.
  assert (Hlim : 500 < 2 ^ 64) by (vm_compute; reflexivity).
  unfold part_001.GenerateSet7702AuthTx in H.
  destruct (Sign (authTupleMessage (ChainId req) (TemplateAddress req)
                    (UserEOANonce req)) (UserEOAPrivateKey req))
    as [sigA|e|] eqn:HA.
  - rewrite (build7702Tx_reference signer_ok _ _ _ _ _ _ _ _ sigA) in H
      by assumption.
    cbn [bind] in H.
    destruct (Sign (Keccak.Keccak256
               (x04 :: encode (List
                  (Reference.envelope (Z.to_N req.(ChainId)) req.(RelayerNonce)
                     (Z.to_N req.(GasTip)) (Z.to_N req.(GasFeeCap))
                     req.(GasLimit) req.(TemplateAddress) req.(UserEOANonce)
                     sigA))))
            req.(RelayerEOAPrivateKey)) as [sigO|e|] eqn:HO.
    + pose proof (envelope_size _ _ _ _ _ _ _ sigA sigO Uc Ur Ut Uf Ug Un Hd)
        as [Hs1 Hs2].
      rewrite (signEIP7702Tx_reference signer_ok _ _ sigO) in H
        by (try assumption; lia).
      cbn [bind] in H. injection H as <-.
      exists sigA, sigO. repeat split; try assumption; try reflexivity. lia.
    + pose proof (envelope_size _ _ _ _ _ _ _ sigA sigA Uc Ur Ut Uf Ug Un Hd)
        as [Hs1 _].
      unfold signEIP7702Tx in H. rewrite hex_roundtrip in H.
      cbn [bind Byte.eqb negb] in H.
      rewrite RLPFacts.DecodeBytes_encode in H by lia.
      cbn [bind app] in H. rewrite HO in H. discriminate H.
    + pose proof (envelope_size _ _ _ _ _ _ _ sigA sigA Uc Ur Ut Uf Ug Un Hd)
        as [Hs1 _].
      unfold signEIP7702Tx in H. rewrite hex_roundtrip in H.
      cbn [bind Byte.eqb negb] in H.
      rewrite RLPFacts.DecodeBytes_encode in H by lia.
      cbn [bind app] in H. rewrite HO in H. discriminate H.
  - unfold build7702Tx in H. rewrite HA in H. discriminate H.
  - unfold build7702Tx in H. rewrite HA in H. discriminate H.
Qed.

End TemplateInversion.

(** The destination of a transaction in transport form: its sixth
    top-level field. *)
Lemma destination_of_envelope (c rn tip cap gl : N) (d : list byte) (n : N)
  (sigA sigO : list byte) :
  nth 5 (map of_item (Reference.envelope c rn tip cap gl d n sigA
                      ++ Reference.outer_fields sigO)) (Bytes [])
  = Bytes d.
Proof. reflexivity. Qed.

(** C9 (amended). [GenerateSet7702AuthTx] of [pkg/cmd/clear.go] does not
    read the request's [TemplateAddress]: whatever address a request
    carries, the result is the one for the zero address, which is also what
    the later generation returns for a clear request; when the signing
    calls succeed, that transaction has the zero address as destination and
    as delegate of the signed tuple. The later generation passes
    [TemplateAddress] on to [build7702Tx], and it is the one [Set] runs
    with. So the transaction that [Set] hands to [broadcastRawTx] is the
    envelope with the address the caller supplied, as destination and as
    delegate of the signed authorization. It is the transaction of [Clear]
    for the same node, keys and confirmation when that address is the zero
    address; for any other address [Clear] does not hand over the
    transaction of [Set]. *)
Theorem C9_template_address {signer : Signer}
  (req : SetAuthorizationRequest) (templateAddress : Address) :
  clear_go.GenerateSet7702AuthTx (withTemplate req templateAddress)
  = clear_go.GenerateSet7702AuthTx (withTemplate req zeroAddress)
  /\ clear_go.GenerateSet7702AuthTx (withTemplate req templateAddress)
     = part_001.GenerateSet7702AuthTx (withTemplate req zeroAddress)
  /\ part_001.GenerateSet7702AuthTx (withTemplate req templateAddress)
     = (unsignedTxHex <-
          build7702Tx req.(ChainId) req.(UserEOAPrivateKey) req.(RelayerNonce)
            req.(UserEOANonce) req.(GasTip) req.(GasFeeCap) req.(GasLimit)
            templateAddress [] ;;
        signEIP7702Tx unsignedTxHex req.(RelayerEOAPrivateKey))
  /\ (forall sigA sigO,
        SignContract signer ->
        (0 <= req.(ChainId))%Z -> (0 <= req.(GasTip))%Z ->
        (0 <= req.(GasFeeCap))%Z ->
        N.of_nat (length (encode (List
           (Reference.envelope (Z.to_N req.(ChainId)) req.(RelayerNonce)
              (Z.to_N req.(GasTip)) (Z.to_N req.(GasFeeCap)) req.(GasLimit)
              zeroAddress req.(UserEOANonce) sigA)))) < 2 ^ 64 ->
        Sign (authTupleMessage req.(ChainId) zeroAddress req.(UserEOANonce))
             req.(UserEOAPrivateKey) = Ok sigA ->
        Sign (Keccak.Keccak256
                (x04 :: encode (List
                   (Reference.envelope (Z.to_N req.(ChainId)) req.(RelayerNonce)
                      (Z.to_N req.(GasTip)) (Z.to_N req.(GasFeeCap))
                      req.(GasLimit) zeroAddress req.(UserEOANonce) sigA))))
             req.(RelayerEOAPrivateKey) = Ok sigO ->
        clear_go.GenerateSet7702AuthTx (withTemplate req templateAddress)
        = Ok (Hex.EncodeToString
                (x04 :: encode (List
                   (Reference.envelope (Z.to_N req.(ChainId)) req.(RelayerNonce)
                      (Z.to_N req.(GasTip)) (Z.to_N req.(GasFeeCap))
                      req.(GasLimit) zeroAddress req.(UserEOANonce) sigA
                    ++ Reference.outer_fields sigO)))))
  /\ (forall contractAddress rpc gasLimit userPrivateKey relayerPrivateKey
             userAddress relayerAddress confirmation,
        IsHexAddress contractAddress = true ->
        HexToAddress contractAddress = zeroAddress ->
        broadcast (Set_send contractAddress rpc gasLimit userPrivateKey
                     relayerPrivateKey userAddress relayerAddress confirmation)
        = broadcast (Clear_send rpc gasLimit userPrivateKey relayerPrivateKey
                       userAddress relayerAddress confirmation))
  /\ (forall contractAddress rpc gasLimit userPrivateKey relayerPrivateKey
             userAddress relayerAddress confirmation chainID userNonce
             relayerNonce gasTip gasFeeCap signedTx,
        SignContract signer ->
        getChainID rpc = Ok chainID -> (0 <= chainID)%Z ->
        getNonce rpc userAddress = Ok userNonce ->
        getNonce rpc relayerAddress = Ok relayerNonce ->
        getSuggestedGasFees rpc = Ok (gasTip, gasFeeCap) ->
        (0 <= gasFeeCap)%Z ->
        uint256 (Z.to_N chainID) -> uint256 (Z.to_N gasTip) ->
        uint256 (Z.to_N gasFeeCap) -> uint256 gasLimit ->
        broadcast (Set_send contractAddress rpc gasLimit userPrivateKey
                     relayerPrivateKey userAddress relayerAddress confirmation)
        = Some signedTx ->
        (exists sigA sigO,
           Sign (authTupleMessage chainID (HexToAddress contractAddress)
                   (Big.uint64_of_int64 userNonce)) userPrivateKey = Ok sigA
           /\ Sign (Keccak.Keccak256
                      (x04 :: encode (List
                         (Reference.envelope (Z.to_N chainID)
                            (Big.uint64_of_int64 relayerNonce) (Z.to_N gasTip)
                            (Z.to_N gasFeeCap) gasLimit
                            (HexToAddress contractAddress)
                            (Big.uint64_of_int64 userNonce) sigA))))
                   relayerPrivateKey = Ok sigO
           /\ signedTx
              = Hex.EncodeToString
                  (x04 :: encode (List
                     (Reference.envelope (Z.to_N chainID)
                        (Big.uint64_of_int64 relayerNonce) (Z.to_N gasTip)
                        (Z.to_N gasFeeCap) gasLimit
                        (HexToAddress contractAddress)
                        (Big.uint64_of_int64 userNonce) sigA
                      ++ Reference.outer_fields sigO))))
        /\ (fields <- topLevelFields signedTx ;; Ok (nth 5 fields (Bytes [])))
           = Ok (Bytes (HexToAddress contractAddress))
        /\ (HexToAddress contractAddress <> zeroAddress ->
            broadcast (Clear_send rpc gasLimit userPrivateKey relayerPrivateKey
                         userAddress relayerAddress confirmation)
            <> Some signedTx)).
Proof.
  split; [reflexivity|]. split; [reflexivity|]. split; [|split; [|split]].
  - unfold part_001.GenerateSet7702AuthTx. cbn [withTemplate ChainId
      UserEOAPrivateKey RelayerNonce UserEOANonce GasTip GasFeeCap GasLimit
      TemplateAddress RelayerEOAPrivateKey].
    destruct (build7702Tx _ _ _ _ _ _ _ _ _) as [u| |]; cbn [bind];
      [|reflexivity|reflexivity].
    destruct (signEIP7702Tx u _); reflexivity.
  - intros sigA sigO Hok Hc Ht Hf Hsz HA HO.
    apply (clear_go_GenerateSet7702AuthTx_reference Hok
             (withTemplate req templateAddress) sigA sigO); assumption.
  - intros c rpc gl ku kr au ar conf Hx Hz.
    unfold Set_send, Clear_send, Set_transaction, Clear_transaction.
    rewrite Hx, Hz. cbn [negb].
    destruct (getChainID rpc); cbn [wrapError bind send broadcast];
      try reflexivity.
    destruct (getNonce rpc au); cbn [wrapError bind send broadcast];
      reflexivity.
  - intros c rpc gl ku kr au ar conf chainID un rn tip cap signedTx
      Hok Gc Hc Gu Gr Gf Hcap Uc Ut Uf Ug Hb.
    pose proof (getSuggestedGasFees_tip rpc tip cap Gf) as Htip.
    assert (Htip0 : (0 <= tip)%Z) by (unfold minPriorityFee in Htip; lia).
    unfold Set_send in Hb.
    destruct (Set_transaction c rpc gl ku kr au ar conf) as [tx| |] eqn:E;
      cbn [send broadcast] in Hb; try discriminate Hb.
    injection Hb as ->.
    unfold Set_transaction in E.
    destruct (IsHexAddress c) eqn:Hx; cbn [negb] in E; [|discriminate E].
    destruct (HexToAddress_spec c Hx) as [Hlen _].
    rewrite Gc, Gu, Gr, Gf in E. cbn [wrapError bind fst snd] in E.
    destruct (negb (ToLower conf =? "y")%string
              && negb (ToLower conf =? "yes")%string) eqn:Hconf;
      [discriminate E|].
    match type of E with
    | context [part_001.GenerateSet7702AuthTx ?r] =>
        destruct (part_001.GenerateSet7702AuthTx r) as [t| |] eqn:G;
          cbn [wrapError] in E; try discriminate E
    end.
    injection E as ->.
    apply (part_001_GenerateSet7702AuthTx_inversion Hok) in G;
      request_fields; try assumption; try apply uint64_of_int64_uint256.
    revert G. request_fields. intros (sigA & sigO & HA & HO & EtS & Hsz).
    split; [exists sigA, sigO; auto|]. split.
    + rewrite EtS, topLevelFields_encode by exact Hsz. cbn [bind].
      now rewrite destination_of_envelope.
    + intros Hne HbC. unfold Clear_send in HbC.
      destruct (Clear_transaction rpc gl ku kr au ar conf) as [txC| |] eqn:EC;
        cbn [send broadcast] in HbC; try discriminate HbC.
      injection HbC as HtC.
      unfold Clear_transaction in EC.
      rewrite Gc, Gu, Gr, Gf in EC. cbn [wrapError bind fst snd] in EC.
      rewrite Hconf in EC.
      match type of EC with
      | context [part_001.GenerateSet7702AuthTx ?r] =>
          destruct (part_001.GenerateSet7702AuthTx r) as [t| |] eqn:GC;
            cbn [wrapError] in EC; try discriminate EC
      end.
      injection EC as ->.
      apply (part_001_GenerateSet7702AuthTx_inversion Hok) in GC;
        request_fields; try assumption; try apply uint64_of_int64_uint256;
        try apply zeroAddress_length.
      revert GC. request_fields. intros (sigA' & sigO' & _ & _ & EtC & HszC).
      rewrite EtC, EtS in HtC.
      apply (f_equal topLevelFields) in HtC.
      rewrite !topLevelFields_encode in HtC by assumption.
      apply (f_equal (fun r => fields <- r ;; Ok (nth 5 fields (Bytes []))))
        in HtC.
      cbn [bind] in HtC. rewrite !destination_of_envelope in HtC.
      apply Hne. congruence.
Qed.

Lemma C9_template_address_witness :
  clear_go.GenerateSet7702AuthTx (withTemplate exampleRequest exampleTemplate)
  = Ok (Hex.EncodeToString
          (x04 :: encode (List
             (exampleEnvelope zeroAddress
              ++ Reference.outer_fields (exampleOuterSig zeroAddress)))))
  /\ broadcast (Set_send (signer := exampleSigner)
                  "0x0000000000000000000000000000000000000000" mainnetLike
                  100000 exampleUserKey exampleRelayerKey "0xaa" "0xbb" "y")
     = broadcast (Clear_send (signer := exampleSigner) mainnetLike 100000
                    exampleUserKey exampleRelayerKey "0xaa" "0xbb" "y")
  /\ (fields <-
        topLevelFields
          (value_of ""%string
             (Set_transaction (signer := exampleSigner)
                "0X0102030405060708090A0b0c0D0e0F1011121314" mainnetLike
                100000 exampleUserKey exampleRelayerKey "0xaa" "0xbb" "y")) ;;
      Ok (nth 5 fields (Bytes [])))
     = Ok (Bytes (HexToAddress "0X0102030405060708090A0b0c0D0e0F1011121314"))
  /\ broadcast (Clear_send (signer := exampleSigner) mainnetLike 100000
                  exampleUserKey exampleRelayerKey "0xaa" "0xbb" "y")
     <> Some (value_of ""%string
                (Set_transaction (signer := exampleSigner)
                   "0X0102030405060708090A0b0c0D0e0F1011121314" mainnetLike
                   100000 exampleUserKey exampleRelayerKey "0xaa" "0xbb" "y")).
Proof.
  destruct (C9_template_address (signer := exampleSigner)
              exampleRequest exampleTemplate) as (_ & _ & _ & H4 & H5 & H6).
  split; [|split].
  - apply (H4 (exampleAuthSig zeroAddress) (exampleOuterSig zeroAddress)).
    + exact exampleSign_contract.
    + vm_compute. discriminate.
    + vm_compute. discriminate.
    + vm_compute. discriminate.
    + vm_compute. reflexivity.
    + vm_compute. reflexivity.
    + vm_compute. reflexivity.
  - apply H5; reflexivity.
  - destruct (H6 "0X0102030405060708090A0b0c0D0e0F1011121314"%string
                mainnetLike 100000 exampleUserKey exampleRelayerKey
                "0xaa"%string "0xbb"%string "y"%string
                1%Z 5%Z 5%Z 100000000%Z 2100000000%Z
                (value_of ""%string
                   (Set_transaction (signer := exampleSigner)
                      "0X0102030405060708090A0b0c0D0e0F1011121314" mainnetLike
                      100000 exampleUserKey exampleRelayerKey "0xaa" "0xbb"
                      "y")))
      as (_ & Hd & Hn).
    + exact exampleSign_contract.
    + reflexivity.
    + lia.
    + vm_compute. reflexivity.
    + vm_compute. reflexivity.
    + vm_compute. reflexivity.
    + lia.
    + vm_compute. reflexivity.
    + vm_compute. reflexivity.
    + vm_compute. reflexivity.
    + vm_compute. reflexivity.
    + vm_compute. reflexivity.
    + split; [exact Hd|]. apply Hn. vm_compute. discriminate.
Defined.

(** C9, as stated, fails for the [Set] command: on the same node, with the
    same keys and the same confirmation, [Set] for the contract address
    0x0102...1314 hands over a transaction whose destination is that
    address, [Clear] one whose destination is the zero address, and the two
    differ. *)
Lemma C9_counterexample :
  IsHexAddress "0X0102030405060708090A0b0c0D0e0F1011121314" = true
  /\ (fields <-
        (tx <- Set_transaction (signer := exampleSigner)
                 "0X0102030405060708090A0b0c0D0e0F1011121314" mainnetLike
                 100000 exampleUserKey exampleRelayerKey "0xaa" "0xbb" "y" ;;
         topLevelFields tx) ;;
      Ok (nth 5 fields (Bytes [])))
     = Ok (Bytes exampleTemplate)
  /\ (fields <-
        (tx <- Clear_transaction (signer := exampleSigner) mainnetLike
                 100000 exampleUserKey exampleRelayerKey "0xaa" "0xbb" "y" ;;
         topLevelFields tx) ;;
      Ok (nth 5 fields (Bytes [])))
     = Ok (Bytes zeroAddress)
  /\ broadcast (Set_send (signer := exampleSigner)
                  "0X0102030405060708090A0b0c0D0e0F1011121314" mainnetLike
                  100000 exampleUserKey exampleRelayerKey "0xaa" "0xbb" "y")
     <> broadcast (Clear_send (signer := exampleSigner) mainnetLike 100000
                     exampleUserKey exampleRelayerKey "0xaa" "0xbb" "y").
Proof.
  split; [reflexivity|]. split; [vm_compute; reflexivity|].
  split; [vm_compute; reflexivity|]. vm_compute. discriminate.
Qed.
